(** * Attendance accounting engine: a shallow embedding and its properties

    The engine lives in the browser script of the attendance application
    ([src/unnamed/part_001]): [toggleDayStatus], [monthKey],
    [clampToSemesterMonth], [isMonthAllowed], [getStats], [getMonthlyStats],
    the percentage and the bar colour of [updateCardStats], the cell
    classification, the grid and the click handler of [renderCalendar],
    [showAttendance] and [changeMonth].

    Modelling decisions.
    - A JavaScript [Date] is its time value: an integer count of
      milliseconds, read in local time with a constant offset from UTC (no
      daylight-saving jump), so that local calendar fields are the ECMAScript
      functions [YearFromTime], [MonthFromTime], [DateFromTime] and [WeekDay]
      of the time value.  [TimeClip] is left out: the definitions describe
      the code on valid dates, and a statement that builds the dates of an
      arbitrary year bounds the year ([dateYear]) and shows the dates to be
      in the range of time values ([inDateRange]).
    - The globals [attendanceData] and [offDaysData] are passed explicitly;
      an object used as a dictionary is a [gmap] of its own properties.
      Property reads follow the prototype chain: the module [Proto] has the
      reads and the edit of [toggleDayStatus] along the chain, with the
      arrays that a toggle under an inherited class name (["constructor"],
      ["__proto__"], ...) puts on [Object], on the functions of
      [Object.prototype] and on [Object.prototype] itself.  The definitions
      on own properties are what the code does in a page where no such
      array exists, for class names that objects do not inherit; the
      statements about toggles say so in their hypotheses.
    - [new Date()] reads the clock: each read is a parameter.
      [renderCalendar] reads it twice, once in its call of
      [getMonthlyStats] ([today0]) and once for the cells ([today]).
    - Counters, months and years are integers, which binary64 holds exactly
      below 2^53 in size; the percentage is computed on IEEE-754 binary64
      numbers, as JavaScript does. *)

From Stdlib Require Import ZArith Lia Bool List Floats.
From stdpp Require Import base numbers list list_numbers strings gmap pretty sorting.

Local Open Scope Z_scope.

(** ** ECMAScript date arithmetic (ECMA-262, "Time Values and Time Range") *)

Module JSDate.

(** A time value. *)
Abbreviation Date := Z (only parsing).

Definition msPerDay : Z := 86400000.

Definition Day (t : Date) : Z := t / msPerDay.

Definition TimeWithinDay (t : Date) : Z := t mod msPerDay.

Definition DaysInYear (y : Z) : Z :=
  if negb (y mod 4 =? 0) then 365
  else if negb (y mod 100 =? 0) then 366
  else if negb (y mod 400 =? 0) then 365
  else 366.

(** Day number of the first day of year [y]. *)
Definition DayFromYear (y : Z) : Z :=
  365 * (y - 1970) + (y - 1969) / 4 - (y - 1901) / 100 + (y - 1601) / 400.

(** The largest [y] with [DayFromYear y <= d]: an estimate from the mean
    length of a Gregorian year, corrected by at most one. *)
Definition YearFromDay (d : Z) : Z :=
  let y0 := 1970 + (400 * d) / 146097 in
  if DayFromYear (y0 + 1) <=? d then y0 + 1
  else if d <? DayFromYear y0 then y0 - 1
  else y0.

Definition YearFromTime (t : Date) : Z := YearFromDay (Day t).

Definition InLeapYear (t : Date) : Z :=
  if DaysInYear (YearFromTime t) =? 366 then 1 else 0.

Definition DayWithinYear (t : Date) : Z :=
  Day t - DayFromYear (YearFromTime t).

(** Day within the year on which month [m] (0 = January) starts; [m = 12] is
    the length of the year. *)
Definition monthStart (leap m : Z) : Z :=
  match m with
  | 0 => 0
  | 1 => 31
  | 2 => 59 + leap
  | 3 => 90 + leap
  | 4 => 120 + leap
  | 5 => 151 + leap
  | 6 => 181 + leap
  | 7 => 212 + leap
  | 8 => 243 + leap
  | 9 => 273 + leap
  | 10 => 304 + leap
  | 11 => 334 + leap
  | _ => 365 + leap
  end.

Definition MonthFromTime (t : Date) : Z :=
  let d := DayWithinYear t in
  let leap := InLeapYear t in
  if d <? 31 then 0
  else if d <? 59 + leap then 1
  else if d <? 90 + leap then 2
  else if d <? 120 + leap then 3
  else if d <? 151 + leap then 4
  else if d <? 181 + leap then 5
  else if d <? 212 + leap then 6
  else if d <? 243 + leap then 7
  else if d <? 273 + leap then 8
  else if d <? 304 + leap then 9
  else if d <? 334 + leap then 10
  else 11.

Definition DateFromTime (t : Date) : Z :=
  DayWithinYear t - monthStart (InLeapYear t) (MonthFromTime t) + 1.

(** 0 = Sunday, ..., 6 = Saturday; day 0 (1 January 1970) is a Thursday. *)
Definition WeekDay (t : Date) : Z := (Day t + 4) mod 7.

(** [MakeDay year month date]: months outside 0..11 carry into the year, and
    the day of the month is an offset from the first of the month. *)
Definition MakeDay (year month date : Z) : Z :=
  let ym := year + month / 12 in
  let mn := month mod 12 in
  let leap := if DaysInYear ym =? 366 then 1 else 0 in
  DayFromYear ym + monthStart leap mn + date - 1.

Definition MakeDate (day time : Z) : Date := day * msPerDay + time.

(** [new Date(year, month, date)]: midnight of that day; a year in 0..99
    stands for 1900 + year. *)
Definition newDate (year month date : Z) : Date :=
  let yr := if (0 <=? year) && (year <=? 99) then 1900 + year else year in
  MakeDate (MakeDay yr month date) 0.

(** The getters of a [Date], in local time. *)
Abbreviation getFullYear := YearFromTime.
Abbreviation getMonth := MonthFromTime.
Abbreviation getDate := DateFromTime.
Abbreviation getDay := WeekDay.

(** [d.setMonth(month)]: same year, day of month and time of day. *)
Definition setMonth (t : Date) (month : Z) : Date :=
  MakeDate (MakeDay (YearFromTime t) month (DateFromTime t)) (TimeWithinDay t).

End JSDate.

Export JSDate.

(** ** The attendance stores

    [attendanceData[classId]["YYYY-MM"]] is the array of absent day numbers,
    [offDaysData] has the same shape for off days. *)

Abbreviation Store := (gmap string (gmap string (list Z))).

Record AppData := {
  attendanceData : Store;
  offDaysData : Store
}.

(** [(data[classId] && data[classId][key]) || []]: objects and arrays are
    truthy, so the default is taken exactly when a property is missing.
    The read is through own properties, which is the read of the code on
    objects that inherit no month array ([lookupDays_pristine]);
    [Proto.lookupDays] is the read along the prototype chain. *)
Definition lookupDays (data : Store) (classId key : string) : list Z :=
  match data !! classId with
  | Some byMonth =>
      match byMonth !! key with
      | Some days => days
      | None => []
      end
  | None => []
  end.

(** [arr.includes(d)] *)
Definition includes (d : Z) (arr : list Z) : bool := bool_decide (d ∈ arr).

(** [s.padStart(2, '0')] *)
Definition padStart2 (s : string) : string :=
  match String.length s with
  | O => "00"
  | S O => "0" +:+ s
  | _ => s
  end.

(** [`${year}-${String(month+1).padStart(2,'0')}`] *)
Definition monthKey (year month : Z) : string :=
  pretty year +:+ "-" +:+ padStart2 (pretty (month + 1)).

(** ** Toggling a day *)

(** [arr.indexOf(x)]: the first index holding [x], or -1. *)
Fixpoint indexOf (x : Z) (arr : list Z) : Z :=
  match arr with
  | [] => -1
  | y :: rest =>
      if x =? y then 0
      else let i := indexOf x rest in if i =? -1 then -1 else i + 1
  end.

(** [arr.sort((a, b) => a - b)]: ascending numeric order. *)
Definition sortAscending (arr : list Z) : list Z := merge_sort Z.le arr.

(** The edit of the array of one month: un-mark a marked day
    ([splice(dayIndex, 1)]), mark an unmarked one ([push] then [sort]). *)
Definition toggleDays (day : Z) (daysArray : list Z) : list Z :=
  let dayIndex := indexOf day daysArray in
  if dayIndex >? -1 then delete (Z.to_nat dayIndex) daysArray
  else sortAscending (daysArray ++ [day]).

(** The in-place update of [dataObj] through its own properties: missing
    entries are created first.  This is the update of the code for a class
    name that objects do not inherit, on objects that inherit no month
    array ([toggleIn_pristine]); [Proto.toggleIn] is the update along the
    prototype chain. *)
Definition toggleIn (dataObj : Store) (classId key : string) (day : Z) : Store :=
  let dataObj1 :=
    match dataObj !! classId with
    | Some _ => dataObj
    | None => <[classId := ∅]> dataObj
    end in
  let byMonth := default ∅ (dataObj1 !! classId) in
  let byMonth1 :=
    match byMonth !! key with
    | Some _ => byMonth
    | None => <[key := []]> byMonth
    end in
  let daysArray := default [] (byMonth1 !! key) in
  <[classId := <[key := toggleDays day daysArray]> byMonth1]> dataObj1.

(** [toggleDayStatus(classId, day, month, year, type)], as a function of the
    two stores.  Saving and re-rendering follow the edit and do not change
    the stores. *)
Definition toggleDayStatus (data : AppData) (classId : string)
    (day month year : Z) (type : string) : AppData :=
  let key := monthKey year month in
  if bool_decide (type = "absent")
  then {| attendanceData := toggleIn (attendanceData data) classId key day;
          offDaysData := offDaysData data |}
  else {| attendanceData := attendanceData data;
          offDaysData := toggleIn (offDaysData data) classId key day |}.

(** ** The percentage shown on cards and calendars *)

(** A JavaScript number holding the integer [z] (exact below 2^53). *)
Definition numberOfZ (z : Z) : float :=
  if z <? 0 then PrimFloat.opp (PrimFloat.of_uint63 (Uint63.of_Z (- z)))
  else PrimFloat.of_uint63 (Uint63.of_Z z).

(** [Math.round(x)]: the integer nearest to [x], a tie going up, that is
    [floor (x + 1/2)] on the exact value of [x]; [None] when [x] is not a
    finite number. *)
Definition Math_round (x : float) : option Z :=
  match Prim2SF x with
  | S754_zero _ => Some 0
  | S754_finite s m e =>
      let n := if s then Z.neg m else Z.pos m in
      Some (if 0 <=? e then n * 2 ^ e else (2 * n + 2 ^ (- e)) / 2 ^ (1 - e))
  | _ => None
  end.

(** [conducted === 0 ? 0 : Math.round(((conducted - absent) / conducted) * 100)] *)
Definition percent (conducted absent : Z) : option Z :=
  if conducted =? 0 then Some 0
  else
    Math_round
      (PrimFloat.mul
         (PrimFloat.div
            (PrimFloat.sub (numberOfZ conducted) (numberOfZ absent))
            (numberOfZ conducted))
         (numberOfZ 100)).

(** ** Statistics and calendar cells *)

Record Counts := {
  totalConducted : Z;
  totalAbsent : Z;
  totalOff : Z
}.

Definition noCounts : Counts :=
  {| totalConducted := 0; totalAbsent := 0; totalOff := 0 |}.

(** The result of [getStats]. *)
Record SemesterStats := {
  counts : Counts;
  totalPossibleLeaves : Z;
  possibleLeaves : Z
}.

(** The six outcomes of the branch that styles a calendar cell. *)
Inductive ClassDayState :=
  | OutsideSemester   (* "muted", tooltip " - Outside semester" *)
  | Future            (* "muted", tooltip " - Future date" *)
  | Weekend           (* "weekend" *)
  | Holiday           (* "off clickable" *)
  | Absent            (* "absent clickable" *)
  | Present.          (* "present clickable" *)

(** What [renderCalendar] shows for an allowed month. *)
Record Calendar := {
  monthlyPercent : option Z;
  monthStats : Counts;
  cells : list (Z * ClassDayState)
}.

(** One pass of the body of the day loop, the same in [getStats] and
    [getMonthlyStats]. *)
Definition countDay (year month : Z) (offs absents : list Z)
    (acc : Counts) (d : Z) : Counts :=
  let date := newDate year month d in
  let wd := getDay date in
  if (wd =? 0) || (wd =? 6) then acc
  else if includes d offs then
    {| totalConducted := totalConducted acc;
       totalAbsent := totalAbsent acc;
       totalOff := totalOff acc + 1 |}
  else
    {| totalConducted := totalConducted acc + 1;
       totalAbsent := if includes d absents then totalAbsent acc + 1 else totalAbsent acc;
       totalOff := totalOff acc |}.

(** [for (let d = startDay; d <= endDay; d++) ...] *)
Definition countDays (year month : Z) (offs absents : list Z)
    (startDay endDay : Z) (acc : Counts) : Counts :=
  foldl (countDay year month offs absents) acc (seqZ startDay (endDay - startDay + 1)).

(** Ghost state of the day loop: the [date] of every pass that adds one to
    [totalConducted]. *)
Definition conductedDates (year month : Z) (offs : list Z)
    (startDay endDay : Z) : list Date :=
  newDate year month <$>
    List.filter
      (fun d => let wd := getDay (newDate year month d) in
                negb ((wd =? 0) || (wd =? 6)) && negb (includes d offs))
      (seqZ startDay (endDay - startDay + 1)).

Definition addCounts (a b : Counts) : Counts :=
  {| totalConducted := totalConducted a + totalConducted b;
     totalAbsent := totalAbsent a + totalAbsent b;
     totalOff := totalOff a + totalOff b |}.

(** Rounding of the exact quotient [n / d] to the nearest integer, a tie
    going up. *)
Definition roundHalfUp (n d : Z) : Z := (2 * n + d) / (2 * d).

Section Engine.

(** The semester window, two constants of the script. *)
Variables semesterStart semesterEnd : Date.

Definition clampToSemesterMonth (date : Date) : Z * Z :=
  if date <? semesterStart then (getFullYear semesterStart, getMonth semesterStart)
  else if semesterEnd <? date then (getFullYear semesterEnd, getMonth semesterEnd)
  else (getFullYear date, getMonth date).

(** [isMonthAllowed(year, month)], for a month whose first and last day are
    dates: on an invalid date both comparisons of the code are false. *)
Definition isMonthAllowed (year month : Z) : bool :=
  let daysInMonth := getDate (newDate year (month + 1) 0) in
  let monthStart := newDate year month 1 in
  let monthEnd := newDate year month daysInMonth in
  negb ((monthEnd <? semesterStart) || (semesterEnd <? monthStart)).

(** [startDay] and [endDay] of the day loop.  [getStats] and
    [getMonthlyStats] repeat these lines; [ref] is [endDate] in the first
    and [today] in the second. *)
Definition dayRange (year month : Z) (ref : Date) : Z * Z :=
  let daysInMonth := getDate (newDate year (month + 1) 0) in
  let startDay :=
    if (year =? getFullYear semesterStart) && (month =? getMonth semesterStart)
    then getDate semesterStart else 1 in
  let endDay := daysInMonth in
  let endDay :=
    if (year =? getFullYear semesterEnd) && (month =? getMonth semesterEnd)
    then Z.min endDay (getDate semesterEnd) else endDay in
  let endDay :=
    if (year =? getFullYear ref) && (month =? getMonth ref)
    then Z.min endDay (getDate ref) else endDay in
  (startDay, endDay).

(** The body of the month loop of [getStats], for the month of [cur]. *)
Definition getStats_month (att off : Store) (classId : string)
    (endDate cur : Date) (acc : Counts) : Counts :=
  let year := getFullYear cur in
  let month := getMonth cur in
  let key := monthKey year month in
  let absents := lookupDays att classId key in
  let offs := lookupDays off classId key in
  let '(startDay, endDay) := dayRange year month endDate in
  countDays year month offs absents startDay endDay acc.

(** [while (cur <= endDate) { ...; cur.setMonth(cur.getMonth() + 1) }];
    [None] when the fuel runs out before the loop ends. *)
Fixpoint getStats_loop (fuel : nat) (att off : Store) (classId : string)
    (endDate cur : Date) (acc : Counts) : option Counts :=
  if cur <=? endDate then
    match fuel with
    | O => None
    | S fuel' =>
        getStats_loop fuel' att off classId endDate
          (setMonth cur (getMonth cur + 1))
          (getStats_month att off classId endDate cur acc)
    end
  else Some acc.

(** The first value of [cur] and the fuel of the month loop: the number of
    days from that value to [endDate], plus one (every pass moves [cur]
    forward by a month). *)
Definition getStats_cur : Date :=
  newDate (getFullYear semesterStart) (getMonth semesterStart) 1.

Definition getStats_fuel (endDate : Date) : nat :=
  S (Z.to_nat (Day endDate - Day getStats_cur)).

(** [getStats(classId)] *)
Definition getStats (att off : Store) (classId : string) (today : Date)
    : option SemesterStats :=
  let endDate := if today <? semesterEnd then today else semesterEnd in
  let cur := getStats_cur in
  match getStats_loop (getStats_fuel endDate) att off classId endDate cur noCounts with
  | Some acc =>
      let totalPossibleLeaves := totalConducted acc / 4 in
      let possibleLeaves := totalPossibleLeaves - totalAbsent acc in
      let possibleLeaves := if possibleLeaves <? 0 then 0 else possibleLeaves in
      Some {| counts := acc;
              totalPossibleLeaves := totalPossibleLeaves;
              possibleLeaves := possibleLeaves |}
  | None => None
  end.

(** [getMonthlyStats(classId, month, year)] *)
Definition getMonthlyStats (att off : Store) (classId : string)
    (month year : Z) (today : Date) : Counts :=
  let key := monthKey year month in
  let absents := lookupDays att classId key in
  let offs := lookupDays off classId key in
  let '(startDay, endDay) := dayRange year month today in
  countDays year month offs absents startDay endDay noCounts.

(** The percentage that [updateCardStats] writes on the card of a class. *)
Definition cardPercent (att off : Store) (classId : string) (today : Date)
    : option Z :=
  match getStats att off classId today with
  | Some stats => percent (totalConducted (counts stats)) (totalAbsent (counts stats))
  | None => None
  end.

(** The branch of [renderCalendar] that styles the cell of [day]. *)
Definition classifyDay (att off : Store) (classId : string)
    (month year : Z) (today : Date) (day : Z) : ClassDayState :=
  let key := monthKey year month in
  let absentDays := lookupDays att classId key in
  let offDays := lookupDays off classId key in
  let date := newDate year month day in
  let inSemester := (semesterStart <=? date) && (date <=? semesterEnd) in
  let isWeekend := (getDay date =? 0) || (getDay date =? 6) in
  let isFuture := today <? date in
  if negb inSemester then OutsideSemester
  else if isFuture then Future
  else if isWeekend then Weekend
  else if includes day offDays then Holiday
  else if includes day absentDays then Absent
  else Present.

(** [renderCalendar(classId, month, year)]: [None] stands for the
    "Month outside semester window" message.  The clock is read twice:
    [today0] is the [new Date()] of the call of [getMonthlyStats], [today]
    the [new Date()] of [renderCalendar] itself, which the cells use. *)
Definition renderCalendar (att off : Store) (classId : string)
    (month year : Z) (today0 today : Date) : option Calendar :=
  if negb (isMonthAllowed year month) then None
  else
    let monthStats := getMonthlyStats att off classId month year today0 in
    let daysInMonth := getDate (newDate year (month + 1) 0) in
    Some {| monthlyPercent := percent (totalConducted monthStats) (totalAbsent monthStats);
            monthStats := monthStats;
            cells := (fun day => (day, classifyDay att off classId month year today day))
                       <$> seqZ 1 daysInMonth |}.

(** *** Ghost state of the two statistics functions *)


(** The dates counted as conducted by one pass of the month loop. *)
Definition getStats_month_conducted (off : Store) (classId : string)
    (endDate cur : Date) : list Date :=
  let year := getFullYear cur in
  let month := getMonth cur in
  let offs := lookupDays off classId (monthKey year month) in
  let '(startDay, endDay) := dayRange year month endDate in
  conductedDates year month offs startDay endDay.

(** The month loop again, collecting the dates of its passes. *)
Fixpoint getStats_loop_conducted (fuel : nat) (off : Store) (classId : string)
    (endDate cur : Date) : list Date :=
  if cur <=? endDate then
    match fuel with
    | O => []
    | S fuel' =>
        getStats_month_conducted off classId endDate cur
        ++ getStats_loop_conducted fuel' off classId endDate
             (setMonth cur (getMonth cur + 1))
    end
  else [].

(** The dates counted as conducted by [getStats]. *)
Definition getStats_conducted (off : Store) (classId : string) (today : Date)
    : list Date :=
  let endDate := if today <? semesterEnd then today else semesterEnd in
  getStats_loop_conducted (getStats_fuel endDate) off classId endDate getStats_cur.

(** *** The engine in the words of its description *)

(** Classification of a date, first match first. *)
Definition classifyDay_spec (att off : Store) (classId : string)
    (date today : Date) : ClassDayState :=
  let key := monthKey (getFullYear date) (getMonth date) in
  if (date <? semesterStart) || (semesterEnd <? date) then OutsideSemester
  else if today <? date then Future
  else if (getDay date =? 6) || (getDay date =? 0) then Weekend
  else if bool_decide (getDate date ∈ lookupDays off classId key) then Holiday
  else if bool_decide (getDate date ∈ lookupDays att classId key) then Absent
  else Present.

(** Every calendar month, as (year, month), from the month of [first]
    through the month of [last]. *)
Definition monthsFromTo (first last : Date) : list (Z * Z) :=
  let k1 := 12 * getFullYear first + getMonth first in
  let k2 := 12 * getFullYear last + getMonth last in
  (fun k => (k / 12, k mod 12)) <$> seqZ k1 (k2 - k1 + 1).

(** The sum of the monthly statistics from the start month of the semester
    through the month of [min(today, semesterEnd)]. *)
Definition sumMonthlyStats (att off : Store) (classId : string) (today : Date)
    : Counts :=
  foldl
    (fun acc ym => addCounts acc (getMonthlyStats att off classId ym.2 ym.1 today))
    noCounts
    (monthsFromTo semesterStart (Z.min today semesterEnd)).

End Engine.

(** The window of the script: July 27, 2025 to November 22, 2025. *)
Module Semester.
Definition semesterStart : Date := newDate 2025 6 27.
Definition semesterEnd : Date := newDate 2025 10 22.
End Semester.

(** ** Notions used in the statements *)

Module Months.

(** [1] in a leap year, [0] otherwise. *)
Definition leapOf (y : Z) : Z := if DaysInYear y =? 366 then 1 else 0.

(** Day number of the first day of the month of index [k = 12 * year + month]. *)
Definition monthFirst (k : Z) : Z :=
  DayFromYear (k / 12) + monthStart (leapOf (k / 12)) (k mod 12).

(** Index of the month a time value falls in. *)
Definition monthIndex (t : Date) : Z := 12 * YearFromTime t + MonthFromTime t.

(** The year the [Date] constructor takes for [y]. *)
Definition ctorYear (y : Z) : Z :=
  if (0 <=? y) && (y <=? 99) then 1900 + y else y.

(** Midnight of the first day of the month of index [k]: the values of
    [cur] in the month loop. *)
Definition monthCur (k : Z) : Date := MakeDate (monthFirst k) 0.

End Months.

Export Months.

(** The store that [type] selects. *)
Definition targetStore (type : string) (data : AppData) : Store :=
  if bool_decide (type = "absent") then attendanceData data else offDaysData data.

(** The store that [type] leaves alone. *)
Definition otherStore (type : string) (data : AppData) : Store :=
  if bool_decide (type = "absent") then offDaysData data else attendanceData data.

(** No day is marked both absent and off. *)
Definition mutuallyExclusive (data : AppData) : Prop :=
  ∀ (classId key : string) (d : Z),
    ¬ (d ∈ lookupDays (attendanceData data) classId key
       ∧ d ∈ lookupDays (offDaysData data) classId key).

(** [st'] differs from [st] at most in the array of [classId] and [key]. *)
Definition changedOnlyAt (st st' : Store) (classId key : string) : Prop :=
  (∀ c : string, c ≠ classId → st' !! c = st !! c)
  ∧ (∀ k : string, k ≠ key →
       default (∅ : gmap string (list Z)) (st' !! classId) !! k
       = default (∅ : gmap string (list Z)) (st !! classId) !! k).

(** Every array of both stores is a set of days. *)
Definition daySets (data : AppData) : Prop :=
  ∀ (classId key : string),
    NoDup (lookupDays (attendanceData data) classId key)
    ∧ NoDup (lookupDays (offDaysData data) classId key).

(** What [percent] returns on counters below 200: the exact quotient
    rounded half up, except at the quotient 23/40, where the product of the
    two binary64 operations falls just below 57.5. *)
Definition percentExpected (conducted absent : Z) : Z :=
  if conducted =? 0 then 0
  else if 40 * (conducted - absent) =? 23 * conducted then 57
  else roundHalfUp (100 * (conducted - absent)) conducted.

Definition percentAgrees (conducted absent : Z) : bool :=
  match percent conducted absent with
  | Some p => p =? percentExpected conducted absent
  | None => false
  end.

(** Inputs of the scenarios. *)
Module Scenario.

Import Semester.

(** August 15, 2025, 10 o'clock. *)
Definition aug15 : Date := newDate 2025 7 15 + 36000000.

(** September 19, 2025, 10 o'clock: the fortieth class day of the semester. *)
Definition sep19 : Date := newDate 2025 8 19 + 36000000.

(** One absence on Monday, July 28, 2025. *)
Definition oneAbsence : AppData :=
  {| attendanceData := {[ "cs301" := {[ "2025-07" := [28] ]} ]};
     offDaysData := ∅ |}.

(** Seventeen absences in August 2025. *)
Definition seventeenAbsences : Store :=
  {[ "cs301" :=
       {[ "2025-08" := [4; 5; 6; 7; 8; 11; 12; 13; 14; 15; 18; 19; 20; 21; 22; 25; 26] ]} ]}.

End Scenario.

(** ** Class names that every object inherits

    [dataObj[classId]] reads a property along the prototype chain.  The
    stores and the objects of the classes are plain objects, so a name that
    is not an own property is looked up on [Object.prototype]: there it is
    found when it is ["__proto__"] (the value is [Object.prototype] itself),
    when it is the name of one of its functions (["constructor"] is
    [Object]), or when a toggle has put an array under that name.  The
    stores of [AppData] hold the own properties; [lookupDays], [toggleIn]
    and [toggleDayStatus] above are the reads and the edit for class names
    that nothing inherits, in a page where no toggle has used an inherited
    name.  The module [Proto] below has the reads and the edit for every
    class name. *)

(** The properties of [Object.prototype] whose values are functions. *)
Definition functionNames : list string :=
  ["constructor"; "hasOwnProperty"; "isPrototypeOf"; "propertyIsEnumerable";
   "toLocaleString"; "toString"; "valueOf"; "__defineGetter__";
   "__defineSetter__"; "__lookupGetter__"; "__lookupSetter__"].

(** The string-named properties of [Object.prototype]. *)
Definition inheritedNames : list string := "__proto__" :: functionNames.

(** A class name that a plain object does not inherit. *)
Definition ownName (classId : string) : Prop := classId ∉ inheritedNames.

Module Proto.

(** The month arrays that toggles have put on the objects that the stores
    inherit from: on the functions of [Object.prototype], by the name of
    the function, and on [Object.prototype] itself, where an array can in
    turn carry month arrays, being the object of the class of its name. *)
Record Shared := {
  onFunctions : gmap string (gmap string (list Z));
  onPrototype : gmap string (list Z * gmap string (list Z))
}.

(** The objects as the page loads them. *)
Definition pristine : Shared := {| onFunctions := ∅; onPrototype := ∅ |}.

Record Heap := {
  stores : AppData;
  shared : Shared
}.

(** The value of [dataObj[classId]]. *)
Inductive Holder :=
  | OwnObject (byMonth : gmap string (list Z))  (* an own property of the store *)
  | FunctionObject (name : string)              (* a function of [Object.prototype] *)
  | PrototypeObject                             (* [Object.prototype] *)
  | PrototypeArray (key : string).              (* an array put on [Object.prototype] *)

(** [dataObj[classId]]; [None] is [undefined]. *)
Definition holder (sh : Shared) (dataObj : Store) (classId : string) : option Holder :=
  match dataObj !! classId with
  | Some byMonth => Some (OwnObject byMonth)
  | None =>
      if bool_decide (classId = "__proto__") then Some PrototypeObject
      else if bool_decide (classId ∈ functionNames) then Some (FunctionObject classId)
      else
        match onPrototype sh !! classId with
        | Some _ => Some (PrototypeArray classId)
        | None => None
        end
  end.

(** The own property [key] of the holder, for a month key. *)
Definition ownDays (sh : Shared) (ho : Holder) (key : string) : option (list Z) :=
  match ho with
  | OwnObject byMonth => byMonth !! key
  | FunctionObject name => default ∅ (onFunctions sh !! name) !! key
  | PrototypeObject => fst <$> onPrototype sh !! key
  | PrototypeArray p =>
      match onPrototype sh !! p with
      | Some (_, props) => props !! key
      | None => None
      end
  end.

(** The property [key] that the holder inherits from [Object.prototype]. *)
Definition inheritedDays (sh : Shared) (ho : Holder) (key : string) : option (list Z) :=
  match ho with
  | PrototypeObject => None
  | OwnObject _ | FunctionObject _ | PrototypeArray _ => fst <$> onPrototype sh !! key
  end.

(** [dataObj[classId][key]] for a month key. *)
Definition getDays (sh : Shared) (ho : Holder) (key : string) : option (list Z) :=
  match ownDays sh ho key with
  | Some days => Some days
  | None => inheritedDays sh ho key
  end.

(** [(data[classId] && data[classId][key]) || []] *)
Definition lookupDays (sh : Shared) (data : Store) (classId key : string) : list Z :=
  match holder sh data classId with
  | Some ho => default [] (getDays sh ho key)
  | None => []
  end.

(** The array under [key] on [Object.prototype] becomes [days]; the
    properties put on the array stay. *)
Definition setPrototypeArray (sh : Shared) (key : string) (days : list Z) : Shared :=
  {| onFunctions := onFunctions sh;
     onPrototype :=
       <[key := (days, (default ([], ∅) (onPrototype sh !! key)).2)]> (onPrototype sh) |}.

(** The own property [key] of the holder becomes [days]. *)
Definition setOwn (classId : string) (ho : Holder) (key : string) (days : list Z)
    (dataObj : Store) (sh : Shared) : Store * Shared :=
  match ho with
  | OwnObject byMonth => (<[classId := <[key := days]> byMonth]> dataObj, sh)
  | FunctionObject name =>
      (dataObj,
       {| onFunctions :=
            <[name := <[key := days]> (default ∅ (onFunctions sh !! name))]>
              (onFunctions sh);
          onPrototype := onPrototype sh |})
  | PrototypeObject => (dataObj, setPrototypeArray sh key days)
  | PrototypeArray p =>
      (dataObj,
       {| onFunctions := onFunctions sh;
          onPrototype :=
            <[p := ((default ([], ∅) (onPrototype sh !! p)).1,
                    <[key := days]> (default ([], ∅) (onPrototype sh !! p)).2)]>
              (onPrototype sh) |})
  end.

(** The edit of [toggleDayStatus] on [dataObj].  [dataObj[classId] = {}]
    is run when the name is found nowhere; [dataObj[classId][key] = []]
    when the key is found nowhere, and makes an own property of the holder.
    The array found is changed in place, where it is: on the holder, or on
    [Object.prototype] when the holder inherits it. *)
Definition toggleIn (dataObj : Store) (sh : Shared) (classId key : string) (day : Z)
    : Store * Shared :=
  let dataObj1 :=
    match holder sh dataObj classId with
    | Some _ => dataObj
    | None => <[classId := ∅]> dataObj
    end in
  match holder sh dataObj1 classId with
  | Some ho =>
      match ownDays sh ho key with
      | Some daysArray => setOwn classId ho key (toggleDays day daysArray) dataObj1 sh
      | None =>
          match inheritedDays sh ho key with
          | Some daysArray => (dataObj1, setPrototypeArray sh key (toggleDays day daysArray))
          | None => setOwn classId ho key (toggleDays day []) dataObj1 sh
          end
      end
  | None => (dataObj1, sh)
  end.

(** [toggleDayStatus(classId, day, month, year, type)] on the stores and
    the objects they inherit from. *)
Definition toggleDayStatus (h : Heap) (classId : string) (day month year : Z)
    (type : string) : Heap :=
  let key := monthKey year month in
  if bool_decide (type = "absent")
  then
    let r := toggleIn (attendanceData (stores h)) (shared h) classId key day in
    {| stores := {| attendanceData := r.1; offDaysData := offDaysData (stores h) |};
       shared := r.2 |}
  else
    let r := toggleIn (offDaysData (stores h)) (shared h) classId key day in
    {| stores := {| attendanceData := attendanceData (stores h); offDaysData := r.1 |};
       shared := r.2 |}.

(** The handler of a clickable cell:
    [toggleDayStatus(classId, day, month, year, 'absent')]. *)
Definition clickCell (h : Heap) (classId : string) (month year day : Z) : Heap :=
  toggleDayStatus h classId day month year "absent".

(** [getMonthlyStats(classId, month, year)], its two reads along the
    prototype chain. *)
Definition getMonthlyStats (semesterStart semesterEnd : Date) (h : Heap)
    (classId : string) (month year : Z) (today : Date) : Counts :=
  let key := monthKey year month in
  let absents := lookupDays (shared h) (attendanceData (stores h)) classId key in
  let offs := lookupDays (shared h) (offDaysData (stores h)) classId key in
  let '(startDay, endDay) := dayRange semesterStart semesterEnd year month today in
  countDays year month offs absents startDay endDay noCounts.

(** No day is read both as absent and as off. *)
Definition mutuallyExclusive (h : Heap) : Prop :=
  ∀ (classId key : string) (d : Z),
    ¬ (d ∈ lookupDays (shared h) (attendanceData (stores h)) classId key
       ∧ d ∈ lookupDays (shared h) (offDaysData (stores h)) classId key).

(** The script starts with two empty stores. *)
Definition start : Heap :=
  {| stores := {| attendanceData := ∅; offDaysData := ∅ |}; shared := pristine |}.

(** [loadAttendanceData] leaves an empty object for each class of the page
    when the server has no data, or cannot be reached. *)
Definition loadedEmpty : Heap :=
  {| stores := {| attendanceData := {[ "cs301" := ∅; "cs302" := ∅ ]};
                  offDaysData := {[ "cs301" := ∅; "cs302" := ∅ ]} |};
     shared := pristine |}.

End Proto.

(** ** The range of dates

    The calendar years all of whose days are dates of a [Date] object
    (time values of at most 8.64e15 ms on either side of 1970, a day being
    left for the offset of local time), and in which integers are exact in
    binary64. *)
Definition maxTime : Z := 8640000000000000.

Definition inDateRange (t : Date) : Prop :=
  - maxTime + msPerDay <= t <= maxTime - msPerDay.

Definition dateYear (year : Z) : Prop := -271000 <= year <= 275000.

(** ** Arrays kept by toggles *)

(** An array of days in strictly ascending order. *)
Definition ascending (l : list Z) : Prop := StronglySorted Z.lt l.

(** Every array of both stores is strictly ascending. *)
Definition ascendingStores (data : AppData) : Prop :=
  ∀ (classId key : string),
    ascending (lookupDays (attendanceData data) classId key)
    ∧ ascending (lookupDays (offDaysData data) classId key).

(** The class and the month key have entries in [st]. *)
Definition hasEntry (st : Store) (classId key : string) : Prop :=
  ∃ byMonth, st !! classId = Some byMonth ∧ is_Some (byMonth !! key).

(** ** Month navigation *)

(** [classState[classId]]: the month a class view shows. *)
Record ViewState := {
  viewMonth : Z;
  viewYear : Z
}.

(** [while (m < 0) { m += 12; y -= 1; }]; [None] when the fuel runs out. *)
Fixpoint normalizeBelow (fuel : nat) (m y : Z) : option (Z * Z) :=
  if m <? 0 then
    match fuel with
    | O => None
    | S fuel' => normalizeBelow fuel' (m + 12) (y - 1)
    end
  else Some (m, y).

(** [while (m > 11) { m -= 12; y += 1; }] *)
Fixpoint normalizeAbove (fuel : nat) (m y : Z) : option (Z * Z) :=
  if 11 <? m then
    match fuel with
    | O => None
    | S fuel' => normalizeAbove fuel' (m - 12) (y + 1)
    end
  else Some (m, y).

(** The two loops one after the other, on integers that binary64 holds
    exactly (below 2^53 in size; from 2^58 on a pass of the code leaves [m]
    as it is and the loop does not end).  Each pass moves [m] by 12 toward
    0..11, so [|m|] passes are enough. *)
Definition normalizeMonth (m y : Z) : option (Z * Z) :=
  match normalizeBelow (Z.to_nat (Z.abs m)) m y with
  | Some (m1, y1) => normalizeAbove (Z.to_nat (Z.abs m1)) m1 y1
  | None => None
  end.

Section Navigation.

Variables semesterStart semesterEnd : Date.

(** [if (!classState[classId]) { clamped = clampToSemesterMonth(new Date());
    classState[classId] = { month: clamped.month, year: clamped.year } }],
    the first lines of [changeMonth] and part of [showAttendance]. *)
Definition ensureView (classState : gmap string ViewState) (classId : string)
    (today : Date) : gmap string ViewState :=
  match classState !! classId with
  | Some _ => classState
  | None =>
      let clamped := clampToSemesterMonth semesterStart semesterEnd today in
      <[classId := {| viewMonth := clamped.2; viewYear := clamped.1 |}]> classState
  end.

(** [changeMonth(classId, delta)]: the new [classState], and what is written
    into the element of the class, if anything.  [None] as a whole when a
    normalizing loop runs out of fuel, and in the branch without a view,
    which [ensureView] rules out.  [now] is the [new Date()] that is clamped
    when the class has no view; [today0] and [today] are the two clock reads
    of [renderCalendar]. *)
Definition changeMonth (att off : Store) (classState : gmap string ViewState)
    (classId : string) (delta : Z) (now today0 today : Date)
    : option (gmap string ViewState * option (option Calendar)) :=
  let classState1 := ensureView classState classId now in
  match classState1 !! classId with
  | None => None
  | Some view =>
      match normalizeMonth (viewMonth view + delta) (viewYear view) with
      | None => None
      | Some (m, y) =>
          if negb (isMonthAllowed semesterStart semesterEnd y m)
          then Some (classState1, None)
          else
            Some (<[classId := {| viewMonth := m; viewYear := y |}]> classState1,
                  Some (renderCalendar semesterStart semesterEnd att off classId m y
                          today0 today))
      end
  end.

(** [showAttendance(classId)] for a class whose detail element exists:
    [wasActive] tells whether the detail was open.  An open detail is
    emptied and closed ([None]); a closed one is opened on the view of the
    class, which is created first when missing.  The clock reads are those of
    [changeMonth]. *)
Definition showAttendance (att off : Store) (classState : gmap string ViewState)
    (classId : string) (wasActive : bool) (now today0 today : Date)
    : gmap string ViewState * option (option Calendar) :=
  if wasActive then (classState, None)
  else
    let classState1 := ensureView classState classId now in
    match classState1 !! classId with
    | Some view =>
        (classState1,
         Some (renderCalendar semesterStart semesterEnd att off classId
                 (viewMonth view) (viewYear view) today0 today))
    | None => (classState1, None)
    end.

End Navigation.

(** Every view shows a month 0..11 that [isMonthAllowed] accepts. *)
Definition viewsAllowed (semesterStart semesterEnd : Date)
    (classState : gmap string ViewState) : Prop :=
  ∀ classId view, classState !! classId = Some view →
    0 <= viewMonth view <= 11
    ∧ isMonthAllowed semesterStart semesterEnd (viewYear view) (viewMonth view) = true.

(** The semester window starts at a midnight, in a year the [Date]
    constructor takes as it is, and does not end before it starts. *)
Definition windowOK (semesterStart semesterEnd : Date) : Prop :=
  TimeWithinDay semesterStart = 0 ∧ 100 <= getFullYear semesterStart
  ∧ semesterStart <= semesterEnd.

(** ** The calendar grid, clicks and cards *)

(** The cells that [renderCalendar] puts after the seven week day headers
    "Sun" to "Sat": one empty cell for each week day before the first of the
    month, then the cell of each day. *)
Definition calendarGrid (month year : Z) : list (option Z) :=
  let firstDay := getDay (newDate year month 1) in
  let daysInMonth := getDate (newDate year (month + 1) 0) in
  replicate (Z.to_nat firstDay) None ++ (Some <$> seqZ 1 daysInMonth).

(** [day === today.getDate() && month === today.getMonth()
     && year === today.getFullYear()]: the cell gets the class "today". *)
Definition isTodayCell (month year : Z) (today : Date) (day : Z) : bool :=
  (day =? getDate today) && (month =? getMonth today) && (year =? getFullYear today).

(** [clickable] after the branch that styles a cell. *)
Definition clickable (state : ClassDayState) : bool :=
  match state with
  | OutsideSemester | Future | Weekend => false
  | Holiday | Absent | Present => true
  end.

(** The handler of a clickable cell:
    [toggleDayStatus(classId, day, month, year, 'absent')]. *)
Definition clickCell (data : AppData) (classId : string) (month year day : Z) : AppData :=
  toggleDayStatus data classId day month year "absent".

(** The colour of the progress bar of a card: "#ff6666", "#ffcc00",
    "#00cc66". *)
Inductive BarColour := Red | Yellow | Green.

(** [percent < 75 ? '#ff6666' : (percent < 90 ? '#ffcc00' : '#00cc66')] *)
Definition barColour (percent : Z) : BarColour :=
  if percent <? 75 then Red else if percent <? 90 then Yellow else Green.

(** [monthlyPercent >= 75 ? 'good' : monthlyPercent >= 50 ? 'warning' : 'danger'] *)
Definition monthlyClass (monthlyPercent : Z) : string :=
  if 75 <=? monthlyPercent then "good"
  else if 50 <=? monthlyPercent then "warning" else "danger".

(** ** More notions used in the statements *)

(** The number of week days from [startDay] to [endDay]. *)
Definition weekDaysIn (year month startDay endDay : Z) : Z :=
  Z.of_nat
    (length
       (List.filter
          (fun d => let wd := getDay (newDate year month d) in
                    negb ((wd =? 0) || (wd =? 6)))
          (seqZ startDay (endDay - startDay + 1)))).

(** One more absence and nothing else. *)
Definition oneAbsent : Counts :=
  {| totalConducted := 0; totalAbsent := 1; totalOff := 0 |}.

(** Two pairs of stores that mark the same days: the off days are the same,
    and so are the absences on the days that are not off days. *)
Definition sameMarks (data data' : AppData) : Prop :=
  ∀ c k d,
    (d ∈ lookupDays (offDaysData data') c k ↔ d ∈ lookupDays (offDaysData data) c k)
    ∧ (d ∉ lookupDays (offDaysData data) c k →
       (d ∈ lookupDays (attendanceData data') c k
        ↔ d ∈ lookupDays (attendanceData data) c k)).

(** What a cell adds to the summary of its month: a cell marked present or
    absent is a conducted class, a cell marked off is a holiday. *)
Definition stateCounts (state : ClassDayState) : Counts :=
  match state with
  | Holiday => {| totalConducted := 0; totalAbsent := 0; totalOff := 1 |}
  | Absent => {| totalConducted := 1; totalAbsent := 1; totalOff := 0 |}
  | Present => {| totalConducted := 1; totalAbsent := 0; totalOff := 0 |}
  | OutsideSemester | Future | Weekend => noCounts
  end.

Definition cellCounts (cells : list (Z * ClassDayState)) : Counts :=
  foldl (fun acc cell => addCounts acc (stateCounts cell.2)) noCounts cells.

(** More inputs of scenarios. *)
Module Inputs.

(** No marks at all. *)
Definition noMarks : AppData := {| attendanceData := ∅; offDaysData := ∅ |}.

(** Friday, August 15, 2025 marked as a holiday of "cs301". *)
Definition oneHoliday : AppData :=
  {| attendanceData := ∅;
     offDaysData := {[ "cs301" := {[ "2025-08" := [15] ]} ]} |}.

(** The view of "cs301" on August 2025. *)
Definition augustView : gmap string ViewState :=
  {[ "cs301" := {| viewMonth := 7; viewYear := 2025 |} ]}.

(** July 28, 2025 held twice by the absence array of its month. *)
Definition twiceMarked : AppData :=
  {| attendanceData := {[ "cs301" := {[ "2025-07" := [28; 28] ]} ]};
     offDaysData := ∅ |}.

End Inputs.

(** * Facts about the date arithmetic *)

Module JSDateFacts.

Ltac div_lia := Z.div_mod_to_equations; lia.

Lemma DaysInYear_cases y : DaysInYear y = 365 + leapOf y /\ (leapOf y = 0 \/ leapOf y = 1).
Proof.
  unfold leapOf, DaysInYear.
  repeat match goal with
         | |- context [negb (?a =? ?b)] => destruct (Z.eqb_spec a b); cbn [negb]
         end; cbn; lia.
Qed.

Lemma DayFromYear_succ y : DayFromYear (y + 1) = DayFromYear y + DaysInYear y.
Proof.
  unfold DayFromYear, DaysInYear.
  repeat match goal with
         | |- context [negb (?a =? ?b)] => destruct (Z.eqb_spec a b); cbn [negb]
         end; div_lia.
Qed.

Lemma DayFromYear_lt y1 y2 : y1 < y2 -> DayFromYear y1 < DayFromYear y2.
Proof. unfold DayFromYear. intros. div_lia. Qed.

Lemma YearFromDay_bounds d :
  DayFromYear (YearFromDay d) <= d < DayFromYear (YearFromDay d + 1).
Proof.
  unfold YearFromDay.
  set (y0 := 1970 + 400 * d / 146097).
  assert (H0 : 146097 * (y0 - 1970) <= 400 * d < 146097 * (y0 - 1970) + 146097)
    by (subst y0; div_lia).
  clearbody y0.
  destruct (Z.leb_spec (DayFromYear (y0 + 1)) d).
  - split; [lia|]. unfold DayFromYear in *. div_lia.
  - destruct (Z.ltb_spec d (DayFromYear y0)); [|lia].
    replace (y0 - 1 + 1) with y0 by lia.
    split; [|lia]. unfold DayFromYear in *. div_lia.
Qed.

(** [YearFromDay d] is the only year whose days include [d]. *)
Lemma YearFromDay_unique d y :
  DayFromYear y <= d < DayFromYear (y + 1) -> YearFromDay d = y.
Proof.
  intros Hy. pose proof (YearFromDay_bounds d) as Hb.
  destruct (Z.lt_trichotomy (YearFromDay d) y) as [Hlt | [Heq | Hgt]]; [|done|].
  - assert (YearFromDay d + 1 = y \/ YearFromDay d + 1 < y) as [E|L] by lia.
    + rewrite E in Hb. lia.
    + apply DayFromYear_lt in L. lia.
  - assert (y + 1 = YearFromDay d \/ y + 1 < YearFromDay d) as [E|L] by lia.
    + rewrite E in Hy. lia.
    + apply DayFromYear_lt in L. lia.
Qed.

Lemma msPerDay_pos : 0 < msPerDay.
Proof. reflexivity. Qed.

Lemma Day_MakeDate d time : 0 <= time < msPerDay -> Day (MakeDate d time) = d.
Proof. unfold Day, MakeDate, msPerDay. intros. div_lia. Qed.

Lemma TimeWithinDay_MakeDate d time :
  0 <= time < msPerDay -> TimeWithinDay (MakeDate d time) = time.
Proof. unfold TimeWithinDay, MakeDate, msPerDay. intros. div_lia. Qed.

Lemma MakeDate_Day t : MakeDate (Day t) (TimeWithinDay t) = t.
Proof. unfold MakeDate, Day, TimeWithinDay, msPerDay. div_lia. Qed.

(** Comparing a midnight with any time value compares the day numbers. *)
Lemma midnight_le d t : MakeDate d 0 <= t <-> d <= Day t.
Proof. unfold MakeDate, Day, msPerDay. split; intros; div_lia. Qed.

Lemma Day_mono t1 t2 : t1 <= t2 -> Day t1 <= Day t2.
Proof. unfold Day, msPerDay. intros. div_lia. Qed.

Ltac month_cases m :=
  let H := fresh in
  assert (H : m = 0 \/ m = 1 \/ m = 2 \/ m = 3 \/ m = 4 \/ m = 5 \/ m = 6 \/
              m = 7 \/ m = 8 \/ m = 9 \/ m = 10 \/ m = 11) by lia;
  repeat (destruct H as [H | H]; [subst m | ]); [.. | subst m].

(** Evaluates [monthStart] at the numerals of the goal. *)
Ltac month_table :=
  repeat match goal with
         | |- context [monthStart ?l (?a + 1)] =>
             let v := eval vm_compute in (a + 1) in change (a + 1) with v
         end;
  cbn [monthStart].

(** The first of month [m] of year [y], for [m] in 0..12 (12 is next January). *)
Lemma monthFirst_in_year y m :
  0 <= m <= 12 -> monthFirst (12 * y + m) = DayFromYear y + monthStart (leapOf y) m.
Proof.
  intros Hm. unfold monthFirst.
  assert (m = 12 \/ 0 <= m <= 11) as [-> | Hm'] by lia.
  - replace ((12 * y + 12) / 12) with (y + 1) by div_lia.
    replace ((12 * y + 12) mod 12) with 0 by div_lia.
    rewrite DayFromYear_succ. destruct (DaysInYear_cases y) as [-> _].
    cbn [monthStart]. lia.
  - replace ((12 * y + m) / 12) with y by div_lia.
    replace ((12 * y + m) mod 12) with m by div_lia. done.
Qed.

Lemma monthFirst_step k : 28 <= monthFirst (k + 1) - monthFirst k <= 31.
Proof.
  set (y := k / 12). set (m := k mod 12).
  assert (Hk : k = 12 * y + m) by (subst y m; div_lia).
  assert (Hm : 0 <= m <= 11) by (subst m; div_lia).
  clearbody y m. subst k.
  replace (12 * y + m + 1) with (12 * y + (m + 1)) by lia.
  rewrite !monthFirst_in_year by lia.
  destruct (DaysInYear_cases y) as [_ Hl].
  generalize dependent (leapOf y). intros leap Hl.
  month_cases m; month_table; lia.
Qed.

Lemma monthFirst_le_gap k1 k2 : k1 <= k2 -> k2 - k1 <= monthFirst k2 - monthFirst k1.
Proof.
  intros H. replace k2 with (k1 + Z.of_nat (Z.to_nat (k2 - k1))) by lia.
  generalize (Z.to_nat (k2 - k1)) as n. clear.
  induction n as [|n IH]; [replace (k1 + Z.of_nat 0) with k1 by lia; lia|].
  pose proof (monthFirst_step (k1 + Z.of_nat n)).
  replace (k1 + Z.of_nat (S n)) with (k1 + Z.of_nat n + 1) by lia. lia.
Qed.

Lemma monthFirst_le k1 k2 : k1 <= k2 -> monthFirst k1 <= monthFirst k2.
Proof. intros. pose proof (monthFirst_le_gap k1 k2). lia. Qed.

Lemma MonthFromTime_range t : 0 <= MonthFromTime t <= 11.
Proof.
  unfold MonthFromTime.
  repeat match goal with
         | |- context [?a <? ?b] => destruct (Z.ltb_spec a b)
         end; lia.
Qed.

Lemma DayWithinYear_range t : 0 <= DayWithinYear t < 365 + InLeapYear t.
Proof.
  unfold DayWithinYear, InLeapYear, YearFromTime.
  pose proof (YearFromDay_bounds (Day t)) as Hb.
  rewrite DayFromYear_succ in Hb.
  destruct (DaysInYear_cases (YearFromDay (Day t))) as [E _].
  unfold leapOf in E. lia.
Qed.

(** A time value lies in the month its fields name, and its day of the
    month is the offset from the first of that month. *)
Lemma monthIndex_bounds t :
  monthFirst (monthIndex t) <= Day t < monthFirst (monthIndex t + 1)
  /\ DateFromTime t = Day t - monthFirst (monthIndex t) + 1.
Proof.
  unfold monthIndex, DateFromTime.
  pose proof (MonthFromTime_range t) as Hr.
  replace (12 * YearFromTime t + MonthFromTime t + 1)
    with (12 * YearFromTime t + (MonthFromTime t + 1)) by lia.
  rewrite !monthFirst_in_year by lia.
  pose proof (DayWithinYear_range t) as Hd.
  assert (Hl : InLeapYear t = leapOf (YearFromTime t)) by done.
  rewrite <- Hl.
  assert (Hleap : InLeapYear t = 0 \/ InLeapYear t = 1).
  { rewrite Hl. apply DaysInYear_cases. }
  assert (HD : Day t = DayFromYear (YearFromTime t) + DayWithinYear t)
    by (unfold DayWithinYear; lia).
  clear Hr. unfold MonthFromTime.
  generalize dependent (InLeapYear t). intros leap Hd _ Hleap.
  generalize dependent (DayWithinYear t). intros dwy Hd HD.
  repeat match goal with
         | |- context [?a <? ?b] => destruct (Z.ltb_spec a b)
         end; month_table; lia.
Qed.

Lemma monthIndex_unique t k :
  monthFirst k <= Day t < monthFirst (k + 1) -> monthIndex t = k.
Proof.
  intros Hk. destruct (monthIndex_bounds t) as [Hb _].
  destruct (Z.lt_trichotomy (monthIndex t) k) as [L | [E | G]]; [|done|].
  - pose proof (monthFirst_le (monthIndex t + 1) k). lia.
  - pose proof (monthFirst_le (k + 1) (monthIndex t)). lia.
Qed.

Lemma monthIndex_fields t :
  YearFromTime t = monthIndex t / 12 /\ MonthFromTime t = monthIndex t mod 12.
Proof. unfold monthIndex. pose proof (MonthFromTime_range t). split; div_lia. Qed.

Lemma monthIndex_mono t1 t2 : t1 <= t2 -> monthIndex t1 <= monthIndex t2.
Proof.
  intros H%Day_mono.
  destruct (monthIndex_bounds t1) as [[H1 _] _], (monthIndex_bounds t2) as [[_ H2] _].
  destruct (Z.le_gt_cases (monthIndex t1) (monthIndex t2)) as [|G]; [done|].
  pose proof (monthFirst_le (monthIndex t2 + 1) (monthIndex t1)). lia.
Qed.

Lemma MakeDay_monthFirst y m d : MakeDay y m d = monthFirst (12 * y + m) + d - 1.
Proof.
  unfold MakeDay, monthFirst. fold (leapOf (y + m / 12)).
  replace ((12 * y + m) / 12) with (y + m / 12) by div_lia.
  replace ((12 * y + m) mod 12) with (m mod 12) by div_lia. done.
Qed.

End JSDateFacts.

(** * Facts about toggling *)

Section ToggleFacts.

Implicit Types (l : list Z) (x d day : Z) (st : Store).

Lemma indexOf_spec x l :
  ((x ∉ l) ∧ indexOf x l = -1)
  ∨ (∃ i, indexOf x l = Z.of_nat i ∧ l !! i = Some x).
Proof.
  induction l as [|a l IH]; cbn [indexOf].
  - left. split; [apply not_elem_of_nil | done].
  - destruct (Z.eqb_spec x a) as [-> | Hne].
    + right. by exists 0%nat.
    + destruct IH as [[Hnot ->] | (i & -> & Hi)].
      * left. split; [|done]. rewrite not_elem_of_cons. done.
      * right. exists (S i). split; [|done].
        destruct (Z.eqb_spec (Z.of_nat i) (-1)); lia.
Qed.

Lemma toggleDays_present x l : x ∈ l → l ≡ₚ x :: toggleDays x l.
Proof.
  intros Hin. unfold toggleDays.
  destruct (indexOf_spec x l) as [[Hnot _] | (i & -> & Hi)]; [done|].
  destruct (Z.gtb_spec (Z.of_nat i) (-1)); [|lia].
  rewrite Nat2Z.id. by apply delete_Permutation.
Qed.

Lemma toggleDays_absent x l : x ∉ l → toggleDays x l ≡ₚ x :: l.
Proof.
  intros Hnot. unfold toggleDays, sortAscending.
  destruct (indexOf_spec x l) as [[_ ->] | (i & _ & Hi)].
  - cbn. rewrite merge_sort_Permutation. by rewrite Permutation_app_comm.
  - exfalso. apply Hnot. by eapply list_elem_of_lookup_2.
Qed.

(** Marking keeps the array in ascending order. *)
Lemma toggleDays_absent_sorted x l : x ∉ l → Sorted Z.le (toggleDays x l).
Proof.
  intros Hnot. unfold toggleDays, sortAscending.
  destruct (indexOf_spec x l) as [[_ ->] | (i & _ & Hi)].
  - cbn. apply (Sorted_merge_sort Z.le).
  - exfalso. apply Hnot. by eapply list_elem_of_lookup_2.
Qed.

Lemma toggleDays_NoDup x l : NoDup l → NoDup (toggleDays x l).
Proof.
  intros Hnd. destruct (decide (x ∈ l)) as [Hin | Hnot].
  - rewrite (toggleDays_present x l Hin) in Hnd. by apply NoDup_cons in Hnd as [_ ?].
  - rewrite (toggleDays_absent x l Hnot). by apply NoDup_cons.
Qed.

(** On an array without repetition a toggle flips the membership of [x]
    and of no other day. *)
Lemma elem_of_toggleDays x l d :
  NoDup l → d ∈ toggleDays x l ↔ (d ≠ x ∧ d ∈ l) ∨ (d = x ∧ x ∉ l).
Proof.
  intros Hnd. destruct (decide (x ∈ l)) as [Hin | Hnot].
  - pose proof (toggleDays_present x l Hin) as Hp.
    rewrite Hp in Hnd. apply NoDup_cons in Hnd as [Hx _].
    rewrite (elem_of_Permutation_proper d _ _ Hp), elem_of_cons.
    split.
    + intros Hd. left. split; [intros ->; done | by right].
    + intros [[Hne [?|?]] | [_ ?]]; done.
  - rewrite (toggleDays_absent x l Hnot), elem_of_cons.
    split.
    + intros [-> | Hd]; [by right | left; split; [intros ->; done | done]].
    + intros [[_ ?] | [-> _]]; [by right | by left].
Qed.

Lemma toggleDays_twice x l d :
  NoDup l → d ∈ toggleDays x (toggleDays x l) ↔ d ∈ l.
Proof.
  intros Hnd. pose proof (toggleDays_NoDup x l Hnd) as Hnd'.
  rewrite (elem_of_toggleDays x _ d Hnd'), !(elem_of_toggleDays x l) by done.
  destruct (decide (d = x)) as [-> | Hne]; destruct (decide (x ∈ l)); tauto.
Qed.

Lemma toggleDays_subset_or_new x l d : d ∈ toggleDays x l → d ∈ l ∨ (d = x ∧ x ∉ l).
Proof.
  destruct (decide (x ∈ l)) as [Hin | Hnot].
  - intros Hd. left. rewrite (toggleDays_present x l Hin). by right.
  - rewrite (toggleDays_absent x l Hnot), elem_of_cons. tauto.
Qed.

Lemma toggleDays_marks x l : x ∉ l → x ∈ toggleDays x l.
Proof. intros Hnot. rewrite (toggleDays_absent x l Hnot). by left. Qed.

Lemma lookupDays_toggleIn_same st classId key day :
  lookupDays (toggleIn st classId key day) classId key
  = toggleDays day (lookupDays st classId key).
Proof.
  unfold toggleIn, lookupDays.
  rewrite lookup_insert_eq, lookup_insert_eq.
  destruct (st !! classId) as [byMonth|] eqn:E; cbn.
  - rewrite E. cbn. destruct (byMonth !! key) as [days|] eqn:E'; cbn.
    + by rewrite E'.
    + by rewrite lookup_insert_eq.
  - rewrite lookup_insert_eq. cbn. rewrite lookup_empty, lookup_insert_eq. done.
Qed.

Lemma toggleIn_changedOnlyAt st classId key day :
  changedOnlyAt st (toggleIn st classId key day) classId key.
Proof.
  unfold changedOnlyAt, toggleIn. split.
  - intros c Hc. rewrite lookup_insert_ne by done.
    destruct (st !! classId); [done|]. by rewrite lookup_insert_ne.
  - intros k Hk. rewrite lookup_insert_eq. cbn.
    rewrite lookup_insert_ne by done.
    destruct (st !! classId) as [byMonth|] eqn:E; cbn.
    + rewrite E. cbn. destruct (byMonth !! key); [done|]. by rewrite lookup_insert_ne.
    + rewrite lookup_insert_eq. cbn. rewrite lookup_empty.
      by rewrite lookup_insert_ne.
Qed.

Lemma lookupDays_changedOnlyAt st st' classId key c k :
  changedOnlyAt st st' classId key → (c, k) ≠ (classId, key) →
  lookupDays st' c k = lookupDays st c k.
Proof.
  intros [Hc Hk] Hne. unfold lookupDays.
  destruct (decide (c = classId)) as [-> | Hcne].
  - assert (k ≠ key) as Hkne by congruence.
    specialize (Hk k Hkne).
    destruct (st' !! classId), (st !! classId); cbn in Hk;
      rewrite ?lookup_empty in Hk; rewrite ?Hk; try done.
    by rewrite <- Hk.
  - by rewrite Hc.
Qed.

Lemma targetStore_toggle data classId day month year type :
  targetStore type (toggleDayStatus data classId day month year type)
  = toggleIn (targetStore type data) classId (monthKey year month) day.
Proof. unfold targetStore, toggleDayStatus. by case_bool_decide. Qed.

Lemma otherStore_toggle data classId day month year type :
  otherStore type (toggleDayStatus data classId day month year type)
  = otherStore type data.
Proof. unfold otherStore, toggleDayStatus. by case_bool_decide. Qed.

(** Toggles keep every array a set of days, and the stores start empty. *)
Lemma daySets_empty : daySets {| attendanceData := ∅; offDaysData := ∅ |}.
Proof. intros c k. cbn. unfold lookupDays. rewrite lookup_empty. split; apply NoDup_nil_2. Qed.

Lemma toggleIn_NoDup st classId key day c k :
  NoDup (lookupDays st c k) → NoDup (lookupDays (toggleIn st classId key day) c k).
Proof.
  intros H. destruct (decide ((c, k) = (classId, key))) as [[= -> ->] | Hne].
  - rewrite lookupDays_toggleIn_same. by apply toggleDays_NoDup.
  - by rewrite (lookupDays_changedOnlyAt st _ classId key)
      by (done || apply toggleIn_changedOnlyAt).
Qed.

Lemma toggleDayStatus_daySets data classId day month year type :
  daySets data → daySets (toggleDayStatus data classId day month year type).
Proof.
  intros H c k. destruct (H c k) as [Ha Ho]. unfold toggleDayStatus.
  case_bool_decide; cbn [attendanceData offDaysData]; split;
    try done; by apply toggleIn_NoDup.
Qed.

End ToggleFacts.

(** * Facts about class names that objects inherit *)

Section ProtoFacts.

Implicit Types (st : Store) (data : AppData) (classId key type : string) (day : Z).

Lemma holder_pristine_own st classId :
  ownName classId →
  Proto.holder Proto.pristine st classId = Proto.OwnObject <$> (st !! classId).
Proof.
  unfold ownName, inheritedNames. rewrite not_elem_of_cons. intros [Hp Hf].
  unfold Proto.holder. destruct (st !! classId); [done|]. cbn.
  rewrite bool_decide_eq_false_2 by done.
  rewrite bool_decide_eq_false_2 by done.
  by rewrite lookup_empty.
Qed.

(** When nothing inherited carries a month array, the reads are those of
    own properties, for every class name. *)
Lemma lookupDays_pristine st classId key :
  Proto.lookupDays Proto.pristine st classId key = lookupDays st classId key.
Proof.
  unfold Proto.lookupDays, Proto.holder, lookupDays.
  destruct (st !! classId) as [byMonth|].
  - unfold Proto.getDays. cbn. destruct (byMonth !! key); [done|].
    by rewrite lookup_empty.
  - case_bool_decide.
    { unfold Proto.getDays. cbn. by rewrite lookup_empty. }
    case_bool_decide.
    { unfold Proto.getDays. cbn. by rewrite !lookup_empty. }
    cbn. by rewrite lookup_empty.
Qed.

(** For a class name that nothing inherits the edit is [toggleIn], and
    nothing inherited gets a month array. *)
Lemma toggleIn_pristine st classId key day :
  ownName classId →
  Proto.toggleIn st Proto.pristine classId key day
  = (toggleIn st classId key day, Proto.pristine).
Proof.
  intros Hown. unfold Proto.toggleIn, toggleIn. cbv zeta.
  rewrite (holder_pristine_own st) by done.
  destruct (st !! classId) as [byMonth|] eqn:Hst; cbn [fmap option_fmap option_map].
  - rewrite holder_pristine_own, Hst by done. cbn [fmap option_fmap option_map default].
    unfold Proto.ownDays, Proto.inheritedDays, Proto.setOwn. cbv [id].
    destruct (byMonth !! key) as [days|] eqn:Hk.
    + by rewrite Hk.
    + cbn. rewrite lookup_empty. cbn. rewrite lookup_insert_eq. cbn.
      by rewrite insert_insert_eq.
  - rewrite holder_pristine_own, lookup_insert_eq by done.
    cbn [fmap option_fmap option_map default].
    unfold Proto.ownDays, Proto.inheritedDays, Proto.setOwn. cbv [id].
    rewrite ?lookup_empty. cbn. rewrite ?lookup_empty, ?lookup_insert_eq. cbn.
    by rewrite !insert_insert_eq.
Qed.

Lemma toggleDayStatus_pristine data classId day month year type :
  ownName classId →
  Proto.toggleDayStatus {| Proto.stores := data; Proto.shared := Proto.pristine |}
    classId day month year type
  = {| Proto.stores := toggleDayStatus data classId day month year type;
       Proto.shared := Proto.pristine |}.
Proof.
  intros Hown. unfold Proto.toggleDayStatus, toggleDayStatus. cbv zeta.
  cbn [Proto.stores Proto.shared].
  rewrite !toggleIn_pristine by done. by case_bool_decide.
Qed.

Lemma mutuallyExclusive_pristine data :
  Proto.mutuallyExclusive {| Proto.stores := data; Proto.shared := Proto.pristine |}
  ↔ mutuallyExclusive data.
Proof.
  unfold Proto.mutuallyExclusive, mutuallyExclusive. cbn [Proto.stores Proto.shared].
  split; intros H c k d; specialize (H c k d); by rewrite ?lookupDays_pristine in *.
Qed.

End ProtoFacts.

(** * Facts about dates built by the script *)

Module DateFacts.

Import JSDateFacts.

Lemma ctorYear_id y : ¬ (0 <= y <= 99) → ctorYear y = y.
Proof.
  intros H. unfold ctorYear.
  destruct (Z.leb_spec 0 y), (Z.leb_spec y 99); cbn; lia.
Qed.

Lemma newDate_eq y m d :
  newDate y m d = MakeDate (monthFirst (12 * ctorYear y + m) + d - 1) 0.
Proof. unfold newDate. fold (ctorYear y). by rewrite MakeDay_monthFirst. Qed.

Lemma Day_newDate y m d :
  Day (newDate y m d) = monthFirst (12 * ctorYear y + m) + d - 1.
Proof. rewrite newDate_eq. apply Day_MakeDate. pose proof msPerDay_pos. lia. Qed.

Lemma TimeWithinDay_newDate y m d : TimeWithinDay (newDate y m d) = 0.
Proof. rewrite newDate_eq. apply TimeWithinDay_MakeDate. pose proof msPerDay_pos. lia. Qed.

(** The fields of a time value known to fall in month [k]. *)
Lemma fields_in_month t k :
  monthFirst k <= Day t < monthFirst (k + 1) →
  monthIndex t = k ∧ getDate t = Day t - monthFirst k + 1
  ∧ getFullYear t = k / 12 ∧ getMonth t = k mod 12.
Proof.
  intros Hk. pose proof (monthIndex_unique t k Hk) as Hi.
  destruct (monthIndex_bounds t) as [_ Hd], (monthIndex_fields t) as [Hy Hm].
  rewrite Hd, Hy, Hm, Hi. done.
Qed.

Lemma getDate_range t :
  1 <= getDate t <= monthFirst (monthIndex t + 1) - monthFirst (monthIndex t).
Proof. destruct (monthIndex_bounds t) as [Hb ->]. lia. Qed.

Lemma getDate_eq t : getDate t = Day t - monthFirst (monthIndex t) + 1.
Proof. by destruct (monthIndex_bounds t) as [_ ->]. Qed.

(** [new Date(year, month + 1, 0).getDate()] is the length of the month. *)
Lemma daysInMonth_eq y m :
  getDate (newDate y (m + 1) 0)
  = monthFirst (12 * ctorYear y + m + 1) - monthFirst (12 * ctorYear y + m).
Proof.
  set (k := 12 * ctorYear y + m).
  pose proof (monthFirst_step k) as Hs.
  assert (HD : Day (newDate y (m + 1) 0) = monthFirst (k + 1) - 1).
  { rewrite Day_newDate. subst k. replace (12 * ctorYear y + (m + 1))
      with (12 * ctorYear y + m + 1) by lia. lia. }
  destruct (fields_in_month (newDate y (m + 1) 0) k) as (_ & -> & _); lia.
Qed.

Lemma newDate_fields y m d :
  let k := 12 * ctorYear y + m in
  1 <= d <= monthFirst (k + 1) - monthFirst k →
  monthIndex (newDate y m d) = k ∧ getDate (newDate y m d) = d
  ∧ getFullYear (newDate y m d) = k / 12 ∧ getMonth (newDate y m d) = k mod 12.
Proof.
  intros k Hd. pose proof (Day_newDate y m d) as HD. fold k in HD.
  destruct (fields_in_month (newDate y m d) k) as (? & -> & ? & ?); [lia|].
  repeat split; try done. lia.
Qed.

Lemma monthCur_fields k :
  monthIndex (monthCur k) = k ∧ getDate (monthCur k) = 1
  ∧ getFullYear (monthCur k) = k / 12 ∧ getMonth (monthCur k) = k mod 12.
Proof.
  assert (HD : Day (monthCur k) = monthFirst k).
  { apply Day_MakeDate. pose proof msPerDay_pos. lia. }
  pose proof (monthFirst_step k).
  destruct (fields_in_month (monthCur k) k) as (? & -> & ? & ?); [lia|].
  repeat split; try done. lia.
Qed.

Lemma setMonth_monthCur k :
  setMonth (monthCur k) (getMonth (monthCur k) + 1) = monthCur (k + 1).
Proof.
  destruct (monthCur_fields k) as (_ & Hd & Hy & Hm).
  unfold setMonth. rewrite Hd, Hy, Hm, MakeDay_monthFirst.
  replace (12 * (k / 12) + (k mod 12 + 1)) with (k + 1) by div_lia.
  unfold monthCur at 1. rewrite TimeWithinDay_MakeDate by (pose proof msPerDay_pos; lia).
  unfold monthCur. f_equal. lia.
Qed.

(** [cur <= endDate] holds up to the month of [endDate]. *)
Lemma monthCur_le k t : monthCur k <= t ↔ k <= monthIndex t.
Proof.
  unfold monthCur. rewrite midnight_le.
  destruct (monthIndex_bounds t) as [Hb _]. split; intros H.
  - destruct (Z.le_gt_cases k (monthIndex t)) as [|G]; [done|].
    pose proof (monthFirst_le (monthIndex t + 1) k). lia.
  - pose proof (monthFirst_le k (monthIndex t)). lia.
Qed.

Lemma getStats_cur_eq ss :
  getStats_cur ss = monthCur (12 * ctorYear (getFullYear ss) + getMonth ss).
Proof. unfold getStats_cur, monthCur. rewrite newDate_eq. f_equal. lia. Qed.

(** A midnight is not before a time value when its day is not. *)
Lemma midnight_ge t1 t2 : TimeWithinDay t1 = 0 → Day t1 <= Day t2 → t1 <= t2.
Proof.
  intros H0 HD. rewrite <- (MakeDate_Day t1), H0. by apply midnight_le.
Qed.

Lemma month_eqb_fields y m t :
  0 <= m <= 11 →
  (y =? getFullYear t) && (m =? getMonth t) = (12 * y + m =? monthIndex t).
Proof.
  intros Hm. pose proof (MonthFromTime_range t). unfold monthIndex.
  destruct (Z.eqb_spec y (YearFromTime t)), (Z.eqb_spec m (MonthFromTime t)),
    (Z.eqb_spec (12 * y + m) (12 * YearFromTime t + MonthFromTime t)); cbn; lia.
Qed.

End DateFacts.

(** * Facts about counting *)

Section CountFacts.

Import JSDateFacts DateFacts.

Implicit Types (acc : Counts) (offs absents : list Z) (year month d : Z).

Lemma addCounts_noCounts_r acc : addCounts acc noCounts = acc.
Proof. destruct acc. unfold addCounts, noCounts. cbn. f_equal; lia. Qed.

Lemma addCounts_assoc a b c : addCounts (addCounts a b) c = addCounts a (addCounts b c).
Proof. unfold addCounts. cbn. f_equal; lia. Qed.

Lemma countDay_add year month offs absents acc d :
  countDay year month offs absents acc d
  = addCounts acc (countDay year month offs absents noCounts d).
Proof.
  unfold countDay.
  destruct (_ || _); [by rewrite addCounts_noCounts_r|].
  destruct acc as [c a o]. unfold addCounts, noCounts.
  destruct (includes d offs); [cbn; f_equal; lia|].
  destruct (includes d absents); cbn; f_equal; lia.
Qed.

Lemma foldl_countDay_add year month offs absents (l : list Z) acc :
  foldl (countDay year month offs absents) acc l
  = addCounts acc (foldl (countDay year month offs absents) noCounts l).
Proof.
  revert acc. induction l as [|d l IH]; intros acc; cbn [foldl].
  - by rewrite addCounts_noCounts_r.
  - rewrite IH, (IH (countDay _ _ _ _ noCounts d)), <- addCounts_assoc.
    by rewrite <- countDay_add.
Qed.

(** The counters the loop starts from are added to what it counts. *)
Lemma countDays_add year month offs absents startDay endDay acc :
  countDays year month offs absents startDay endDay acc
  = addCounts acc (countDays year month offs absents startDay endDay noCounts).
Proof. apply foldl_countDay_add. Qed.

(** What the loop adds: at most one conducted class per day visited, and
    no more absences than conducted classes. *)
Lemma foldl_countDay_bounds year month offs absents (l : list Z) acc :
  let r := foldl (countDay year month offs absents) acc l in
  totalAbsent acc <= totalAbsent r
  ∧ totalAbsent r - totalAbsent acc <= totalConducted r - totalConducted acc
  ∧ totalConducted r - totalConducted acc <= Z.of_nat (length l)
  ∧ totalOff acc <= totalOff r.
Proof.
  revert acc. induction l as [|d l IH]; intros acc; cbn [foldl length].
  - lia.
  - specialize (IH (countDay year month offs absents acc d)). cbn zeta in IH.
    revert IH. generalize (foldl (countDay year month offs absents)
                              (countDay year month offs absents acc d) l).
    intros r. unfold countDay.
    destruct (_ || _); [lia|].
    destruct (includes d offs); cbn; [lia|].
    destruct (includes d absents); cbn; lia.
Qed.

(** [totalConducted] grows by the number of dates of the ghost list. *)
Lemma countDays_conducted year month offs absents startDay endDay acc :
  totalConducted (countDays year month offs absents startDay endDay acc)
  = totalConducted acc
    + Z.of_nat (length (conductedDates year month offs startDay endDay)).
Proof.
  unfold countDays, conductedDates. rewrite length_fmap.
  generalize (seqZ startDay (endDay - startDay + 1)). intros l.
  revert acc. induction l as [|d l IH]; intros acc; cbn [foldl List.filter].
  - cbn. lia.
  - rewrite IH. unfold countDay. cbv zeta.
    destruct (_ || _); cbn [negb andb]; [done|].
    destruct (includes d offs); cbn [negb length totalConducted]; lia.
Qed.

(** Without marks only conducted classes are counted. *)
Lemma countDays_unmarked year month startDay endDay acc :
  let r := countDays year month [] [] startDay endDay acc in
  totalAbsent r = totalAbsent acc ∧ totalOff r = totalOff acc.
Proof.
  unfold countDays. generalize (seqZ startDay (endDay - startDay + 1)). intros l.
  revert acc. induction l as [|d l IH]; intros acc; cbn [foldl]; [done|].
  specialize (IH (countDay year month [] [] acc d)). cbn zeta in IH.
  destruct IH as [-> ->]. unfold countDay, includes.
  destruct (_ || _); [done|].
  rewrite !bool_decide_eq_false_2 by apply not_elem_of_nil. done.
Qed.

End CountFacts.

(** * Facts about the statistics *)

Section StatsFacts.

Import JSDateFacts DateFacts.

Variables semesterStart semesterEnd : Date.

Implicit Types (att off : Store) (classId : string) (today endDate : Date).

(** [dayRange] in terms of month indices. *)
Lemma dayRange_eq y m ref :
  0 <= m <= 11 →
  dayRange semesterStart semesterEnd y m ref
  = (if 12 * y + m =? monthIndex semesterStart then getDate semesterStart else 1,
     let D := monthFirst (12 * ctorYear y + m + 1) - monthFirst (12 * ctorYear y + m) in
     let e := if 12 * y + m =? monthIndex semesterEnd
              then Z.min D (getDate semesterEnd) else D in
     if 12 * y + m =? monthIndex ref then Z.min e (getDate ref) else e).
Proof.
  intros Hm. unfold dayRange. cbv zeta.
  by rewrite !month_eqb_fields, daysInMonth_eq.
Qed.

(** Up to the month of [endDate], clamping by [endDate] and clamping by
    [today] give the same days. *)
Lemma dayRange_endDate y m today :
  0 <= m <= 11 →
  12 * y + m <= monthIndex (if today <? semesterEnd then today else semesterEnd) →
  dayRange semesterStart semesterEnd y m (if today <? semesterEnd then today else semesterEnd)
  = dayRange semesterStart semesterEnd y m today.
Proof.
  intros Hm. destruct (Z.ltb_spec today semesterEnd) as [Hlt | Hge]; [done|].
  intros Hk. rewrite !dayRange_eq by done. cbv zeta. f_equal.
  set (D := monthFirst _ - monthFirst _). clearbody D.
  pose proof (monthIndex_mono _ _ Hge) as Hmono.
  destruct (Z.eqb_spec (12 * y + m) (monthIndex semesterEnd)) as [E | NE].
  - destruct (Z.eqb_spec (12 * y + m) (monthIndex today)) as [E' | NE']; [|lia].
    pose proof (Day_mono _ _ Hge).
    rewrite (getDate_eq semesterEnd), (getDate_eq today), <- E, <- E'. lia.
  - destruct (Z.eqb_spec (12 * y + m) (monthIndex today)); [lia | done].
Qed.

(** One pass of the month loop adds the monthly statistics of its month. *)
Lemma getStats_month_monthly att off classId today k acc :
  k <= monthIndex (if today <? semesterEnd then today else semesterEnd) →
  getStats_month semesterStart semesterEnd att off classId
    (if today <? semesterEnd then today else semesterEnd) (monthCur k) acc
  = addCounts acc
      (getMonthlyStats semesterStart semesterEnd att off classId (k mod 12) (k / 12) today).
Proof.
  intros Hk. unfold getStats_month, getMonthlyStats.
  destruct (monthCur_fields k) as (_ & _ & -> & ->). cbv zeta.
  rewrite dayRange_endDate; [| div_lia | by replace (12 * (k / 12) + k mod 12) with k by div_lia].
  destruct (dayRange _ _ _ _ _) as [startDay endDay].
  apply countDays_add.
Qed.

(** With enough fuel the month loop ends, having run its body for every
    month from the month of [cur] through the month of [endDate]. *)
Lemma getStats_loop_closed att off classId endDate (n : nat) k acc :
  monthIndex endDate - k < Z.of_nat n →
  getStats_loop semesterStart semesterEnd n att off classId endDate (monthCur k) acc
  = Some (foldl
            (fun a j => getStats_month semesterStart semesterEnd att off classId
                          endDate (monthCur j) a)
            acc (seqZ k (monthIndex endDate - k + 1))).
Proof.
  revert k acc. induction n as [|n IH]; intros k acc Hn.
  - cbn [getStats_loop].
    destruct (Z.leb_spec (monthCur k) endDate) as [Hle | Hgt].
    + apply monthCur_le in Hle. lia.
    + by rewrite seqZ_nil by lia.
  - cbn [getStats_loop].
    destruct (Z.leb_spec (monthCur k) endDate) as [Hle | Hgt].
    + apply monthCur_le in Hle.
      rewrite setMonth_monthCur, IH by lia.
      rewrite (seqZ_cons k) by lia. cbn [foldl].
      do 3 f_equal; lia.
    + assert (¬ k <= monthIndex endDate) by (rewrite <- monthCur_le; lia).
      by rewrite seqZ_nil by lia.
Qed.

(** The fuel of [getStats] is enough. *)
Lemma getStats_fuel_enough endDate :
  monthIndex endDate
  - (12 * ctorYear (getFullYear semesterStart) + getMonth semesterStart)
  < Z.of_nat (getStats_fuel semesterStart endDate).
Proof.
  unfold getStats_fuel. rewrite getStats_cur_eq.
  set (k0 := 12 * ctorYear _ + _).
  assert (HD : Day (monthCur k0) = monthFirst k0).
  { apply Day_MakeDate. pose proof msPerDay_pos. lia. }
  rewrite HD.
  destruct (Z.le_gt_cases k0 (monthIndex endDate)) as [Hle | Hgt]; [|lia].
  pose proof (monthFirst_le_gap _ _ Hle).
  destruct (monthIndex_bounds endDate) as [[Hb _] _]. lia.
Qed.

(** The counters of [getStats], as a sum over the months of the loop. *)
Lemma getStats_counts att off classId today :
  let endDate := if today <? semesterEnd then today else semesterEnd in
  let k0 := 12 * ctorYear (getFullYear semesterStart) + getMonth semesterStart in
  ∃ stats,
    getStats semesterStart semesterEnd att off classId today = Some stats
    ∧ counts stats
      = foldl
          (fun a j => getStats_month semesterStart semesterEnd att off classId
                        endDate (monthCur j) a)
          noCounts (seqZ k0 (monthIndex endDate - k0 + 1))
    ∧ totalPossibleLeaves stats = totalConducted (counts stats) / 4
    ∧ possibleLeaves stats
      = Z.max 0 (totalPossibleLeaves stats - totalAbsent (counts stats)).
Proof.
  intros endDate k0. unfold getStats. fold endDate.
  rewrite getStats_cur_eq. fold k0.
  rewrite getStats_loop_closed by apply getStats_fuel_enough.
  eexists. split; [done|]. cbn [counts totalPossibleLeaves possibleLeaves].
  repeat split.
  match goal with |- context [?a <? 0] => destruct (Z.ltb_spec a 0) end; lia.
Qed.

End StatsFacts.

(** * The claims about statistics and classification *)

Section Claims.

Import JSDateFacts DateFacts.

Variables semesterStart semesterEnd : Date.

Implicit Types (att off : Store) (classId : string) (today endDate : Date).

Lemma foldl_ext_in {A B} (f g : A → B → A) (l : list B) (a : A) :
  (∀ a' x, x ∈ l → f a' x = g a' x) → foldl f a l = foldl g a l.
Proof.
  revert a. induction l as [|x l IH]; intros a H; cbn [foldl]; [done|].
  rewrite H by apply list_elem_of_here. apply IH.
  intros a' y Hy. apply H. by apply list_elem_of_further.
Qed.

Lemma foldl_invariant {A B} (P : A → Prop) (f : A → B → A) (l : list B) (a : A) :
  (∀ a' x, P a' → P (f a' x)) → P a → P (foldl f a l).
Proof.
  intros Hf. revert a. induction l as [|x l IH]; intros a Ha; cbn [foldl]; auto.
Qed.

Lemma endDate_min today :
  (if today <? semesterEnd then today else semesterEnd) = Z.min today semesterEnd.
Proof. destruct (Z.ltb_spec today semesterEnd); lia. Qed.

(** For any semester window: the counters of [getStats] are the sums of the
    counters of [getMonthlyStats] over every calendar month from the start
    month of the semester through the month of [min(today, semesterEnd)],
    when the year of the semester start is one the [Date] constructor takes
    as it is. *)
Lemma getStats_sums_monthly_any_window att off classId today :
  ¬ (0 <= getFullYear semesterStart <= 99) →
  ∃ stats,
    getStats semesterStart semesterEnd att off classId today = Some stats
    ∧ counts stats = sumMonthlyStats semesterStart semesterEnd att off classId today.
Proof.
  intros Hyear.
  destruct (getStats_counts semesterStart semesterEnd att off classId today)
    as (stats & Hs & Hc & _).
  exists stats. split; [done|]. rewrite Hc. clear Hs Hc.
  rewrite (ctorYear_id _ Hyear).
  unfold sumMonthlyStats, monthsFromTo. cbv zeta.
  rewrite foldl_fmap, <- endDate_min. fold (monthIndex semesterStart).
  set (endDate := if today <? semesterEnd then today else semesterEnd).
  fold (monthIndex endDate).
  apply foldl_ext_in. intros a j Hj. apply elem_of_seqZ in Hj.
  subst endDate. rewrite getStats_month_monthly by lia. done.
Qed.

(** C8. [totalPossibleLeaves] is the floor of a quarter of
    [totalConducted], and [possibleLeaves] is what remains of it after the
    absences, never below zero. *)
Theorem getStats_possibleLeaves att off classId today :
  ∃ stats,
    getStats semesterStart semesterEnd att off classId today = Some stats
    ∧ totalPossibleLeaves stats = totalConducted (counts stats) / 4
    ∧ possibleLeaves stats
      = Z.max 0 (totalPossibleLeaves stats - totalAbsent (counts stats))
    ∧ 0 <= possibleLeaves stats.
Proof.
  destruct (getStats_counts semesterStart semesterEnd att off classId today)
    as (stats & Hs & _ & Ht & Hp).
  exists stats. repeat split; try done. lia.
Qed.

(** A class without an entry is read as a class without marks. *)
Lemma lookupDays_unknown (data : Store) classId key :
  data !! classId = None → lookupDays data classId key = [].
Proof. intros H. unfold lookupDays. by rewrite H. Qed.

Lemma getStats_month_unknown att off classId endDate cur acc :
  att !! classId = None → off !! classId = None →
  let r := getStats_month semesterStart semesterEnd att off classId endDate cur acc in
  r = getStats_month semesterStart semesterEnd ∅ ∅ classId endDate cur acc
  ∧ totalAbsent r = totalAbsent acc ∧ totalOff r = totalOff acc.
Proof.
  intros Ha Ho. unfold getStats_month. cbv zeta.
  rewrite !lookupDays_unknown by (done || apply lookup_empty).
  destruct (dayRange _ _ _ _ _) as [startDay endDay].
  split; [done|]. apply countDays_unmarked.
Qed.

(** For a class without an entry in either store both computations return,
    with the statistics of empty stores: no absence and no off day. *)
Lemma unknown_class_as_empty att off classId month year today :
  att !! classId = None → off !! classId = None →
  (let m := getMonthlyStats semesterStart semesterEnd att off classId month year today in
   m = getMonthlyStats semesterStart semesterEnd ∅ ∅ classId month year today
   ∧ totalAbsent m = 0 ∧ totalOff m = 0)
  ∧ ∃ stats,
      getStats semesterStart semesterEnd att off classId today = Some stats
      ∧ getStats semesterStart semesterEnd ∅ ∅ classId today = Some stats
      ∧ totalAbsent (counts stats) = 0 ∧ totalOff (counts stats) = 0.
Proof.
  intros Ha Ho. split.
  - unfold getMonthlyStats. cbv zeta.
    rewrite !lookupDays_unknown by (done || apply lookup_empty).
    destruct (dayRange _ _ _ _ _) as [startDay endDay].
    split; [done|]. apply (countDays_unmarked year month startDay endDay noCounts).
  - destruct (getStats_counts semesterStart semesterEnd att off classId today)
      as (stats & Hs & Hc & Ht & Hp).
    destruct (getStats_counts semesterStart semesterEnd ∅ ∅ classId today)
      as (stats' & Hs' & Hc' & Ht' & Hp').
    assert (Heq : counts stats = counts stats').
    { rewrite Hc, Hc'. apply foldl_ext_in. intros a j _.
      by apply getStats_month_unknown. }
    exists stats. split; [done|]. split.
    + rewrite Hs'. f_equal. destruct stats, stats'. cbn in *. congruence.
    + rewrite Hc.
      apply (foldl_invariant (fun c => totalAbsent c = 0 ∧ totalOff c = 0)); [|done].
      intros a j [H1 H2].
      destruct (getStats_month_unknown att off classId
                  (if today <? semesterEnd then today else semesterEnd)
                  (monthCur j) a Ha Ho) as (_ & -> & ->). done.
Qed.

Lemma classifyDay_is_spec att off classId month year today day :
  ¬ (0 <= year <= 99) → 0 <= month <= 11 →
  1 <= day <= getDate (newDate year (month + 1) 0) →
  classifyDay semesterStart semesterEnd att off classId month year today day
  = classifyDay_spec semesterStart semesterEnd att off classId
      (newDate year month day) today.
Proof.
  intros Hy Hm Hd. rewrite daysInMonth_eq in Hd.
  destruct (newDate_fields year month day Hd) as (_ & Hdate & Hyear & Hmonth).
  rewrite (ctorYear_id _ Hy) in Hyear, Hmonth.
  replace ((12 * year + month) / 12) with year in Hyear by div_lia.
  replace ((12 * year + month) mod 12) with month in Hmonth by div_lia.
  unfold classifyDay, classifyDay_spec, includes. cbv zeta.
  rewrite Hdate, Hyear, Hmonth.
  rewrite (orb_comm (getDay _ =? 6)).
  destruct (Z.leb_spec semesterStart (newDate year month day)),
    (Z.leb_spec (newDate year month day) semesterEnd),
    (Z.ltb_spec (newDate year month day) semesterStart),
    (Z.ltb_spec semesterEnd (newDate year month day)); cbn; (done || lia).
Qed.

(** C1. For every day of a month, the branch of [renderCalendar] that
    styles its cell gives the six-step classification of its date, first
    match first, and that is the state of the cell in the calendar drawn. *)
Theorem classifyDay_decision_order att off classId month year today day :
  ¬ (0 <= year <= 99) → 0 <= month <= 11 →
  1 <= day <= getDate (newDate year (month + 1) 0) →
  classifyDay semesterStart semesterEnd att off classId month year today day
  = classifyDay_spec semesterStart semesterEnd att off classId
      (newDate year month day) today
  ∧ ∀ today0 cal,
      renderCalendar semesterStart semesterEnd att off classId month year today0 today
      = Some cal →
      (day, classifyDay_spec semesterStart semesterEnd att off classId
              (newDate year month day) today) ∈ cells cal.
Proof.
  intros Hy Hm Hd.
  pose proof (classifyDay_is_spec att off classId month year today day Hy Hm Hd) as Hspec.
  split; [done|]. intros today0 cal. unfold renderCalendar.
  destruct (isMonthAllowed semesterStart semesterEnd year month); cbn [negb]; [|done].
  intros Hcal. apply (inj Some) in Hcal. rewrite <- Hcal. cbn [cells].
  apply list_elem_of_fmap. exists day. split; [by rewrite Hspec|].
  apply elem_of_seqZ. lia.
Qed.

End Claims.

(** * Counted days and the semester window *)

Section WindowFacts.

Import JSDateFacts DateFacts.

Variables semesterStart semesterEnd : Date.

Implicit Types (att off : Store) (classId : string) (today endDate date : Date).

Lemma elem_of_conductedDates year month offs startDay endDay date :
  date ∈ conductedDates year month offs startDay endDay →
  ∃ d, date = newDate year month d ∧ startDay <= d <= endDay.
Proof.
  unfold conductedDates. rewrite list_elem_of_fmap. intros (d & -> & Hd).
  apply list_elem_of_In, filter_In in Hd as [Hd _].
  apply list_elem_of_In, elem_of_seqZ in Hd. exists d. split; [done | lia].
Qed.

(** The day loop starts at day 1 or later and ends at day 31 or earlier. *)
Lemma dayRange_bounds y m ref :
  1 <= (dayRange semesterStart semesterEnd y m ref).1
  ∧ (dayRange semesterStart semesterEnd y m ref).2 <= 31.
Proof.
  unfold dayRange. cbv zeta. cbn [fst snd]. rewrite daysInMonth_eq.
  pose proof (monthFirst_step (12 * ctorYear y + m)).
  pose proof (getDate_range semesterStart).
  split; repeat match goal with |- context [if ?b then _ else _] => destruct b end; lia.
Qed.

(** In a month between the first and the last month of the semester, the
    days the loop visits are days of the semester. *)
Lemma dayRange_inside y m ref d :
  TimeWithinDay semesterStart = 0 → ¬ (0 <= y <= 99) → 0 <= m <= 11 →
  monthIndex semesterStart <= 12 * y + m <= monthIndex semesterEnd →
  (dayRange semesterStart semesterEnd y m ref).1 <= d
    <= (dayRange semesterStart semesterEnd y m ref).2 →
  semesterStart <= newDate y m d <= semesterEnd.
Proof.
  intros Hmid Hy Hm Hk. rewrite dayRange_eq by done. cbv zeta. cbn [fst snd].
  pose proof (Day_newDate y m d) as HD. rewrite newDate_eq.
  rewrite (ctorYear_id _ Hy) in *.
  set (k := 12 * y + m) in *. clearbody k.
  pose proof (monthFirst_step k) as Hstep.
  pose proof (getDate_range semesterStart) as Hrs.
  pose proof (getDate_eq semesterStart) as Hes.
  pose proof (getDate_eq semesterEnd) as Hee.
  destruct (monthIndex_bounds semesterStart) as [Hbs _].
  destruct (monthIndex_bounds semesterEnd) as [Hbe _].
  intros [Hlo Hhi]. split.
  - apply midnight_ge; [done|].
    rewrite Day_MakeDate by (pose proof msPerDay_pos; lia).
    destruct (Z.eqb_spec k (monthIndex semesterStart)) as [-> | Hne]; [lia|].
    pose proof (monthFirst_le (monthIndex semesterStart + 1) k). lia.
  - apply midnight_le.
    assert (Hd : d <= (if k =? monthIndex semesterEnd
                       then Z.min (monthFirst (k + 1) - monthFirst k) (getDate semesterEnd)
                       else monthFirst (k + 1) - monthFirst k)).
    { destruct (k =? monthIndex ref); lia. }
    destruct (Z.eqb_spec k (monthIndex semesterEnd)) as [-> | Hne]; [lia|].
    pose proof (monthFirst_le (k + 1) (monthIndex semesterEnd)). lia.
Qed.

(** A month that [isMonthAllowed] accepts lies between the first and the
    last month of the semester. *)
Lemma isMonthAllowed_index y m :
  isMonthAllowed semesterStart semesterEnd y m = true →
  monthIndex semesterStart <= 12 * ctorYear y + m <= monthIndex semesterEnd.
Proof.
  unfold isMonthAllowed. cbv zeta. rewrite daysInMonth_eq.
  set (k := 12 * ctorYear y + m).
  intros H. apply negb_true_iff, orb_false_iff in H as [H1 H2].
  apply Z.ltb_ge in H1, H2. apply Day_mono in H1, H2.
  rewrite Day_newDate in H1, H2. fold k in H1, H2.
  destruct (monthIndex_bounds semesterStart) as [Hbs _].
  destruct (monthIndex_bounds semesterEnd) as [Hbe _].
  split.
  - destruct (Z.le_gt_cases (monthIndex semesterStart) k) as [|G]; [done|].
    pose proof (monthFirst_le (k + 1) (monthIndex semesterStart)). lia.
  - destruct (Z.le_gt_cases k (monthIndex semesterEnd)) as [|G]; [done|].
    pose proof (monthFirst_le (monthIndex semesterEnd + 1) k). lia.
Qed.



Lemma getStats_month_conducted_length att off classId endDate cur acc :
  totalConducted (getStats_month semesterStart semesterEnd att off classId endDate cur acc)
  = totalConducted acc
    + Z.of_nat (length (getStats_month_conducted semesterStart semesterEnd off classId
                          endDate cur)).
Proof.
  unfold getStats_month, getStats_month_conducted. cbv zeta.
  destruct (dayRange _ _ _ _ _) as [startDay endDay].
  by rewrite countDays_conducted.
Qed.

(** The ghost list of the month loop has as many dates as the loop counts
    conducted classes. *)
Lemma getStats_loop_conducted_length att off classId endDate (n : nat) k acc :
  monthIndex endDate - k < Z.of_nat n →
  ∃ acc',
    getStats_loop semesterStart semesterEnd n att off classId endDate (monthCur k) acc
    = Some acc'
    ∧ totalConducted acc'
      = totalConducted acc
        + Z.of_nat (length (getStats_loop_conducted semesterStart semesterEnd n off
                              classId endDate (monthCur k))).
Proof.
  revert k acc. induction n as [|n IH]; intros k acc Hn;
    cbn [getStats_loop getStats_loop_conducted];
    destruct (Z.leb_spec (monthCur k) endDate) as [Hle | Hgt];
    try (exists acc; split; [done | cbn; lia]).
  - apply monthCur_le in Hle. lia.
  - apply monthCur_le in Hle. rewrite setMonth_monthCur.
    destruct (IH (k + 1)
                (getStats_month semesterStart semesterEnd att off classId endDate
                   (monthCur k) acc)) as (acc' & -> & Hc); [lia|].
    exists acc'. split; [done|].
    rewrite Hc, getStats_month_conducted_length, length_app. lia.
Qed.



End WindowFacts.

(** * The claims about toggling *)

Section ToggleClaims.

Implicit Types (data : AppData) (classId type : string) (day month year d : Z).

(** C3. On a day set (an array without repetition) two toggles with the
    same arguments restore the membership of every day in the targeted
    array, the toggled day included; one toggle flips the membership of the
    toggled day. *)
Theorem toggleDayStatus_twice data classId day month year type :
  NoDup (lookupDays (targetStore type data) classId (monthKey year month)) →
  (day ∈ lookupDays
           (targetStore type (toggleDayStatus data classId day month year type))
           classId (monthKey year month)
   ↔ day ∉ lookupDays (targetStore type data) classId (monthKey year month))
  ∧ ∀ d,
      d ∈ lookupDays
            (targetStore type
               (toggleDayStatus (toggleDayStatus data classId day month year type)
                  classId day month year type))
            classId (monthKey year month)
      ↔ d ∈ lookupDays (targetStore type data) classId (monthKey year month).
Proof.
  intros Hnd. rewrite !targetStore_toggle, !lookupDays_toggleIn_same. split.
  - rewrite (elem_of_toggleDays day _ day Hnd). tauto.
  - intros d. by apply toggleDays_twice.
Qed.

Lemma toggleIn_exclusion (tgt oth : Store) classId key day :
  (∀ c k d, d ∈ lookupDays tgt c k → d ∈ lookupDays oth c k → False) →
  (∀ c k d, d ∈ lookupDays (toggleIn tgt classId key day) c k →
            d ∈ lookupDays oth c k → False)
  ↔ (day ∈ lookupDays tgt classId key ∨ day ∉ lookupDays oth classId key).
Proof.
  intros Hex. split.
  - intros Hex'. destruct (decide (day ∈ lookupDays tgt classId key)) as [|Hnot]; [by left|].
    right. intros Hoth. apply (Hex' classId key day); [|done].
    rewrite lookupDays_toggleIn_same. by apply toggleDays_marks.
  - intros Hday c k d Hd Hoth.
    destruct (decide ((c, k) = (classId, key))) as [[= -> ->] | Hne].
    + rewrite lookupDays_toggleIn_same in Hd.
      apply toggleDays_subset_or_new in Hd as [Hd | [-> Hnot]].
      * by apply (Hex classId key d).
      * destruct Hday; done.
    + rewrite (lookupDays_changedOnlyAt tgt _ classId key) in Hd
        by (done || apply toggleIn_changedOnlyAt).
      by apply (Hex c k d).
Qed.

(** The edit of own properties and mutual exclusion. *)
Lemma toggleDayStatus_exclusion_own data classId day month year type :
  mutuallyExclusive data →
  mutuallyExclusive (toggleDayStatus data classId day month year type)
  ↔ (day ∈ lookupDays (targetStore type data) classId (monthKey year month)
     ∨ day ∉ lookupDays (otherStore type data) classId (monthKey year month)).
Proof.
  intros Hex. unfold mutuallyExclusive, toggleDayStatus, targetStore, otherStore in *.
  case_bool_decide; cbn [attendanceData offDaysData].
  - rewrite <- toggleIn_exclusion by (intros c k d ? ?; apply (Hex c k d); done).
    split; intros Hall c k d;
      [intros ? ?; apply (Hall c k d); done | intros [? ?]; by apply (Hall c k d)].
  - rewrite <- toggleIn_exclusion by (intros c k d ? ?; apply (Hex c k d); done).
    split; intros Hall c k d;
      [intros ? ?; apply (Hall c k d); done | intros [? ?]; by apply (Hall c k d)].
Qed.

(** C6, as the code has it, in a page where nothing that the stores
    inherit carries a month array, and for a class name that objects do not
    inherit.  From stores in which no day is read both as absent and as
    off, a toggle keeps it so exactly when it un-marks the day or the day is
    not marked in the other store: [toggleDayStatus] does not look at the
    other store.  The page stays as supposed. *)
Theorem toggleDayStatus_exclusion (h : Proto.Heap) classId day month year type :
  Proto.shared h = Proto.pristine → ownName classId →
  Proto.mutuallyExclusive h →
  Proto.shared (Proto.toggleDayStatus h classId day month year type) = Proto.pristine
  ∧ (Proto.mutuallyExclusive (Proto.toggleDayStatus h classId day month year type)
     ↔ (day ∈ Proto.lookupDays (Proto.shared h) (targetStore type (Proto.stores h))
                classId (monthKey year month)
        ∨ day ∉ Proto.lookupDays (Proto.shared h) (otherStore type (Proto.stores h))
                  classId (monthKey year month))).
Proof.
  destruct h as [data sh]. cbn [Proto.shared Proto.stores]. intros -> Hown Hex.
  rewrite toggleDayStatus_pristine by done. cbn [Proto.shared Proto.stores].
  split; [reflexivity|].
  rewrite !lookupDays_pristine, mutuallyExclusive_pristine.
  apply toggleDayStatus_exclusion_own. by apply mutuallyExclusive_pristine.
Qed.

(** The frame of a toggle, in a page where nothing that the stores inherit
    carries a month array, and for a class name that objects do not
    inherit: the page stays so, a toggle of kind "absent" leaves
    [offDaysData] as it is, a toggle of kind "off" leaves [attendanceData]
    as it is, and in the store it edits nothing changes but the array of
    that class and month key.  Every kind other than "absent" edits
    [offDaysData]. *)
Lemma toggleDayStatus_frame (h : Proto.Heap) classId day month year type :
  Proto.shared h = Proto.pristine → ownName classId →
  let data := Proto.stores h in
  let data' := Proto.stores (Proto.toggleDayStatus h classId day month year type) in
  Proto.shared (Proto.toggleDayStatus h classId day month year type) = Proto.pristine
  ∧ otherStore type data' = otherStore type data
  ∧ changedOnlyAt (targetStore type data) (targetStore type data') classId
      (monthKey year month).
Proof.
  destruct h as [data sh]. cbn [Proto.shared Proto.stores]. intros -> Hown.
  cbv zeta. rewrite toggleDayStatus_pristine by done. cbn [Proto.shared Proto.stores].
  split; [reflexivity|].
  rewrite otherStore_toggle, targetStore_toggle. split; [done|].
  apply toggleIn_changedOnlyAt.
Qed.

End ToggleClaims.

(** * The displayed percentage *)

Section PercentFacts.

Import JSDateFacts DateFacts.

Implicit Types (att off : Store) (classId : string) (today endDate : Date).

(** Every pair of counters with [absent <= conducted < 200], by evaluation
    of the binary64 operations. *)
Lemma percent_table_checked :
  forallb (fun c => forallb (percentAgrees c) (seqZ 0 (c + 1))) (seqZ 0 200) = true.
Proof. vm_compute. reflexivity. Qed.

Lemma percent_table conducted absent :
  0 <= conducted < 200 → 0 <= absent <= conducted →
  percent conducted absent = Some (percentExpected conducted absent).
Proof.
  intros Hc Ha. pose proof percent_table_checked as H.
  rewrite forallb_forall in H.
  assert (Hin : In conducted (seqZ 0 200))
    by (apply list_elem_of_In, elem_of_seqZ; lia).
  specialize (H conducted Hin). rewrite forallb_forall in H.
  assert (Hin' : In absent (seqZ 0 (conducted + 1)))
    by (apply list_elem_of_In, elem_of_seqZ; lia).
  specialize (H absent Hin'). unfold percentAgrees in H.
  destruct (percent conducted absent) as [p|]; [|discriminate].
  f_equal. by apply Z.eqb_eq.
Qed.

(** Below 40 conducted classes the quotient 23/40 does not occur. *)
Lemma percentExpected_small conducted absent :
  0 <= conducted < 40 →
  percentExpected conducted absent
  = if conducted =? 0 then 0 else roundHalfUp (100 * (conducted - absent)) conducted.
Proof.
  intros Hc. unfold percentExpected.
  destruct (Z.eqb_spec conducted 0); [done|].
  destruct (Z.eqb_spec (40 * (conducted - absent)) (23 * conducted)); [lia | done].
Qed.

Lemma countDays_bounds year month offs absents startDay endDay acc :
  1 <= startDay → endDay <= 31 →
  let r := countDays year month offs absents startDay endDay acc in
  totalAbsent acc <= totalAbsent r
  ∧ totalAbsent r - totalAbsent acc <= totalConducted r - totalConducted acc
  ∧ totalConducted r - totalConducted acc <= 31.
Proof.
  intros Hs He.
  pose proof (foldl_countDay_bounds year month offs absents
                (seqZ startDay (endDay - startDay + 1)) acc) as H.
  cbv zeta in H. rewrite length_seqZ in H. unfold countDays. cbv zeta. lia.
Qed.

Lemma getMonthlyStats_bounds ss se att off classId month year today :
  let m := getMonthlyStats ss se att off classId month year today in
  0 <= totalAbsent m <= totalConducted m ∧ totalConducted m <= 31.
Proof.
  unfold getMonthlyStats. cbv zeta.
  destruct (dayRange_bounds ss se year month today) as [Hs He].
  destruct (dayRange _ _ _ _ _) as [startDay endDay]. cbn [fst snd] in *.
  pose proof (countDays_bounds year month (lookupDays off classId (monthKey year month))
                (lookupDays att classId (monthKey year month)) startDay endDay noCounts
                Hs He) as H.
  cbv zeta in H.
  change (totalAbsent noCounts) with 0 in H. change (totalConducted noCounts) with 0 in H.
  lia.
Qed.

Lemma getStats_month_bounds ss se att off classId endDate cur acc :
  let r := getStats_month ss se att off classId endDate cur acc in
  totalAbsent acc <= totalAbsent r
  ∧ totalAbsent r - totalAbsent acc <= totalConducted r - totalConducted acc
  ∧ totalConducted r - totalConducted acc <= 31.
Proof.
  unfold getStats_month. cbv zeta.
  destruct (dayRange_bounds ss se (getFullYear cur) (getMonth cur) endDate) as [Hs He].
  destruct (dayRange _ _ _ _ _) as [startDay endDay]. cbn [fst snd] in *.
  by apply countDays_bounds.
Qed.

Lemma foldl_getStats_month_bounds ss se att off classId endDate (l : list Z) acc :
  let r := foldl (fun a j => getStats_month ss se att off classId endDate (monthCur j) a)
             acc l in
  totalAbsent acc <= totalAbsent r
  ∧ totalAbsent r - totalAbsent acc <= totalConducted r - totalConducted acc
  ∧ totalConducted r - totalConducted acc <= 31 * Z.of_nat (length l).
Proof.
  revert acc. induction l as [|j l IH]; intros acc; cbn [foldl length]; [lia|].
  specialize (IH (getStats_month ss se att off classId endDate (monthCur j) acc)).
  pose proof (getStats_month_bounds ss se att off classId endDate (monthCur j) acc).
  cbv zeta in *. lia.
Qed.

(** In the semester of the script [getStats] visits at most five months. *)
Lemma getStats_bounds att off classId today :
  ∃ stats,
    getStats Semester.semesterStart Semester.semesterEnd att off classId today = Some stats
    ∧ 0 <= totalAbsent (counts stats) <= totalConducted (counts stats)
    ∧ totalConducted (counts stats) < 200.
Proof.
  destruct (getStats_counts Semester.semesterStart Semester.semesterEnd att off classId today)
    as (stats & Hs & Hc & _).
  exists stats. split; [done|]. rewrite Hc. clear Hs Hc.
  set (endDate := if today <? Semester.semesterEnd then today else Semester.semesterEnd).
  assert (Hend : endDate <= Semester.semesterEnd)
    by (subst endDate; destruct (Z.ltb_spec today Semester.semesterEnd); lia).
  apply monthIndex_mono in Hend.
  assert (Hk0 : 12 * ctorYear (getFullYear Semester.semesterStart)
                + getMonth Semester.semesterStart = 24306) by (vm_compute; reflexivity).
  assert (HK : monthIndex Semester.semesterEnd = 24310) by (vm_compute; reflexivity).
  rewrite Hk0. rewrite HK in Hend.
  pose proof (foldl_getStats_month_bounds Semester.semesterStart Semester.semesterEnd
                att off classId endDate
                (seqZ 24306 (monthIndex endDate - 24306 + 1)) noCounts) as H.
  cbv zeta in H. rewrite length_seqZ in H.
  change (totalAbsent noCounts) with 0 in H. change (totalConducted noCounts) with 0 in H.
  lia.
Qed.

(** The percentages as the code computes them.  The percentage is 0 when
    nothing was conducted; no division is evaluated then.  Otherwise it is
    [Math.round(((conducted - absent) / conducted) * 100)] on binary64
    numbers.  On a calendar this is the exact quotient rounded half up; on a
    card of the semester of the script it is the same except when the
    quotient is 23/40, where the product falls below 57.5. *)
Lemma displayed_percentage att off classId month year today :
  (∀ absent, percent 0 absent = Some 0)
  ∧ (∀ ss se today1 cal,
       renderCalendar ss se att off classId month year today today1 = Some cal →
       monthlyPercent cal
       = Some (if totalConducted (monthStats cal) =? 0 then 0
               else roundHalfUp
                      (100 * (totalConducted (monthStats cal) - totalAbsent (monthStats cal)))
                      (totalConducted (monthStats cal))))
  ∧ (∃ stats,
       getStats Semester.semesterStart Semester.semesterEnd att off classId today = Some stats
       ∧ cardPercent Semester.semesterStart Semester.semesterEnd att off classId today
         = Some (if totalConducted (counts stats) =? 0 then 0
                 else if 40 * (totalConducted (counts stats) - totalAbsent (counts stats))
                         =? 23 * totalConducted (counts stats) then 57
                 else roundHalfUp
                        (100 * (totalConducted (counts stats) - totalAbsent (counts stats)))
                        (totalConducted (counts stats)))).
Proof.
  split; [done|]. split.
  - intros ss se today1 cal. unfold renderCalendar.
    destruct (isMonthAllowed ss se year month); cbn [negb]; [|done].
    intros Hcal. apply (inj Some) in Hcal. rewrite <- Hcal. cbn [monthlyPercent monthStats].
    pose proof (getMonthlyStats_bounds ss se att off classId month year today) as Hb.
    cbv zeta in Hb. rewrite percent_table by lia.
    by rewrite percentExpected_small by lia.
  - destruct (getStats_bounds att off classId today) as (stats & Hs & Ha & Hc).
    exists stats. split; [done|]. unfold cardPercent. rewrite Hs.
    by rewrite percent_table by lia.
Qed.

End PercentFacts.

(** * The semester of the script *)

Section ScriptSemester.

Import JSDateFacts DateFacts Semester Scenario.

Lemma semesterStart_fields :
  getFullYear semesterStart = 2025 ∧ monthIndex semesterStart = 24306
  ∧ TimeWithinDay semesterStart = 0 ∧ monthIndex semesterEnd = 24310.
Proof. repeat split; vm_compute; reflexivity. Qed.

(** C2. The counters of [getStats] are the sums of the counters of
    [getMonthlyStats] over every calendar month from the start month of the
    semester through the month of [min(today, semesterEnd)]. *)
Theorem getStats_sums_monthly (att off : Store) (classId : string) (today : Date) :
  ∃ stats,
    getStats semesterStart semesterEnd att off classId today = Some stats
    ∧ counts stats = sumMonthlyStats semesterStart semesterEnd att off classId today.
Proof.
  apply getStats_sums_monthly_any_window.
  destruct semesterStart_fields as (-> & _). lia.
Qed.


(** The months summed on August 15 and after the semester. *)
Example monthsFromTo_aug15 :
  monthsFromTo semesterStart (Z.min aug15 semesterEnd) = [(2025, 6); (2025, 7)]
  ∧ monthsFromTo semesterStart (Z.min (newDate 2026 0 1) semesterEnd)
    = [(2025, 6); (2025, 7); (2025, 8); (2025, 9); (2025, 10)].
Proof. split; vm_compute; reflexivity. Qed.

(** December 2025 is not a month of the semester, August 2025 is. *)
Example isMonthAllowed_december_august :
  isMonthAllowed semesterStart semesterEnd 2025 11 = false
  ∧ isMonthAllowed semesterStart semesterEnd 2025 7 = true.
Proof. split; vm_compute; reflexivity. Qed.

(** A Monday marked absent and marked present again. *)
Example monday_july_28 :
  let none := {| attendanceData := ∅; offDaysData := ∅ |} in
  let once := toggleDayStatus none "cs301" 28 6 2025 "absent" in
  let twice := toggleDayStatus once "cs301" 28 6 2025 "absent" in
  once = oneAbsence
  ∧ classifyDay semesterStart semesterEnd (attendanceData none) (offDaysData none)
      "cs301" 6 2025 aug15 28 = Present
  ∧ classifyDay semesterStart semesterEnd (attendanceData once) (offDaysData once)
      "cs301" 6 2025 aug15 28 = Absent
  ∧ classifyDay semesterStart semesterEnd (attendanceData twice) (offDaysData twice)
      "cs301" 6 2025 aug15 28 = Present.
Proof. repeat split; vm_compute; reflexivity. Qed.

(** C5: what the code does.  On August 15, 2025 the monthly statistics of
    September 2025 count the 22 week days of the month as conducted: the
    clamp by [today] applies to the month of [today] only.  The cells of
    that calendar are all [Future], and [getStats] counts 15 classes up to
    that day. *)
Theorem september_counted_before_it_starts :
  getMonthlyStats semesterStart semesterEnd ∅ ∅ "cs301" 8 2025 aug15
  = {| totalConducted := 22; totalAbsent := 0; totalOff := 0 |}
  ∧ classifyDay semesterStart semesterEnd ∅ ∅ "cs301" 8 2025 aug15 <$> seqZ 1 30
    = replicate 30 Future
  ∧ (totalConducted ∘ counts) <$> getStats semesterStart semesterEnd ∅ ∅ "cs301" aug15
    = Some 15.
Proof. repeat split; vm_compute; reflexivity. Qed.

(** C7: a toggle of kind "absent" under a class name that objects inherit
    reaches the off days.  From the empty stores of the script, the toggle
    of day 28 of July 2025 for the class "constructor" leaves both stores
    empty and puts the array on [Object], where the off days of that class
    are read too: day 28 is now an off day.  From the stores that
    [loadAttendanceData] leaves, the same toggle for the class "__proto__"
    puts the array on [Object.prototype]: day 28 is now an off day of
    "cs301", whose statistics of July go from 4 conducted classes to 3 and
    one holiday. *)
Theorem inherited_class_name_reaches_off_days :
  (Proto.stores (Proto.toggleDayStatus Proto.start "constructor" 28 6 2025 "absent")
   = Proto.stores Proto.start
   ∧ Proto.lookupDays (Proto.shared Proto.start) (offDaysData (Proto.stores Proto.start))
       "constructor" (monthKey 2025 6) = []
   ∧ Proto.lookupDays
       (Proto.shared (Proto.toggleDayStatus Proto.start "constructor" 28 6 2025 "absent"))
       (offDaysData
          (Proto.stores (Proto.toggleDayStatus Proto.start "constructor" 28 6 2025 "absent")))
       "constructor" (monthKey 2025 6) = [28])
  ∧ (Proto.stores (Proto.toggleDayStatus Proto.loadedEmpty "__proto__" 28 6 2025 "absent")
     = Proto.stores Proto.loadedEmpty
     ∧ Proto.lookupDays (Proto.shared Proto.loadedEmpty)
         (offDaysData (Proto.stores Proto.loadedEmpty)) "cs301" (monthKey 2025 6) = []
     ∧ Proto.lookupDays
         (Proto.shared
            (Proto.toggleDayStatus Proto.loadedEmpty "__proto__" 28 6 2025 "absent"))
         (offDaysData
            (Proto.stores
               (Proto.toggleDayStatus Proto.loadedEmpty "__proto__" 28 6 2025 "absent")))
         "cs301" (monthKey 2025 6) = [28]
     ∧ Proto.getMonthlyStats semesterStart semesterEnd Proto.loadedEmpty "cs301" 6 2025 aug15
       = {| totalConducted := 4; totalAbsent := 0; totalOff := 0 |}
     ∧ Proto.getMonthlyStats semesterStart semesterEnd
         (Proto.toggleDayStatus Proto.loadedEmpty "__proto__" 28 6 2025 "absent")
         "cs301" 6 2025 aug15
       = {| totalConducted := 3; totalAbsent := 0; totalOff := 1 |}).
Proof. repeat split; vm_compute; reflexivity. Qed.


(** C6: a toggle of kind "off" on a day marked absent leaves the day in
    both arrays. *)
Lemma toggle_breaks_exclusion :
  Proto.mutuallyExclusive {| Proto.stores := oneAbsence; Proto.shared := Proto.pristine |}
  ∧ ¬ Proto.mutuallyExclusive
        (Proto.toggleDayStatus
           {| Proto.stores := oneAbsence; Proto.shared := Proto.pristine |}
           "cs301" 28 6 2025 "off").
Proof.
  split.
  - intros c k d [_ H]. cbn [Proto.stores Proto.shared] in H.
    rewrite lookupDays_pristine in H. by apply elem_of_nil in H.
  - intros H. apply (H "cs301" "2025-07" 28).
    split; apply (bool_decide_unpack _); vm_compute; exact I.
Qed.

(** C9: with 40 classes conducted and 17 absences the card shows 57, and
    the exact quotient 57.5 rounds to 58: in binary64 the product
    [(23 / 40) * 100] is below 57.5. *)
Lemma card_shows_57_for_23_of_40 :
  (fun stats => (totalConducted (counts stats), totalAbsent (counts stats)))
    <$> getStats semesterStart semesterEnd seventeenAbsences ∅ "cs301" sep19
  = Some (40, 17)
  ∧ cardPercent semesterStart semesterEnd seventeenAbsences ∅ "cs301" sep19 = Some 57
  ∧ roundHalfUp (100 * (40 - 17)) 40 = 58
  ∧ cardPercent semesterStart semesterEnd seventeenAbsences ∅ "cs301" sep19
    ≠ Some (roundHalfUp (100 * (40 - 17)) 40)
  ∧ PrimFloat.ltb
      (PrimFloat.mul (PrimFloat.div (numberOfZ 23) (numberOfZ 40)) (numberOfZ 100))
      57.5%float = true.
Proof. repeat split; try (vm_compute; reflexivity). vm_compute. discriminate. Qed.

(** C10: a class without an entry has 11 conducted classes in August 2025
    on August 15 and 15 in the semester; its statistics are not empty. *)
Lemma unknown_class_has_conducted_classes :
  getMonthlyStats semesterStart semesterEnd ∅ ∅ "cs999" 7 2025 aug15
  = {| totalConducted := 11; totalAbsent := 0; totalOff := 0 |}
  ∧ getMonthlyStats semesterStart semesterEnd ∅ ∅ "cs999" 7 2025 aug15 ≠ noCounts
  ∧ (totalConducted ∘ counts) <$> getStats semesterStart semesterEnd ∅ ∅ "cs999" aug15
    = Some 15.
Proof. repeat split; try (vm_compute; reflexivity). vm_compute. discriminate. Qed.

(** The cell of Monday, July 28, 2025, drawn on August 15. *)
Lemma classifyDay_decision_order_witness :
  classifyDay semesterStart semesterEnd (attendanceData oneAbsence) ∅ "cs301" 6 2025 aug15 28
  = classifyDay_spec semesterStart semesterEnd (attendanceData oneAbsence) ∅ "cs301"
      (newDate 2025 6 28) aug15
  ∧ ∀ today0 cal,
      renderCalendar semesterStart semesterEnd (attendanceData oneAbsence) ∅ "cs301"
        6 2025 today0 aug15 = Some cal →
      (28, classifyDay_spec semesterStart semesterEnd (attendanceData oneAbsence) ∅ "cs301"
             (newDate 2025 6 28) aug15) ∈ cells cal.
Proof.
  apply classifyDay_decision_order; [lia | lia |].
  cut (getDate (newDate 2025 (6 + 1) 0) = 31); [intros ->; lia | vm_compute; reflexivity].
Defined.

(** Two toggles of the absence of July 28, 2025. *)
Lemma toggleDayStatus_twice_witness :
  (28 ∈ lookupDays
          (targetStore "absent" (toggleDayStatus oneAbsence "cs301" 28 6 2025 "absent"))
          "cs301" (monthKey 2025 6)
   ↔ 28 ∉ lookupDays (targetStore "absent" oneAbsence) "cs301" (monthKey 2025 6))
  ∧ ∀ d,
      d ∈ lookupDays
            (targetStore "absent"
               (toggleDayStatus (toggleDayStatus oneAbsence "cs301" 28 6 2025 "absent")
                  "cs301" 28 6 2025 "absent"))
            "cs301" (monthKey 2025 6)
      ↔ d ∈ lookupDays (targetStore "absent" oneAbsence) "cs301" (monthKey 2025 6).
Proof.
  apply toggleDayStatus_twice.
  cut (lookupDays (targetStore "absent" oneAbsence) "cs301" (monthKey 2025 6) = [28]);
    [intros ->; apply NoDup_singleton | vm_compute; reflexivity].
Defined.

(** July 29, 2025 toggled off while July 28 is marked absent. *)
Lemma toggleDayStatus_exclusion_witness :
  Proto.shared
    (Proto.toggleDayStatus {| Proto.stores := oneAbsence; Proto.shared := Proto.pristine |}
       "cs301" 29 6 2025 "off")
  = Proto.pristine
  ∧ (Proto.mutuallyExclusive
       (Proto.toggleDayStatus
          {| Proto.stores := oneAbsence; Proto.shared := Proto.pristine |}
          "cs301" 29 6 2025 "off")
     ↔ (29 ∈ Proto.lookupDays Proto.pristine (targetStore "off" oneAbsence) "cs301"
               (monthKey 2025 6)
        ∨ 29 ∉ Proto.lookupDays Proto.pristine (otherStore "off" oneAbsence) "cs301"
                 (monthKey 2025 6))).
Proof.
  apply (toggleDayStatus_exclusion
           {| Proto.stores := oneAbsence; Proto.shared := Proto.pristine |}).
  - reflexivity.
  - unfold ownName. apply (bool_decide_unpack _). vm_compute. exact I.
  - intros c k d [_ H]. cbn [Proto.stores Proto.shared] in H.
    rewrite lookupDays_pristine in H. by apply elem_of_nil in H.
Defined.


End ScriptSemester.

(** * Facts about the arrays kept by toggles *)

Section ArrayFacts.

Implicit Types (l : list Z) (x y d day : Z) (st : Store) (data : AppData).

Lemma ascending_NoDup l : ascending l → NoDup l.
Proof.
  induction 1 as [|a l _ IH Hall]; [apply NoDup_nil_2|].
  apply NoDup_cons. split; [|done].
  intros Hin. rewrite Forall_forall in Hall. specialize (Hall a Hin). lia.
Qed.

Lemma ascending_le l : ascending l → StronglySorted Z.le l.
Proof.
  induction 1 as [|a l _ IH Hall]; constructor; [done|].
  eapply Forall_impl; [exact Hall|]. intros; cbn in *; lia.
Qed.

Lemma ascending_delete l (i : nat) : ascending l → ascending (delete i l).
Proof.
  intros H. revert i. induction H as [|a l Hl IH Hall]; intros i.
  - destruct i; cbn; constructor.
  - destruct i as [|i]; cbn; [exact Hl|].
    constructor; [apply IH | by apply Forall_delete].
Qed.

Lemma le_NoDup_ascending l : StronglySorted Z.le l → NoDup l → ascending l.
Proof.
  induction 1 as [|a l _ IH Hall]; intros Hnd; [constructor|].
  apply NoDup_cons in Hnd as [Ha Hnd]. constructor; [by apply IH|].
  rewrite Forall_forall in Hall |- *. intros b Hb.
  specialize (Hall b Hb). assert (a ≠ b) by (intros ->; done). lia.
Qed.

(** Two ascending arrays with the same days are the same array. *)
Lemma ascending_ext l1 l2 :
  ascending l1 → ascending l2 → (∀ d, d ∈ l1 ↔ d ∈ l2) → l1 = l2.
Proof.
  intros H1 H2 Hd. apply (StronglySorted_unique Z.le).
  - by apply ascending_le.
  - by apply ascending_le.
  - apply NoDup_Permutation; [by apply ascending_NoDup .. | done].
Qed.

(** A toggle keeps an ascending array ascending. *)
Lemma toggleDays_ascending x l : ascending l → ascending (toggleDays x l).
Proof.
  intros Hl. pose proof (ascending_NoDup l Hl) as Hnd.
  unfold toggleDays.
  destruct (indexOf_spec x l) as [[Hnot ->] | (i & -> & Hi)].
  - cbn. apply le_NoDup_ascending.
    + apply (StronglySorted_merge_sort Z.le).
    + unfold sortAscending. rewrite merge_sort_Permutation.
      rewrite Permutation_app_comm. cbn. by apply NoDup_cons.
  - destruct (Z.gtb_spec (Z.of_nat i) (-1)); [|lia]. by apply ascending_delete.
Qed.

(** On an ascending array toggles of two days can be done in either order,
    and two toggles of one day give the array back. *)
Lemma toggleDays_comm x y l :
  ascending l → toggleDays y (toggleDays x l) = toggleDays x (toggleDays y l).
Proof.
  intros Hl. apply ascending_ext; [by do 2 apply toggleDays_ascending .. |].
  intros d.
  pose proof (ascending_NoDup _ Hl) as Hnd.
  pose proof (toggleDays_NoDup x l Hnd) as Hx.
  pose proof (toggleDays_NoDup y l Hnd) as Hy.
  rewrite (elem_of_toggleDays y _ d Hx), (elem_of_toggleDays x _ d Hy).
  rewrite !(elem_of_toggleDays x l), !(elem_of_toggleDays y l) by done.
  destruct (decide (d = x)) as [Hdx | Hdx], (decide (d = y)) as [Hdy | Hdy],
    (decide (x ∈ l)), (decide (y ∈ l)); subst; intuition congruence.
Qed.

Lemma toggleDays_twice_eq x l : ascending l → toggleDays x (toggleDays x l) = l.
Proof.
  intros Hl. apply ascending_ext; [by do 2 apply toggleDays_ascending | done |].
  intros d. apply toggleDays_twice. by apply ascending_NoDup.
Qed.

(** [toggleIn] as one update of the store. *)
Lemma toggleIn_eq st classId key day :
  toggleIn st classId key day
  = <[classId := <[key := toggleDays day (lookupDays st classId key)]>
                   (default ∅ (st !! classId))]> st.
Proof.
  unfold toggleIn, lookupDays.
  destruct (st !! classId) as [byMonth|] eqn:E; cbn.
  - rewrite E. cbn. destruct (byMonth !! key) as [days|] eqn:E'; cbn.
    + by rewrite E'.
    + by rewrite lookup_insert_eq, insert_insert_eq.
  - rewrite lookup_insert_eq. cbn. rewrite lookup_empty, lookup_insert_eq. cbn.
    by rewrite !insert_insert_eq.
Qed.

Lemma lookupDays_toggleIn_other st classId key day c k :
  (c, k) ≠ (classId, key) →
  lookupDays (toggleIn st classId key day) c k = lookupDays st c k.
Proof.
  intros Hne. apply (lookupDays_changedOnlyAt st _ classId key); [|done].
  apply toggleIn_changedOnlyAt.
Qed.

Lemma toggleIn_twice_lookup st classId key day c k :
  ascending (lookupDays st classId key) →
  lookupDays (toggleIn (toggleIn st classId key day) classId key day) c k
  = lookupDays st c k.
Proof.
  intros Hl. destruct (decide ((c, k) = (classId, key))) as [[= -> ->] | Hne].
  - rewrite !lookupDays_toggleIn_same. by apply toggleDays_twice_eq.
  - by rewrite !lookupDays_toggleIn_other.
Qed.

Lemma toggleIn_comm st c1 k1 a c2 k2 b :
  ascending (lookupDays st c1 k1) →
  toggleIn (toggleIn st c1 k1 a) c2 k2 b = toggleIn (toggleIn st c2 k2 b) c1 k1 a.
Proof.
  intros Hl.
  rewrite (toggleIn_eq (toggleIn st c1 k1 a)), (toggleIn_eq (toggleIn st c2 k2 b)).
  destruct (decide ((c2, k2) = (c1, k1))) as [[= -> ->] | Hne].
  - rewrite !lookupDays_toggleIn_same, (toggleDays_comm a b) by done.
    rewrite !(toggleIn_eq st), !lookup_insert_eq. cbn.
    by rewrite !insert_insert_eq.
  - rewrite (lookupDays_toggleIn_other st c1 k1 a c2 k2) by done.
    rewrite (lookupDays_toggleIn_other st c2 k2 b c1 k1) by congruence.
    rewrite !(toggleIn_eq st).
    destruct (decide (c1 = c2)) as [-> | Hc].
    + assert (k1 ≠ k2) by congruence.
      rewrite !lookup_insert_eq. cbn. rewrite !insert_insert_eq.
      f_equal. by apply insert_insert_ne.
    + rewrite !lookup_insert_ne by done. by apply insert_insert_ne.
Qed.

Lemma toggleIn_hasEntry st classId key day c k :
  hasEntry st c k ∨ (c, k) = (classId, key) →
  hasEntry (toggleIn st classId key day) c k.
Proof.
  rewrite toggleIn_eq. unfold hasEntry.
  destruct (decide (c = classId)) as [-> | Hc].
  - rewrite lookup_insert_eq. intros H. eexists. split; [done|].
    destruct (decide (k = key)) as [-> | Hk].
    + rewrite lookup_insert_eq. by eexists.
    + rewrite lookup_insert_ne by done.
      destruct H as [(m & Hm1 & Hm2) | Heq]; [by rewrite Hm1 | congruence].
  - rewrite lookup_insert_ne by done. intros [H | Heq]; [done | congruence].
Qed.

End ArrayFacts.

(** * Facts about month keys and month navigation *)

Section KeyFacts.

Import JSDateFacts DateFacts.

Lemma length_string_app (s t : string) :
  String.length (s +:+ t) = (String.length s + String.length t)%nat.
Proof.
  induction s as [|c s IH]; [reflexivity|].
  change (S (String.length (s +:+ t)) = S (String.length s + String.length t)).
  by rewrite IH.
Qed.

(** Two strings that end in suffixes of one length are equal part by part. *)
Lemma string_app_inj_suffix (s1 s2 t1 t2 : string) :
  String.length t1 = String.length t2 → s1 +:+ t1 = s2 +:+ t2 → s1 = s2 ∧ t1 = t2.
Proof.
  intros Hlen. revert s2. induction s1 as [|c s1 IH]; intros [|c' s2] H.
  - done.
  - exfalso. apply (f_equal String.length) in H.
    change (String.length t1 = S (String.length (s2 +:+ t2))) in H.
    rewrite length_string_app in H. lia.
  - exfalso. apply (f_equal String.length) in H.
    change (S (String.length (s1 +:+ t1)) = String.length t2) in H.
    rewrite length_string_app in H. lia.
  - change (String c (s1 +:+ t1) = String c' (s2 +:+ t2)) in H.
    injection H as -> H. destruct (IH _ H) as [-> ->]. done.
Qed.

Lemma padStart2_month m :
  0 <= m <= 11 → String.length (padStart2 (pretty (m + 1))) = 2%nat.
Proof. intros Hm. month_cases m; reflexivity. Qed.

Lemma padStart2_month_inj m1 m2 :
  0 <= m1 <= 11 → 0 <= m2 <= 11 →
  padStart2 (pretty (m1 + 1)) = padStart2 (pretty (m2 + 1)) → m1 = m2.
Proof.
  intros H1 H2. month_cases m1; month_cases m2; vm_compute; intros H;
    (reflexivity || discriminate H).
Qed.

Lemma monthKey_inj_months y1 m1 y2 m2 :
  0 <= m1 <= 11 → 0 <= m2 <= 11 →
  monthKey y1 m1 = monthKey y2 m2 → y1 = y2 ∧ m1 = m2.
Proof.
  intros H1 H2 H. unfold monthKey in H.
  apply string_app_inj_suffix in H as [Hy Hm].
  - split; [by apply (inj pretty)|].
    apply padStart2_month_inj; [done | done |].
    by apply (inj (String.append "-")).
  - by rewrite !length_string_app, !padStart2_month.
Qed.

Lemma normalizeBelow_spec (n : nat) m y :
  - m <= 12 * Z.of_nat n →
  normalizeBelow n m y
  = Some (if m <? 0 then (m mod 12, y + m / 12) else (m, y)).
Proof.
  revert m y. induction n as [|n IH]; intros m y Hn; cbn [normalizeBelow];
    destruct (Z.ltb_spec m 0) as [Hm | Hm]; try done; [lia|].
  rewrite IH by lia.
  destruct (Z.ltb_spec (m + 12) 0); do 2 f_equal; div_lia.
Qed.

Lemma normalizeAbove_spec (n : nat) m y :
  m <= 12 * Z.of_nat n + 11 →
  normalizeAbove n m y
  = Some (if 11 <? m then (m mod 12, y + m / 12) else (m, y)).
Proof.
  revert m y. induction n as [|n IH]; intros m y Hn; cbn [normalizeAbove];
    destruct (Z.ltb_spec 11 m) as [Hm | Hm]; try done; [lia|].
  rewrite IH by lia.
  destruct (Z.ltb_spec 11 (m - 12)); do 2 f_equal; div_lia.
Qed.

Lemma normalizeMonth_eq m y : normalizeMonth m y = Some (m mod 12, y + m / 12).
Proof.
  unfold normalizeMonth. rewrite normalizeBelow_spec by lia.
  destruct (Z.ltb_spec m 0) as [Hm | Hm].
  - rewrite normalizeAbove_spec by div_lia.
    destruct (Z.ltb_spec 11 (m mod 12)); [div_lia | done].
  - rewrite normalizeAbove_spec by lia.
    destruct (Z.ltb_spec 11 m); [done|]. do 2 f_equal; div_lia.
Qed.

End KeyFacts.

Section NavigationFacts.

Import JSDateFacts DateFacts.

Variables semesterStart semesterEnd : Date.

Implicit Types (att off : Store) (classId : string) (today date : Date)
  (classState : gmap string ViewState).

Lemma isMonthAllowed_of_index y m :
  TimeWithinDay semesterStart = 0 →
  monthIndex semesterStart <= 12 * ctorYear y + m <= monthIndex semesterEnd →
  isMonthAllowed semesterStart semesterEnd y m = true.
Proof.
  intros Hmid Hk. unfold isMonthAllowed. cbv zeta. rewrite daysInMonth_eq.
  set (k := 12 * ctorYear y + m) in *.
  destruct (monthIndex_bounds semesterStart) as [Hbs _].
  destruct (monthIndex_bounds semesterEnd) as [Hbe _].
  pose proof (monthFirst_le (monthIndex semesterStart + 1) (k + 1)).
  pose proof (monthFirst_le k (monthIndex semesterEnd)).
  apply negb_true_iff, orb_false_iff. split; apply Z.ltb_ge.
  - apply midnight_ge; [done|]. rewrite Day_newDate. fold k. lia.
  - rewrite newDate_eq. fold k. apply midnight_le. lia.
Qed.

Lemma YearFromTime_mono t1 t2 : t1 <= t2 → getFullYear t1 <= getFullYear t2.
Proof.
  intros H%monthIndex_mono. unfold monthIndex in H.
  pose proof (MonthFromTime_range t1). pose proof (MonthFromTime_range t2). lia.
Qed.

(** The month of a time value between the semester start and end is one
    that [isMonthAllowed] accepts. *)
Lemma month_of_date_allowed t :
  windowOK semesterStart semesterEnd → semesterStart <= t <= semesterEnd →
  0 <= getMonth t <= 11
  ∧ isMonthAllowed semesterStart semesterEnd (getFullYear t) (getMonth t) = true.
Proof.
  intros (Hmid & Hy & Hle) [H1 H2]. split; [apply MonthFromTime_range|].
  apply isMonthAllowed_of_index; [done|].
  pose proof (YearFromTime_mono _ _ H1).
  rewrite ctorYear_id by lia. fold (monthIndex t).
  split; by apply monthIndex_mono.
Qed.

Lemma clampToSemesterMonth_ok date :
  windowOK semesterStart semesterEnd →
  0 <= (clampToSemesterMonth semesterStart semesterEnd date).2 <= 11
  ∧ isMonthAllowed semesterStart semesterEnd
      (clampToSemesterMonth semesterStart semesterEnd date).1
      (clampToSemesterMonth semesterStart semesterEnd date).2 = true.
Proof.
  intros Hw. pose proof Hw as (_ & _ & Hle). unfold clampToSemesterMonth.
  destruct (Z.ltb_spec date semesterStart); [apply month_of_date_allowed; [done | lia]|].
  destruct (Z.ltb_spec semesterEnd date); apply month_of_date_allowed; (done || lia).
Qed.

Lemma ensureView_lookup classState classId today :
  ∃ v, ensureView semesterStart semesterEnd classState classId today !! classId = Some v
       ∧ (classState !! classId = Some v
          ∨ classState !! classId = None
            ∧ v = {| viewMonth := (clampToSemesterMonth semesterStart semesterEnd today).2;
                     viewYear := (clampToSemesterMonth semesterStart semesterEnd today).1 |}).
Proof.
  unfold ensureView. destruct (classState !! classId) as [v|] eqn:E.
  - exists v. by split; [|left].
  - eexists. rewrite lookup_insert_eq. by split; [|right].
Qed.

Lemma ensureView_allowed classState classId today :
  windowOK semesterStart semesterEnd →
  viewsAllowed semesterStart semesterEnd classState →
  viewsAllowed semesterStart semesterEnd
    (ensureView semesterStart semesterEnd classState classId today).
Proof.
  intros Hw Hall. unfold ensureView.
  destruct (classState !! classId) eqn:E; [done|].
  intros c v. destruct (decide (c = classId)) as [-> | Hc].
  - rewrite lookup_insert_eq. intros [= <-]. cbn.
    by apply clampToSemesterMonth_ok.
  - rewrite lookup_insert_ne by done. apply Hall.
Qed.

Lemma viewsAllowed_insert classState classId v :
  viewsAllowed semesterStart semesterEnd classState →
  0 <= viewMonth v <= 11 →
  isMonthAllowed semesterStart semesterEnd (viewYear v) (viewMonth v) = true →
  viewsAllowed semesterStart semesterEnd (<[classId := v]> classState).
Proof.
  intros Hall Hm Hal c v'. destruct (decide (c = classId)) as [-> | Hc].
  - rewrite lookup_insert_eq. by intros [= <-].
  - rewrite lookup_insert_ne by done. apply Hall.
Qed.

(** The days of the years of [dateYear] are within the range of [Date]. *)
Lemma monthFirst_dateYear y m :
  dateYear y → 0 <= m <= 12 →
  -99701000 <= monthFirst (12 * y + m) <= 99723000.
Proof.
  unfold dateYear. intros Hy Hm. rewrite monthFirst_in_year by done.
  destruct (DaysInYear_cases y) as [_ Hl].
  assert (0 <= monthStart (leapOf y) m <= 366).
  { assert (m = 0 ∨ m = 1 ∨ m = 2 ∨ m = 3 ∨ m = 4 ∨ m = 5 ∨ m = 6 ∨ m = 7 ∨ m = 8
            ∨ m = 9 ∨ m = 10 ∨ m = 11 ∨ m = 12) as Hcases by lia.
    repeat destruct Hcases as [-> | Hcases]; try subst m; cbn; lia. }
  unfold DayFromYear. div_lia.
Qed.

Lemma ctorYear_dateYear y : dateYear y → dateYear (ctorYear y).
Proof.
  unfold dateYear, ctorYear. intros Hy.
  destruct (_ && _) eqn:E; [|lia].
  apply andb_true_iff in E as [?%Z.leb_le ?%Z.leb_le]. lia.
Qed.

Lemma newDate_inDateRange y m d :
  dateYear y → 0 <= m <= 11 → 1 <= d <= 31 → inDateRange (newDate y m d).
Proof.
  intros Hy%ctorYear_dateYear Hm Hd. rewrite newDate_eq.
  pose proof (monthFirst_dateYear (ctorYear y) m Hy).
  unfold inDateRange, MakeDate, maxTime, msPerDay. lia.
Qed.

Lemma newDate_inDateRange_end y m :
  dateYear y → 0 <= m <= 11 → inDateRange (newDate y (m + 1) 0).
Proof.
  intros Hy%ctorYear_dateYear Hm. rewrite newDate_eq.
  pose proof (monthFirst_dateYear (ctorYear y) (m + 1) Hy).
  replace (12 * ctorYear y + (m + 1)) with (12 * ctorYear y + (m + 1)) by lia.
  unfold inDateRange, MakeDate, maxTime, msPerDay. lia.
Qed.

(** The year of an allowed month of a window that ends by the year 9999. *)
Lemma view_year_bounds y m :
  windowOK semesterStart semesterEnd → getFullYear semesterEnd <= 9999 →
  0 <= m <= 11 → isMonthAllowed semesterStart semesterEnd y m = true →
  0 <= y <= 9999.
Proof.
  intros (_ & Hys & _) Hye Hm Hal%isMonthAllowed_index.
  pose proof (MonthFromTime_range semesterStart).
  pose proof (MonthFromTime_range semesterEnd).
  unfold monthIndex in Hal. revert Hal. unfold ctorYear.
  destruct (_ && _) eqn:E; [|lia].
  apply andb_true_iff in E as [?%Z.leb_le ?%Z.leb_le]. lia.
Qed.

(** What [changeMonth] does, with the loops replaced by their result. *)
Lemma changeMonth_eq att off classState classId delta now today0 today v :
  ensureView semesterStart semesterEnd classState classId now !! classId = Some v →
  changeMonth semesterStart semesterEnd att off classState classId delta now today0 today
  = let m := (viewMonth v + delta) mod 12 in
    let y := viewYear v + (viewMonth v + delta) / 12 in
    Some (if isMonthAllowed semesterStart semesterEnd y m
          then (<[classId := {| viewMonth := m; viewYear := y |}]>
                  (ensureView semesterStart semesterEnd classState classId now),
                Some (renderCalendar semesterStart semesterEnd att off classId m y
                        today0 today))
          else (ensureView semesterStart semesterEnd classState classId now, None)).
Proof.
  intros Hv. unfold changeMonth. cbv zeta. rewrite Hv, normalizeMonth_eq.
  by destruct (isMonthAllowed _ _ _ _).
Qed.

End NavigationFacts.

(** * More of the script: properties of toggles and navigation *)

Section ToggleAndNavigation.

Import JSDateFacts DateFacts.

Implicit Types (data : AppData) (att off : Store) (classId type : string)
  (day month year : Z) (today : Date) (classState : gmap string ViewState).

(** X1. Two different months 0..11 never share a key, so a toggle in one
    month leaves the arrays of every other month as they are. *)
Theorem monthKey_separates_months data classId day type c y1 m1 y2 m2 :
  0 <= m1 <= 11 → 0 <= m2 <= 11 → (y1, m1) ≠ (y2, m2) →
  monthKey y1 m1 ≠ monthKey y2 m2
  ∧ lookupDays (attendanceData (toggleDayStatus data classId day m1 y1 type)) c
      (monthKey y2 m2)
    = lookupDays (attendanceData data) c (monthKey y2 m2)
  ∧ lookupDays (offDaysData (toggleDayStatus data classId day m1 y1 type)) c
      (monthKey y2 m2)
    = lookupDays (offDaysData data) c (monthKey y2 m2).
Proof.
  intros H1 H2 Hne.
  assert (Hk : monthKey y1 m1 ≠ monthKey y2 m2).
  { intros [-> ->]%monthKey_inj_months; done. }
  split; [done|]. unfold toggleDayStatus.
  case_bool_decide; cbn [attendanceData offDaysData]; split; try done;
    apply lookupDays_toggleIn_other; congruence.
Qed.

(** X2. A toggle keeps every array of both stores strictly ascending. *)
Theorem toggleDayStatus_keeps_ascending data classId day month year type :
  ascendingStores data →
  ascendingStores (toggleDayStatus data classId day month year type).
Proof.
  intros H c k. destruct (H c k) as [Ha Ho]. unfold toggleDayStatus.
  assert (Hin : ∀ st, ascending (lookupDays st c k) →
            ascending (lookupDays (toggleIn st classId (monthKey year month) day) c k)).
  { intros st Hst.
    destruct (decide ((c, k) = (classId, monthKey year month))) as [[= -> ->] | Hne].
    - rewrite lookupDays_toggleIn_same. by apply toggleDays_ascending.
    - by rewrite lookupDays_toggleIn_other. }
  case_bool_decide; cbn [attendanceData offDaysData]; split; auto.
Qed.

Lemma toggleDayStatus_commute_own data c1 d1 m1 y1 t1 c2 d2 m2 y2 t2 :
  ascendingStores data →
  toggleDayStatus (toggleDayStatus data c1 d1 m1 y1 t1) c2 d2 m2 y2 t2
  = toggleDayStatus (toggleDayStatus data c2 d2 m2 y2 t2) c1 d1 m1 y1 t1.
Proof.
  intros H. destruct (H c1 (monthKey y1 m1)) as [Ha Ho]. unfold toggleDayStatus.
  do 2 case_bool_decide; cbn [attendanceData offDaysData]; try done;
    f_equal; by apply toggleIn_comm.
Qed.

(** X3. In a page where nothing that the stores inherit carries a month
    array, on ascending stores, two toggles under class names that objects
    do not inherit, of any days, months and kinds, give the same stores in
    either order, and the page stays so. *)
Theorem toggleDayStatus_commute (h : Proto.Heap) c1 d1 m1 y1 t1 c2 d2 m2 y2 t2 :
  Proto.shared h = Proto.pristine → ownName c1 → ownName c2 →
  ascendingStores (Proto.stores h) →
  Proto.toggleDayStatus (Proto.toggleDayStatus h c1 d1 m1 y1 t1) c2 d2 m2 y2 t2
  = Proto.toggleDayStatus (Proto.toggleDayStatus h c2 d2 m2 y2 t2) c1 d1 m1 y1 t1
  ∧ Proto.shared
      (Proto.toggleDayStatus (Proto.toggleDayStatus h c1 d1 m1 y1 t1) c2 d2 m2 y2 t2)
    = Proto.pristine.
Proof.
  destruct h as [data sh]. cbn [Proto.shared Proto.stores]. intros -> H1 H2 Hasc.
  rewrite !toggleDayStatus_pristine by done. cbn [Proto.shared].
  split; [|reflexivity]. f_equal. by apply toggleDayStatus_commute_own.
Qed.

(** X4. On ascending stores two toggles with the same arguments give back
    every array of both stores, element for element. *)
Theorem toggleDayStatus_twice_restores_arrays data classId day month year type c k :
  ascendingStores data →
  lookupDays
    (attendanceData
       (toggleDayStatus (toggleDayStatus data classId day month year type)
          classId day month year type)) c k
  = lookupDays (attendanceData data) c k
  ∧ lookupDays
      (offDaysData
         (toggleDayStatus (toggleDayStatus data classId day month year type)
            classId day month year type)) c k
    = lookupDays (offDaysData data) c k.
Proof.
  intros H. destruct (H classId (monthKey year month)) as [Ha Ho].
  unfold toggleDayStatus.
  case_bool_decide; cbn [attendanceData offDaysData]; split; try done;
    by apply toggleIn_twice_lookup.
Qed.

Lemma toggleDayStatus_keeps_entries_own data classId day month year type :
  hasEntry (targetStore type (toggleDayStatus data classId day month year type))
    classId (monthKey year month)
  ∧ ∀ c k,
      (hasEntry (attendanceData data) c k →
       hasEntry (attendanceData (toggleDayStatus data classId day month year type)) c k)
      ∧ (hasEntry (offDaysData data) c k →
         hasEntry (offDaysData (toggleDayStatus data classId day month year type)) c k).
Proof.
  split.
  - rewrite targetStore_toggle. apply toggleIn_hasEntry. by right.
  - intros c k. unfold toggleDayStatus.
    case_bool_decide; cbn [attendanceData offDaysData]; split; try done;
      intros Hc; apply toggleIn_hasEntry; by left.
Qed.

(** X5. In a page where nothing that the stores inherit carries a month
    array, a toggle under a class name that objects do not inherit creates
    the entries of its class and month key in the store it edits and removes
    no entry of either store, also when it un-marks the last day of an
    array; the page stays so. *)
Theorem toggleDayStatus_keeps_entries (h : Proto.Heap) classId day month year type :
  Proto.shared h = Proto.pristine → ownName classId →
  let data := Proto.stores h in
  let data' := Proto.stores (Proto.toggleDayStatus h classId day month year type) in
  Proto.shared (Proto.toggleDayStatus h classId day month year type) = Proto.pristine
  ∧ hasEntry (targetStore type data') classId (monthKey year month)
  ∧ ∀ c k,
      (hasEntry (attendanceData data) c k → hasEntry (attendanceData data') c k)
      ∧ (hasEntry (offDaysData data) c k → hasEntry (offDaysData data') c k).
Proof.
  destruct h as [data sh]. cbn [Proto.shared Proto.stores]. intros -> Hown. cbv zeta.
  rewrite toggleDayStatus_pristine by done. cbn [Proto.shared Proto.stores].
  split; [reflexivity|]. apply toggleDayStatus_keeps_entries_own.
Qed.

End ToggleAndNavigation.

Section NavigationProperties.

Import JSDateFacts DateFacts.

Variables semesterStart semesterEnd : Date.

Implicit Types (att off : Store) (classId : string) (month year delta : Z)
  (today date : Date) (classState : gmap string ViewState).

(** X6. For a month 0..11 of a year from -271000 to 275000 that is not
    one of 0..99, the three dates that [isMonthAllowed] builds are dates,
    and when the semester starts at a midnight [isMonthAllowed] accepts
    exactly the months from the month of the semester start through the
    month of the semester end. *)
Theorem isMonthAllowed_iff_semester_months year month :
  ¬ (0 <= year <= 99) → dateYear year → 0 <= month <= 11 →
  inDateRange (newDate year (month + 1) 0)
  ∧ inDateRange (newDate year month 1)
  ∧ inDateRange (newDate year month (getDate (newDate year (month + 1) 0)))
  ∧ (TimeWithinDay semesterStart = 0 →
     isMonthAllowed semesterStart semesterEnd year month = true
     ↔ 12 * getFullYear semesterStart + getMonth semesterStart
       <= 12 * year + month
       <= 12 * getFullYear semesterEnd + getMonth semesterEnd).
Proof.
  intros Hy Hdy Hm.
  split; [by apply newDate_inDateRange_end|].
  split; [apply newDate_inDateRange; [exact Hdy | exact Hm | lia]|].
  split.
  { apply newDate_inDateRange; [exact Hdy | exact Hm |].
    pose proof (getDate_range (newDate year (month + 1) 0)) as Hr.
    pose proof (monthFirst_step (monthIndex (newDate year (month + 1) 0))). lia. }
  intros Hmid. split.
  - intros H%isMonthAllowed_index. by rewrite ctorYear_id in H.
  - intros H. apply isMonthAllowed_of_index; [done|]. by rewrite ctorYear_id.
Qed.

(** X7. [clampToSemesterMonth] returns a month 0..11 that [isMonthAllowed]
    accepts, for every date: the month of the semester start for a date
    before it, the month of the semester end for a date after it. *)
Theorem clampToSemesterMonth_allowed date :
  windowOK semesterStart semesterEnd →
  0 <= (clampToSemesterMonth semesterStart semesterEnd date).2 <= 11
  ∧ isMonthAllowed semesterStart semesterEnd
      (clampToSemesterMonth semesterStart semesterEnd date).1
      (clampToSemesterMonth semesterStart semesterEnd date).2 = true
  ∧ (date < semesterStart →
     clampToSemesterMonth semesterStart semesterEnd date
     = (getFullYear semesterStart, getMonth semesterStart))
  ∧ (semesterEnd < date →
     clampToSemesterMonth semesterStart semesterEnd date
     = (getFullYear semesterEnd, getMonth semesterEnd)).
Proof.
  intros Hw. destruct (clampToSemesterMonth_ok semesterStart semesterEnd date Hw) as [H1 H2].
  split; [exact H1|]. split; [exact H2|].
  unfold clampToSemesterMonth; destruct Hw as (_ & _ & Hle). split; intros H.
  - by destruct (Z.ltb_spec date semesterStart); [|lia].
  - destruct (Z.ltb_spec date semesterStart); [lia|].
    by destruct (Z.ltb_spec semesterEnd date); [|lia].
Qed.

(** X8. For a class that has a view of its own, a window that ends by the
    year 9999 and a step of at most 120000 months, where the arithmetic of
    [changeMonth] is exact and every date it builds is a date:
    [changeMonth] returns, its two loops ending with the month
    [(m + delta) mod 12] of the year [y + (m + delta) / 12].  When
    [isMonthAllowed] accepts that month it becomes the view of the class and
    a calendar is drawn, never the "outside" message; otherwise the view
    stays.  The views of other classes stay, and every view remains a month
    0..11 that [isMonthAllowed] accepts. *)
Theorem changeMonth_keeps_views att off classState classId delta now today0 today :
  windowOK semesterStart semesterEnd → getFullYear semesterEnd <= 9999 →
  is_Some (classState !! classId) → -120000 <= delta <= 120000 →
  viewsAllowed semesterStart semesterEnd classState →
  ∃ v classState' out,
    ensureView semesterStart semesterEnd classState classId now !! classId = Some v
    ∧ changeMonth semesterStart semesterEnd att off classState classId delta
        now today0 today
      = Some (classState', out)
    ∧ viewsAllowed semesterStart semesterEnd classState'
    ∧ (∀ c, c ≠ classId → classState' !! c = classState !! c)
    ∧ let m := (viewMonth v + delta) mod 12 in
      let y := viewYear v + (viewMonth v + delta) / 12 in
      dateYear y
      ∧ inDateRange (newDate y m 1) ∧ inDateRange (newDate y (m + 1) 0)
      ∧ if isMonthAllowed semesterStart semesterEnd y m
        then classState' !! classId = Some {| viewMonth := m; viewYear := y |}
             ∧ ∃ cal, out = Some (Some cal)
                      ∧ renderCalendar semesterStart semesterEnd att off classId m y
                          today0 today
                        = Some cal
        else classState' !! classId = Some v ∧ out = None.
Proof.
  intros Hw Hend _ Hdelta Hall.
  destruct (ensureView_lookup semesterStart semesterEnd classState classId now)
    as (v & Hv & Hor).
  pose proof (ensureView_allowed semesterStart semesterEnd classState classId now Hw Hall)
    as Hall1.
  assert (Hother : ∀ c, c ≠ classId →
            ensureView semesterStart semesterEnd classState classId now !! c
            = classState !! c).
  { intros c Hc. unfold ensureView. destruct (classState !! classId); [done|].
    by rewrite lookup_insert_ne. }
  rewrite (changeMonth_eq _ _ _ _ _ _ _ _ _ _ v Hv). cbv zeta.
  exists v.
  destruct (Hall1 classId v Hv) as [Hvm Hval].
  pose proof (view_year_bounds semesterStart semesterEnd (viewYear v) (viewMonth v)
                Hw Hend Hvm Hval) as Hvy.
  assert (Hy : dateYear (viewYear v + (viewMonth v + delta) / 12))
    by (unfold dateYear; div_lia).
  assert (Hm : 0 <= (viewMonth v + delta) mod 12 <= 11) by div_lia.
  pose proof (newDate_inDateRange _ _ 1 Hy Hm) as Hr1.
  pose proof (newDate_inDateRange_end _ _ Hy Hm) as Hr2.
  destruct (isMonthAllowed semesterStart semesterEnd
              (viewYear v + (viewMonth v + delta) / 12) ((viewMonth v + delta) mod 12))
    eqn:Hal.
  - eexists _, _. split; [done|]. split; [done|]. split; [|split].
    + apply viewsAllowed_insert; [done | cbn; div_lia | done].
    + intros c Hc. rewrite lookup_insert_ne by done. by apply Hother.
    + split; [exact Hy|]. split; [apply Hr1; lia|]. split; [exact Hr2|].
      rewrite lookup_insert_eq. split; [done|].
      unfold renderCalendar. rewrite Hal. cbn [negb]. by eexists.
  - eexists _, _. split; [done|]. split; [reflexivity|].
    split; [exact Hall1|]. split; [exact Hother|].
    split; [exact Hy|]. split; [apply Hr1; lia|]. split; [exact Hr2|].
    split; [exact Hv | reflexivity].
Qed.

(** X9. A step of [changeMonth] that moved the view is undone by the
    opposite step, whenever that step is made: the views are those before
    the two steps. *)
Theorem changeMonth_there_and_back att off classState classId delta now today0 today
    classState' r now' today0' today' :
  viewsAllowed semesterStart semesterEnd classState →
  is_Some (classState !! classId) →
  changeMonth semesterStart semesterEnd att off classState classId delta now today0 today
  = Some (classState', Some r) →
  ∃ r',
    changeMonth semesterStart semesterEnd att off classState' classId (- delta)
      now' today0' today'
    = Some (classState, Some r').
Proof.
  intros Hall [v Hv] Hstep.
  assert (Hens : ensureView semesterStart semesterEnd classState classId now = classState)
    by (unfold ensureView; by rewrite Hv).
  rewrite (changeMonth_eq _ _ _ _ _ _ _ _ _ _ v) in Hstep by by rewrite Hens.
  cbv zeta in Hstep. rewrite Hens in Hstep.
  destruct (isMonthAllowed semesterStart semesterEnd
              (viewYear v + (viewMonth v + delta) / 12) ((viewMonth v + delta) mod 12))
    eqn:Hal; [|done].
  apply (inj Some) in Hstep. injection Hstep as <- _.
  destruct (Hall classId v Hv) as [Hm Hv_al].
  set (v1 := {| viewMonth := (viewMonth v + delta) mod 12;
                viewYear := viewYear v + (viewMonth v + delta) / 12 |}).
  assert (Hens1 : ensureView semesterStart semesterEnd (<[classId := v1]> classState)
                    classId now' = <[classId := v1]> classState)
    by (unfold ensureView; by rewrite lookup_insert_eq).
  rewrite (changeMonth_eq _ _ _ _ _ _ _ _ _ _ v1) by (rewrite Hens1; apply lookup_insert_eq).
  cbv zeta. rewrite Hens1. subst v1. cbn [viewMonth viewYear].
  replace (((viewMonth v + delta) mod 12 + - delta) mod 12) with (viewMonth v) by div_lia.
  replace (viewYear v + (viewMonth v + delta) / 12
           + ((viewMonth v + delta) mod 12 + - delta) / 12) with (viewYear v) by div_lia.
  rewrite Hv_al, insert_insert_eq.
  eexists. do 2 f_equal. 
  rewrite insert_id; [done|]. rewrite Hv. by destruct v.
Qed.

End NavigationProperties.

(** * Facts about the day loop, the calendar and the clicks *)

Section DayLoopFacts.

Import JSDateFacts DateFacts.

Implicit Types (acc : Counts) (offs absents : list Z) (year month d day : Z).

Lemma WeekDay_range t : 0 <= getDay t <= 6.
Proof. unfold WeekDay. div_lia. Qed.

Lemma getDay_newDate year month d :
  getDay (newDate year month d)
  = (getDay (newDate year month 1) + d - 1) mod 7.
Proof. unfold WeekDay. rewrite !Day_newDate. div_lia. Qed.

Lemma lookup_calendarGrid month year (i : nat) day :
  calendarGrid month year !! i = Some (Some day)
  ↔ 1 <= day <= getDate (newDate year (month + 1) 0)
    ∧ Z.of_nat i = getDay (newDate year month 1) + day - 1.
Proof.
  unfold calendarGrid. cbv zeta.
  pose proof (WeekDay_range (newDate year month 1)) as Hwd.
  set (f := getDay (newDate year month 1)) in *.
  set (D := getDate (newDate year (month + 1) 0)).
  destruct (decide (i < Z.to_nat f)%nat) as [Hlt|Hge].
  - rewrite lookup_app_l by (rewrite length_replicate; lia).
    rewrite lookup_replicate_2 by lia. split; [done|]. lia.
  - rewrite lookup_app_r by (rewrite length_replicate; lia).
    rewrite length_replicate, list_lookup_fmap.
    destruct (seqZ 1 D !! (i - Z.to_nat f)%nat) as [x|] eqn:Hx; cbn.
    + apply lookup_seqZ in Hx. split.
      * intros [= <-]. lia.
      * intros [? ?]. f_equal. f_equal. lia.
    + split; [done|]. intros [? ?].
      rewrite (lookup_seqZ_lt 1 D) in Hx by lia. done.
Qed.

Lemma isTodayCell_Day month year today day :
  ¬ (0 <= year <= 99) → 0 <= month <= 11 →
  1 <= day <= getDate (newDate year (month + 1) 0) →
  isTodayCell month year today day = true
  ↔ Day (newDate year month day) = Day today.
Proof.
  intros Hy Hm Hd. unfold isTodayCell.
  rewrite daysInMonth_eq, ctorYear_id in Hd by done.
  rewrite Day_newDate, ctorYear_id by done.
  rewrite !andb_true_iff, !Z.eqb_eq. split.
  - intros [[-> ->] ->].
    destruct (monthIndex_fields today) as [_ _].
    rewrite (getDate_eq today). unfold monthIndex. lia.
  - intros HD.
    destruct (fields_in_month today (12 * year + month)) as (_ & Hdate & Hyear & Hmonth);
      [lia|].
    rewrite Hdate, Hyear, Hmonth. repeat split; [lia| |]; div_lia.
Qed.

Lemma countDay_weekDay year month offs absents acc d :
  let r := countDay year month offs absents acc d in
  let wd := getDay (newDate year month d) in
  totalConducted r + totalOff r
  = totalConducted acc + totalOff acc
    + (if negb ((wd =? 0) || (wd =? 6)) then 1 else 0).
Proof.
  unfold countDay. cbv zeta.
  destruct (_ || _); cbn [negb]; [lia|].
  destruct (includes d offs); cbn; lia.
Qed.

Lemma foldl_countDay_weekDays year month offs absents (l : list Z) acc :
  let r := foldl (countDay year month offs absents) acc l in
  totalConducted r + totalOff r
  = totalConducted acc + totalOff acc
    + Z.of_nat
        (length
           (List.filter
              (fun d => let wd := getDay (newDate year month d) in
                        negb ((wd =? 0) || (wd =? 6))) l)).
Proof.
  cbv zeta. revert acc.
  induction l as [|d l IH]; intros acc; cbn [foldl List.filter]; [cbn; lia|].
  rewrite IH. pose proof (countDay_weekDay year month offs absents acc d) as H.
  cbv zeta in H. rewrite H.
  destruct (negb _); cbn [length]; lia.
Qed.

Lemma countDays_weekDays year month offs absents startDay endDay acc :
  let r := countDays year month offs absents startDay endDay acc in
  totalConducted r + totalOff r
  = totalConducted acc + totalOff acc + weekDaysIn year month startDay endDay.
Proof. apply foldl_countDay_weekDays. Qed.

(** Marks of days that are off days do not count. *)
Lemma countDay_absents_ext year month offs absents absents' acc d :
  (d ∉ offs → (d ∈ absents ↔ d ∈ absents')) →
  countDay year month offs absents acc d = countDay year month offs absents' acc d.
Proof.
  intros H. unfold countDay, includes.
  destruct (_ || _); [done|].
  case_bool_decide as Hoff; [done|].
  specialize (H Hoff).
  by rewrite (bool_decide_ext _ _ H).
Qed.

Lemma countDay_marked year month offs absents absents' acc d :
  (getDay (newDate year month d) =? 0) || (getDay (newDate year month d) =? 6) = false →
  d ∉ offs → d ∉ absents → d ∈ absents' →
  countDay year month offs absents' acc d
  = addCounts (countDay year month offs absents acc d) oneAbsent.
Proof.
  intros Hwd Hoff Ha Ha'. unfold countDay, includes. rewrite Hwd.
  rewrite (bool_decide_eq_false_2 _ Hoff), (bool_decide_eq_false_2 _ Ha),
    (bool_decide_eq_true_2 _ Ha').
  unfold addCounts, oneAbsent. cbn. f_equal; lia.
Qed.

Lemma foldl_countDay_marked year month offs absents absents' (l : list Z) acc day :
  NoDup l → day ∈ l →
  (getDay (newDate year month day) =? 0) || (getDay (newDate year month day) =? 6) = false →
  day ∉ offs → day ∉ absents → day ∈ absents' →
  (∀ d, d ≠ day → (d ∈ absents ↔ d ∈ absents')) →
  foldl (countDay year month offs absents') acc l
  = addCounts (foldl (countDay year month offs absents) acc l) oneAbsent.
Proof.
  intros Hnd Hin Hwd Hoff Ha Ha' Hothers.
  apply list_elem_of_split in Hin as (l1 & l2 & ->).
  apply NoDup_app in Hnd as (_ & Hl1 & [Hl2 _]%NoDup_cons).
  rewrite !foldl_app. cbn [foldl].
  rewrite (foldl_ext_in (countDay year month offs absents')
             (countDay year month offs absents) l1).
  2:{ intros a x Hx. symmetry. apply countDay_absents_ext. intros _.
      apply Hothers. intros ->. by apply (Hl1 day); [|left]. }
  rewrite (countDay_marked year month offs absents absents') by done.
  rewrite (foldl_ext_in (countDay year month offs absents')
             (countDay year month offs absents) l2).
  2:{ intros a x Hx. symmetry. apply countDay_absents_ext. intros _.
      apply Hothers. by intros ->. }
  rewrite (foldl_countDay_add _ _ _ _ l2 (addCounts _ _)).
  rewrite (foldl_countDay_add _ _ _ _ l2 (countDay _ _ _ _ _ _)).
  unfold addCounts, oneAbsent. cbn. f_equal; lia.
Qed.

Lemma elem_of_toggleDays_other day absents d :
  d ≠ day → d ∈ toggleDays day absents ↔ d ∈ absents.
Proof.
  intros Hne. destruct (decide (day ∈ absents)) as [Hin|Hnin].
  - rewrite (toggleDays_present day absents Hin) at 2.
    rewrite elem_of_cons. tauto.
  - rewrite (toggleDays_absent day absents Hnin), elem_of_cons. tauto.
Qed.

End DayLoopFacts.

Section StatsMoreFacts.

Import JSDateFacts DateFacts.

Variables semesterStart semesterEnd : Date.

Implicit Types (att off : Store) (classId : string) (month year day : Z)
  (today date : Date) (acc : Counts).

Lemma foldl_rel {A B} (R : A → A → Prop) (f g : A → B → A) (l : list B) (a b : A) :
  (∀ a b x, x ∈ l → R a b → R (f a x) (g b x)) → R a b →
  R (foldl f a l) (foldl g b l).
Proof.
  revert a b. induction l as [|x l IH]; intros a b Hstep Hab; cbn [foldl]; [done|].
  apply IH.
  - intros a' b' y Hy. apply Hstep. by right.
  - apply Hstep; [by left | done].
Qed.

Lemma countDay_offs_ext year month offs offs' absents acc d :
  (d ∈ offs ↔ d ∈ offs') →
  countDay year month offs absents acc d = countDay year month offs' absents acc d.
Proof.
  intros H. unfold countDay, includes. by rewrite (bool_decide_ext _ _ H).
Qed.

Lemma countDays_ext year month offs offs' absents absents' startDay endDay acc :
  (∀ d, d ∈ offs ↔ d ∈ offs') →
  (∀ d, d ∉ offs → (d ∈ absents ↔ d ∈ absents')) →
  countDays year month offs absents startDay endDay acc
  = countDays year month offs' absents' startDay endDay acc.
Proof.
  intros Ho Ha. unfold countDays. apply foldl_ext_in. intros a d _.
  rewrite (countDay_absents_ext year month offs absents absents') by apply Ha.
  by apply countDay_offs_ext.
Qed.

Lemma getStats_loop_ext (n : nat) att off classId att' off' classId' endDate cur acc :
  (∀ cur acc,
     getStats_month semesterStart semesterEnd att off classId endDate cur acc
     = getStats_month semesterStart semesterEnd att' off' classId' endDate cur acc) →
  getStats_loop semesterStart semesterEnd n att off classId endDate cur acc
  = getStats_loop semesterStart semesterEnd n att' off' classId' endDate cur acc.
Proof.
  intros H. revert cur acc.
  induction n as [|n IH]; intros cur acc; cbn [getStats_loop];
    destruct (cur <=? endDate); try reflexivity.
  rewrite H. apply IH.
Qed.

Lemma getStats_ext att off classId att' off' classId' today :
  (∀ endDate cur acc,
     getStats_month semesterStart semesterEnd att off classId endDate cur acc
     = getStats_month semesterStart semesterEnd att' off' classId' endDate cur acc) →
  getStats semesterStart semesterEnd att off classId today
  = getStats semesterStart semesterEnd att' off' classId' today.
Proof.
  intros H. unfold getStats. cbv zeta.
  by rewrite (getStats_loop_ext _ att off classId att' off' classId').
Qed.

Lemma sameMarks_getStats_month data data' classId endDate cur acc :
  sameMarks data data' →
  getStats_month semesterStart semesterEnd (attendanceData data') (offDaysData data')
    classId endDate cur acc
  = getStats_month semesterStart semesterEnd (attendanceData data) (offDaysData data)
      classId endDate cur acc.
Proof.
  intros H. unfold getStats_month. cbv zeta.
  destruct (dayRange _ _ _ _ _) as [s e].
  symmetry. apply countDays_ext.
  - intros d. symmetry. apply H.
  - intros d Hd. symmetry. by apply H.
Qed.

Lemma sameMarks_getMonthlyStats data data' classId month year today :
  sameMarks data data' →
  getMonthlyStats semesterStart semesterEnd (attendanceData data') (offDaysData data')
    classId month year today
  = getMonthlyStats semesterStart semesterEnd (attendanceData data) (offDaysData data)
      classId month year today.
Proof.
  intros H. unfold getMonthlyStats. cbv zeta.
  destruct (dayRange _ _ _ _ _) as [s e].
  symmetry. apply countDays_ext.
  - intros d. symmetry. apply H.
  - intros d Hd. symmetry. by apply H.
Qed.

Lemma sameMarks_classifyDay data data' classId month year today day :
  sameMarks data data' →
  classifyDay semesterStart semesterEnd (attendanceData data') (offDaysData data')
    classId month year today day
  = classifyDay semesterStart semesterEnd (attendanceData data) (offDaysData data)
      classId month year today day.
Proof.
  intros H. unfold classifyDay, includes. cbv zeta.
  destruct (negb _); [done|]. destruct (today <? _); [done|].
  destruct (_ || _); [done|].
  destruct (H classId (monthKey year month) day) as [Ho Ha].
  rewrite (bool_decide_ext _ _ Ho).
  case_bool_decide as Hoff; [done|].
  by rewrite (bool_decide_ext _ _ (Ha Hoff)).
Qed.

Lemma sameMarks_renderCalendar data data' classId month year today0 today :
  sameMarks data data' →
  renderCalendar semesterStart semesterEnd (attendanceData data') (offDaysData data')
    classId month year today0 today
  = renderCalendar semesterStart semesterEnd (attendanceData data) (offDaysData data)
      classId month year today0 today.
Proof.
  intros H. unfold renderCalendar. cbv zeta.
  destruct (negb _); [done|].
  rewrite (sameMarks_getMonthlyStats data data') by done.
  do 2 f_equal. apply list_fmap_ext. intros i d _.
  by rewrite (sameMarks_classifyDay data data').
Qed.

Lemma sameMarks_getStats data data' classId today :
  sameMarks data data' →
  getStats semesterStart semesterEnd (attendanceData data') (offDaysData data')
    classId today
  = getStats semesterStart semesterEnd (attendanceData data) (offDaysData data)
      classId today.
Proof.
  intros H. apply getStats_ext. intros. by apply sameMarks_getStats_month.
Qed.

Lemma sameMarks_click_off data classId month year day :
  day ∈ lookupDays (offDaysData data) classId (monthKey year month) →
  sameMarks data (clickCell data classId month year day).
Proof.
  intros Hoff c k d. unfold clickCell, toggleDayStatus.
  rewrite bool_decide_eq_true_2 by done. cbn [attendanceData offDaysData].
  split; [done|]. intros Hd.
  destruct (decide ((c, k) = (classId, monthKey year month))) as [[= -> ->]|Hne].
  - rewrite lookupDays_toggleIn_same. apply elem_of_toggleDays_other.
    intros ->. done.
  - by rewrite lookupDays_toggleIn_other.
Qed.

End StatsMoreFacts.

Section ClickFacts.

Import JSDateFacts DateFacts.

Variables semesterStart semesterEnd : Date.

Implicit Types (att off : Store) (classId : string) (month year day : Z)
  (today date : Date) (acc : Counts).

(** A day of the window that is not after [ref] is a day of the day loop. *)
Lemma dayRange_contains y m ref d :
  ¬ (0 <= y <= 99) → 0 <= m <= 11 →
  1 <= d <= getDate (newDate y (m + 1) 0) →
  semesterStart <= newDate y m d <= semesterEnd → newDate y m d <= ref →
  (dayRange semesterStart semesterEnd y m ref).1 <= d
  <= (dayRange semesterStart semesterEnd y m ref).2.
Proof.
  intros Hy Hm Hd [Hs He] Hr.
  rewrite dayRange_eq by done. cbn [fst snd]. cbv zeta.
  rewrite daysInMonth_eq in Hd.
  apply Day_mono in Hs, He, Hr. rewrite Day_newDate in Hs, He, Hr.
  rewrite ctorYear_id in * by done.
  set (k := 12 * y + m) in *.
  rewrite !getDate_eq.
  split.
  - destruct (Z.eqb_spec k (monthIndex semesterStart)) as [<-|]; lia.
  - destruct (Z.eqb_spec k (monthIndex semesterEnd)) as [<-|];
      destruct (Z.eqb_spec k (monthIndex ref)) as [<-|]; lia.
Qed.

Lemma getMonthlyStats_marked att att' off classId month year today day :
  (dayRange semesterStart semesterEnd year month today).1 <= day
  <= (dayRange semesterStart semesterEnd year month today).2 →
  (getDay (newDate year month day) =? 0) || (getDay (newDate year month day) =? 6) = false →
  day ∉ lookupDays off classId (monthKey year month) →
  day ∉ lookupDays att classId (monthKey year month) →
  day ∈ lookupDays att' classId (monthKey year month) →
  (∀ d, d ≠ day → d ∈ lookupDays att classId (monthKey year month)
                  ↔ d ∈ lookupDays att' classId (monthKey year month)) →
  getMonthlyStats semesterStart semesterEnd att' off classId month year today
  = addCounts (getMonthlyStats semesterStart semesterEnd att off classId month year today)
      oneAbsent.
Proof.
  intros Hr Hwd Hoff Ha Ha' Hothers. unfold getMonthlyStats. cbv zeta.
  destruct (dayRange _ _ _ _ _) as [s e]. cbn [fst snd] in Hr.
  unfold countDays. apply (foldl_countDay_marked _ _ _ _ _ _ _ day); try done.
  - apply NoDup_seqZ.
  - apply elem_of_seqZ. lia.
Qed.

Lemma getStats_month_add att off classId endDate cur acc :
  getStats_month semesterStart semesterEnd att off classId endDate cur acc
  = addCounts acc
      (getStats_month semesterStart semesterEnd att off classId endDate cur noCounts).
Proof.
  unfold getStats_month. cbv zeta. destruct (dayRange _ _ _ _ _) as [s e].
  apply countDays_add.
Qed.

Lemma foldl_getStats_month_shift att off classId endDate (l : list Z) acc extra :
  foldl (fun a j => getStats_month semesterStart semesterEnd att off classId endDate
                      (monthCur j) a)
    (addCounts acc extra) l
  = addCounts
      (foldl (fun a j => getStats_month semesterStart semesterEnd att off classId endDate
                           (monthCur j) a)
         acc l)
      extra.
Proof.
  revert acc. induction l as [|j l IH]; intros acc; cbn [foldl]; [done|].
  rewrite <- IH. f_equal.
  rewrite getStats_month_add, (getStats_month_add _ _ _ _ _ acc).
  unfold addCounts. cbn. f_equal; lia.
Qed.

Lemma getStats_marked att att' off classId month year today day :
  ¬ (0 <= getFullYear semesterStart <= 99) →
  ¬ (0 <= year <= 99) → 0 <= month <= 11 →
  1 <= day <= getDate (newDate year (month + 1) 0) →
  semesterStart <= newDate year month day <= semesterEnd →
  newDate year month day <= today →
  (getDay (newDate year month day) =? 0) || (getDay (newDate year month day) =? 6) = false →
  day ∉ lookupDays off classId (monthKey year month) →
  day ∉ lookupDays att classId (monthKey year month) →
  day ∈ lookupDays att' classId (monthKey year month) →
  (∀ d, d ≠ day → d ∈ lookupDays att classId (monthKey year month)
                  ↔ d ∈ lookupDays att' classId (monthKey year month)) →
  (∀ k, k ≠ monthKey year month → lookupDays att' classId k = lookupDays att classId k) →
  ∃ stats stats',
    getStats semesterStart semesterEnd att off classId today = Some stats
    ∧ getStats semesterStart semesterEnd att' off classId today = Some stats'
    ∧ counts stats' = addCounts (counts stats) oneAbsent.
Proof.
  intros Hys Hy Hm Hd Hwin Htoday Hwd Hoff Ha Ha' Hothers Hframe.
  destruct (getStats_counts semesterStart semesterEnd att off classId today)
    as (stats & Hs & Hc & _).
  destruct (getStats_counts semesterStart semesterEnd att' off classId today)
    as (stats' & Hs' & Hc' & _).
  exists stats, stats'. split; [exact Hs|]. split; [exact Hs'|].
  rewrite Hc, Hc'. clear Hs Hs' Hc Hc'. cbv zeta.
  set (endDate := if today <? semesterEnd then today else semesterEnd).
  assert (Hend : newDate year month day <= endDate).
  { unfold endDate. destruct (today <? semesterEnd); lia. }
  rewrite ctorYear_id by done.
  change (12 * getFullYear semesterStart + getMonth semesterStart)
    with (monthIndex semesterStart).
  pose proof (daysInMonth_eq year month) as HD. rewrite ctorYear_id in HD by done.
  destruct (newDate_fields year month day) as (Hk & _); cbv zeta.
  { rewrite ctorYear_id by done. lia. }
  rewrite ctorYear_id in Hk by done.
  set (k := 12 * year + month) in *.
  assert (Hrange : monthIndex semesterStart <= k <= monthIndex endDate).
  { rewrite <- Hk. split; apply monthIndex_mono; lia. }
  assert (Hin : k ∈ seqZ (monthIndex semesterStart)
                  (monthIndex endDate - monthIndex semesterStart + 1))
    by (apply elem_of_seqZ; lia).
  pose proof (NoDup_seqZ (monthIndex semesterStart)
                (monthIndex endDate - monthIndex semesterStart + 1)) as Hnd.
  apply list_elem_of_split in Hin as (l1 & l2 & Heq). rewrite Heq in Hnd |- *.
  apply NoDup_app in Hnd as (_ & Hl1 & [Hl2 _]%NoDup_cons).
  assert (Hfields : getFullYear (monthCur k) = year ∧ getMonth (monthCur k) = month).
  { destruct (monthCur_fields k) as (_ & _ & -> & ->). unfold k. split; div_lia. }
  assert (Hother : ∀ j a, j ≠ k →
            getStats_month semesterStart semesterEnd att' off classId endDate (monthCur j) a
            = getStats_month semesterStart semesterEnd att off classId endDate (monthCur j) a).
  { intros j a Hj. unfold getStats_month. cbv zeta.
    rewrite Hframe; [done|].
    destruct (monthCur_fields j) as (_ & _ & -> & ->).
    intros [Hy' Hm']%monthKey_inj_months; [|div_lia|lia].
    apply Hj. unfold k. div_lia. }
  rewrite !foldl_app. cbn [foldl].
  rewrite (foldl_ext_in
             (fun a j => getStats_month semesterStart semesterEnd att' off classId endDate
                           (monthCur j) a)
             (fun a j => getStats_month semesterStart semesterEnd att off classId endDate
                           (monthCur j) a) l1).
  2:{ intros a j Hj. apply Hother. intros ->. by apply (Hl1 k); [|left]. }
  set (acc1 := foldl _ noCounts l1).
  assert (Hhere :
            getStats_month semesterStart semesterEnd att' off classId endDate (monthCur k) acc1
            = addCounts
                (getStats_month semesterStart semesterEnd att off classId endDate
                   (monthCur k) acc1) oneAbsent).
  { unfold getStats_month. cbv zeta. destruct Hfields as [-> ->].
    pose proof (dayRange_contains year month endDate day Hy Hm Hd Hwin Hend) as Hr.
    destruct (dayRange _ _ _ _ _) as [s e]. cbn [fst snd] in Hr.
    unfold countDays. apply (foldl_countDay_marked _ _ _ _ _ _ _ day); try done.
    - apply NoDup_seqZ.
    - apply elem_of_seqZ. lia. }
  rewrite Hhere.
  rewrite (foldl_ext_in
             (fun a j => getStats_month semesterStart semesterEnd att' off classId endDate
                           (monthCur j) a)
             (fun a j => getStats_month semesterStart semesterEnd att off classId endDate
                           (monthCur j) a) l2).
  2:{ intros a j Hj. apply Hother. by intros ->. }
  apply foldl_getStats_month_shift.
Qed.

End ClickFacts.

Section ConductedFacts.

Import JSDateFacts DateFacts.

Variables semesterStart semesterEnd : Date.

Implicit Types (att off : Store) (classId : string) (month year day : Z)
  (today date endDate : Date) (acc : Counts).

Lemma elem_of_conductedDates_iff year month offs startDay endDay date :
  date ∈ conductedDates year month offs startDay endDay
  ↔ ∃ d, date = newDate year month d ∧ startDay <= d <= endDay
         ∧ (getDay date =? 0) || (getDay date =? 6) = false ∧ d ∉ offs.
Proof.
  unfold conductedDates. rewrite list_elem_of_fmap. split.
  - intros (d & -> & Hd). apply list_elem_of_In, filter_In in Hd as [Hd Hp].
    apply list_elem_of_In, elem_of_seqZ in Hd. cbv zeta in Hp.
    apply andb_true_iff in Hp as [H1 H2]. apply negb_true_iff in H1, H2.
    exists d. split; [done|]. split; [lia|]. split; [done|].
    unfold includes in H2. by apply bool_decide_eq_false in H2.
  - intros (d & -> & Hd & Hwd & Hoff). exists d. split; [done|].
    apply list_elem_of_In, filter_In. split.
    + apply list_elem_of_In, elem_of_seqZ. lia.
    + cbv zeta. rewrite Hwd. unfold includes.
      by rewrite bool_decide_eq_false_2.
Qed.

Lemma elem_of_getStats_loop_conducted off classId endDate (n : nat) k date :
  monthIndex endDate - k < Z.of_nat n →
  date ∈ getStats_loop_conducted semesterStart semesterEnd n off classId endDate
           (monthCur k)
  ↔ ∃ j, k <= j <= monthIndex endDate
         ∧ date ∈ getStats_month_conducted semesterStart semesterEnd off classId endDate
                    (monthCur j).
Proof.
  revert k. induction n as [|n IH]; intros k Hn; cbn [getStats_loop_conducted];
    destruct (Z.leb_spec (monthCur k) endDate) as [Hle | Hgt].
  - apply monthCur_le in Hle. lia.
  - split; [by intros ?%elem_of_nil|]. intros (j & Hj & _).
    assert (¬ (monthCur k <= endDate)) as Hno by lia.
    rewrite monthCur_le in Hno. lia.
  - apply monthCur_le in Hle.
    rewrite elem_of_app, setMonth_monthCur, IH by lia. split.
    + intros [H | (j & Hj & H)]; [exists k | exists j]; (split; [lia | done]).
    + intros (j & Hj & H). destruct (decide (j = k)) as [->|Hne]; [by left|].
      right. exists j. split; [lia | done].
  - split; [by intros ?%elem_of_nil|]. intros (j & Hj & _).
    assert (¬ (monthCur k <= endDate)) as Hno by lia.
    rewrite monthCur_le in Hno. lia.
Qed.

(** The days of the day loop of a month of the semester: the days of the
    month that lie in the window and are not after [ref]. *)
Lemma dayRange_spec y m ref d :
  TimeWithinDay semesterStart = 0 → ¬ (0 <= y <= 99) → 0 <= m <= 11 →
  monthIndex semesterStart <= 12 * y + m <= monthIndex semesterEnd →
  12 * y + m <= monthIndex ref →
  (dayRange semesterStart semesterEnd y m ref).1 <= d
    <= (dayRange semesterStart semesterEnd y m ref).2
  ↔ 1 <= d <= getDate (newDate y (m + 1) 0)
    ∧ semesterStart <= newDate y m d <= semesterEnd ∧ newDate y m d <= ref.
Proof.
  intros Hmid Hy Hm Hk Hr. split.
  2:{ intros (Hd & Hwin & Href). by apply dayRange_contains. }
  intros Hd.
  pose proof (dayRange_inside semesterStart semesterEnd y m ref d Hmid Hy Hm Hk Hd) as Hwin.
  pose proof (dayRange_bounds semesterStart semesterEnd y m ref) as [Hlo _].
  rewrite dayRange_eq in Hd by done. cbn [fst snd] in Hd. cbv zeta in Hd.
  rewrite daysInMonth_eq. rewrite ctorYear_id in * by done.
  set (k := 12 * y + m) in *.
  pose proof (getDate_range semesterStart) as Hgs.
  assert (Hd' : 1 <= d <= monthFirst (k + 1) - monthFirst k).
  { split.
    - destruct (k =? monthIndex semesterStart); lia.
    - destruct (k =? monthIndex semesterEnd); destruct (k =? monthIndex ref); lia. }
  split; [exact Hd'|]. split; [exact Hwin|].
  apply midnight_ge; [apply TimeWithinDay_newDate|].
  rewrite Day_newDate, ctorYear_id by done. fold k.
  destruct (monthIndex_bounds ref) as [[Hb1 _] _].
  destruct (Z.eqb_spec k (monthIndex ref)) as [Heq|Hne].
  - rewrite (getDate_eq ref), <- Heq in Hd. lia.
  - pose proof (monthFirst_le (k + 1) (monthIndex ref)). lia.
Qed.

Lemma filter_NoDup {A} (f : A → bool) (l : list A) : NoDup l → NoDup (List.filter f l).
Proof.
  induction 1 as [|x l Hx Hl IH]; cbn [List.filter]; [constructor|].
  destruct (f x); [|done]. constructor; [|done].
  intros Hin%list_elem_of_In%filter_In. apply Hx, list_elem_of_In, Hin.
Qed.

Lemma conductedDates_NoDup year month offs startDay endDay :
  NoDup (conductedDates year month offs startDay endDay).
Proof.
  unfold conductedDates. apply NoDup_fmap_2_strong.
  - intros d1 d2 _ _. rewrite !newDate_eq. unfold MakeDate, msPerDay. lia.
  - apply filter_NoDup, NoDup_seqZ.
Qed.

(** The dates of the pass for month [j] are days of that month. *)
Lemma getStats_month_conducted_Day off classId endDate j date :
  1200 <= j →
  date ∈ getStats_month_conducted semesterStart semesterEnd off classId endDate
           (monthCur j) →
  monthFirst j <= Day date < monthFirst (j + 1).
Proof.
  intros Hj. unfold getStats_month_conducted. cbv zeta.
  destruct (monthCur_fields j) as (_ & _ & -> & ->).
  rewrite dayRange_eq by div_lia. cbv zeta.
  rewrite ctorYear_id by div_lia.
  replace (12 * (j / 12) + j mod 12) with j by div_lia.
  intros (d & -> & Hd)%elem_of_conductedDates.
  rewrite Day_newDate, ctorYear_id by div_lia.
  replace (12 * (j / 12) + j mod 12) with j by div_lia.
  pose proof (getDate_range semesterStart) as Hgs.
  assert (1 <= d) by (destruct (j =? monthIndex semesterStart); lia).
  assert (d <= monthFirst (j + 1) - monthFirst j); [|lia].
  destruct (j =? monthIndex semesterEnd); destruct (j =? monthIndex endDate); lia.
Qed.

Lemma getStats_loop_conducted_NoDup off classId endDate (n : nat) k :
  1200 <= k → monthIndex endDate - k < Z.of_nat n →
  NoDup (getStats_loop_conducted semesterStart semesterEnd n off classId endDate
           (monthCur k)).
Proof.
  revert k. induction n as [|n IH]; intros k Hk Hn; cbn [getStats_loop_conducted];
    destruct (Z.leb_spec (monthCur k) endDate) as [Hle | Hgt]; try constructor.
  apply monthCur_le in Hle. rewrite setMonth_monthCur. apply NoDup_app.
  split; [|split].
  - unfold getStats_month_conducted. cbv zeta.
    destruct (dayRange _ _ _ _ _). apply conductedDates_NoDup.
  - intros date H1 H2.
    apply getStats_month_conducted_Day in H1; [|done].
    apply elem_of_getStats_loop_conducted in H2 as (j & Hj & H2); [|lia].
    apply getStats_month_conducted_Day in H2; [|lia].
    pose proof (monthFirst_le (k + 1) j). lia.
  - apply IH; lia.
Qed.

End ConductedFacts.

Section CumulativeFacts.

Import JSDateFacts DateFacts.

Variables semesterStart semesterEnd : Date.

Implicit Types (att off : Store) (classId : string) (month year day : Z)
  (today date endDate : Date) (acc : Counts).

Lemma date_of_fields date :
  TimeWithinDay date = 0 → ¬ (0 <= getFullYear date <= 99) →
  date = newDate (getFullYear date) (getMonth date) (getDate date).
Proof.
  intros Hmid Hy. rewrite newDate_eq, ctorYear_id by done.
  change (12 * getFullYear date + getMonth date) with (monthIndex date).
  rewrite getDate_eq. rewrite <- (MakeDate_Day date) at 1. rewrite Hmid.
  f_equal. lia.
Qed.

Lemma getStats_conducted_elem off classId today date :
  TimeWithinDay semesterStart = 0 → 100 <= getFullYear semesterStart →
  date ∈ getStats_conducted semesterStart semesterEnd off classId today
  ↔ TimeWithinDay date = 0 ∧ semesterStart <= date <= semesterEnd ∧ date <= today
    ∧ (getDay date =? 0) || (getDay date =? 6) = false
    ∧ getDate date ∉ lookupDays off classId (monthKey (getFullYear date) (getMonth date)).
Proof.
  intros Hmid Hyear. unfold getStats_conducted. cbv zeta.
  set (endDate := if today <? semesterEnd then today else semesterEnd).
  assert (Hmin : ∀ t, t <= endDate ↔ t <= today ∧ t <= semesterEnd).
  { intros t. unfold endDate. destruct (Z.ltb_spec today semesterEnd); lia. }
  assert (HendS : endDate <= semesterEnd) by (apply Hmin; lia).
  rewrite getStats_cur_eq, ctorYear_id by lia.
  change (12 * getFullYear semesterStart + getMonth semesterStart)
    with (monthIndex semesterStart).
  rewrite elem_of_getStats_loop_conducted.
  2:{ pose proof (getStats_fuel_enough semesterStart endDate) as H.
      rewrite ctorYear_id in H by lia. exact H. }
  pose proof (MonthFromTime_range semesterStart) as Hms.
  split.
  - intros (j & Hj & Hin).
    assert (1200 <= j) by (unfold monthIndex in Hj; lia).
    pose proof (monthIndex_mono _ _ HendS) as HjS.
    revert Hin. unfold getStats_month_conducted. cbv zeta.
    destruct (monthCur_fields j) as (_ & _ & -> & ->).
    pose proof (dayRange_spec semesterStart semesterEnd (j / 12) (j mod 12) endDate)
      as Hspec.
    destruct (dayRange _ _ _ _ _) as [s e]. cbn [fst snd] in Hspec.
    intros (d & -> & Hd & Hwd & Hoff)%elem_of_conductedDates_iff.
    apply Hspec in Hd as (Hd & Hwin & Href); [|done|div_lia|div_lia|div_lia|div_lia].
    destruct (newDate_fields (j / 12) (j mod 12) d) as (_ & Hdate & Hy & Hm).
    { cbv zeta. rewrite daysInMonth_eq in Hd. exact Hd. }
    rewrite ctorYear_id in Hy, Hm by div_lia.
    replace (12 * (j / 12) + j mod 12) with j in Hy, Hm by div_lia.
    rewrite Hdate, Hy, Hm.
    apply Hmin in Href.
    split; [apply TimeWithinDay_newDate|]. split; [exact Hwin|].
    split; [lia|]. split; [exact Hwd | exact Hoff].
  - intros (Hmd & Hwin & Htoday & Hwd & Hoff).
    assert (Hend : date <= endDate) by (apply Hmin; lia).
    exists (monthIndex date). split; [split; apply monthIndex_mono; lia|].
    pose proof (YearFromTime_mono semesterStart date) as Hyd.
    assert (Hy : ¬ (0 <= getFullYear date <= 99)) by lia.
    destruct (monthIndex_fields date) as [Hfy Hfm].
    unfold getStats_month_conducted. cbv zeta.
    destruct (monthCur_fields (monthIndex date)) as (_ & _ & -> & ->).
    rewrite <- Hfy, <- Hfm.
    pose proof (date_of_fields date Hmd Hy) as Hdate.
    pose proof (dayRange_contains semesterStart semesterEnd (getFullYear date)
                  (getMonth date) endDate (getDate date) Hy
                  (MonthFromTime_range date)) as Hr.
    rewrite <- Hdate in Hr.
    destruct (dayRange _ _ _ _ _) as [s e]. cbn [fst snd] in Hr.
    apply elem_of_conductedDates_iff. exists (getDate date).
    split; [exact Hdate|]. split; [|split; [exact Hwd | exact Hoff]].
    apply Hr; [|lia|lia].
    rewrite daysInMonth_eq, ctorYear_id by done.
    apply (getDate_range date).
Qed.

Lemma getStats_conducted_count att off classId today :
  100 <= getFullYear semesterStart →
  ∃ stats,
    getStats semesterStart semesterEnd att off classId today = Some stats
    ∧ totalConducted (counts stats)
      = Z.of_nat (length (getStats_conducted semesterStart semesterEnd off classId today))
    ∧ NoDup (getStats_conducted semesterStart semesterEnd off classId today).
Proof.
  intros Hyear. unfold getStats, getStats_conducted. cbv zeta.
  set (endDate := if today <? semesterEnd then today else semesterEnd).
  rewrite getStats_cur_eq, ctorYear_id by lia.
  change (12 * getFullYear semesterStart + getMonth semesterStart)
    with (monthIndex semesterStart).
  pose proof (getStats_fuel_enough semesterStart endDate) as Hf.
  rewrite ctorYear_id in Hf by lia.
  change (12 * getFullYear semesterStart + getMonth semesterStart)
    with (monthIndex semesterStart) in Hf.
  destruct (getStats_loop_conducted_length semesterStart semesterEnd att off classId endDate
              (getStats_fuel semesterStart endDate) (monthIndex semesterStart) noCounts Hf)
    as (acc & -> & Hc).
  eexists. split; [reflexivity|]. cbn [counts].
  split; [rewrite Hc; unfold noCounts; cbn [totalConducted]; lia|].
  apply getStats_loop_conducted_NoDup; [|exact Hf].
  pose proof (MonthFromTime_range semesterStart). unfold monthIndex. lia.
Qed.

(** Before the first day of the semester the month loop counts nothing. *)
Lemma getStats_before att off classId today :
  windowOK semesterStart semesterEnd → today < semesterStart →
  getStats semesterStart semesterEnd att off classId today
  = Some {| counts := noCounts; totalPossibleLeaves := 0; possibleLeaves := 0 |}.
Proof.
  intros (Hmid & Hyear & Hle) Hbefore.
  destruct (getStats_counts semesterStart semesterEnd att off classId today)
    as (stats & -> & Hc & Ht & Hp).
  cbv zeta in Hc. rewrite ctorYear_id in Hc by lia.
  change (12 * getFullYear semesterStart + getMonth semesterStart)
    with (monthIndex semesterStart) in Hc.
  replace (if today <? semesterEnd then today else semesterEnd) with today in Hc
    by (destruct (Z.ltb_spec today semesterEnd); lia).
  assert (Hzero : counts stats = noCounts).
  { rewrite Hc. clear Hc Ht Hp.
    assert (Hk : monthIndex today <= monthIndex semesterStart)
      by (apply monthIndex_mono; lia).
    destruct (decide (monthIndex today = monthIndex semesterStart)) as [Heq|Hne].
    2:{ rewrite seqZ_nil by lia. reflexivity. }
    rewrite Heq. replace (monthIndex semesterStart - monthIndex semesterStart + 1) with 1
      by lia.
    rewrite seqZ_cons, seqZ_nil by lia. cbn [foldl].
    unfold getStats_month. cbv zeta.
    destruct (monthCur_fields (monthIndex semesterStart)) as (_ & _ & -> & ->).
    pose proof (MonthFromTime_range semesterStart) as Hms.
    rewrite dayRange_eq by div_lia. cbv zeta.
    replace (12 * (monthIndex semesterStart / 12) + monthIndex semesterStart mod 12)
      with (monthIndex semesterStart) by div_lia.
    rewrite Z.eqb_refl, <- Heq, Z.eqb_refl.
    unfold countDays. rewrite seqZ_nil; [reflexivity|].
    rewrite (getDate_eq today), (getDate_eq semesterStart), Heq.
    assert (Day today < Day semesterStart); [|lia].
    destruct (Z.lt_ge_cases (Day today) (Day semesterStart)) as [|Hge]; [done|].
    pose proof (midnight_ge semesterStart today Hmid). lia. }
  clear Hc. destruct stats as [c t p].
  cbn [counts totalPossibleLeaves possibleLeaves] in *.
  subst c. unfold noCounts in Ht, Hp. cbn [totalConducted totalAbsent] in Ht, Hp.
  subst t. change (0 / 4) with 0 in Hp. subst p. reflexivity.
Qed.

Lemma classifyDay_before att off classId month year today day :
  today < semesterStart →
  clickable (classifyDay semesterStart semesterEnd att off classId month year today day)
  = false.
Proof.
  intros Hbefore. unfold classifyDay. cbv zeta.
  destruct (Z.leb_spec semesterStart (newDate year month day)); [|done].
  destruct (_ <=? semesterEnd); [|done]. cbn [andb negb].
  destruct (Z.ltb_spec today (newDate year month day)); [done | lia].
Qed.

(** Conducted classes and holidays together are the week days of the loop,
    whatever the stores hold. *)
Lemma getStats_month_partition att off classId endDate cur a b :
  0 <= totalAbsent a <= totalConducted a ∧ 0 <= totalOff a
  ∧ totalConducted a + totalOff a = totalConducted b ∧ totalOff b = 0 →
  let a' := getStats_month semesterStart semesterEnd att off classId endDate cur a in
  let b' := getStats_month semesterStart semesterEnd ∅ ∅ classId endDate cur b in
  0 <= totalAbsent a' <= totalConducted a' ∧ 0 <= totalOff a'
  ∧ totalConducted a' + totalOff a' = totalConducted b' ∧ totalOff b' = 0.
Proof.
  intros (Ha & Ho & Hsum & Hb). cbv zeta.
  pose proof (getStats_month_bounds semesterStart semesterEnd att off classId endDate cur a)
    as Hbd. cbv zeta in Hbd.
  destruct (getStats_month_unknown semesterStart semesterEnd ∅ ∅ classId endDate cur b)
    as (_ & _ & Hob); [apply lookup_empty | apply lookup_empty |].
  revert Hbd Hob. unfold getStats_month. cbv zeta.
  destruct (dayRange _ _ _ _ _) as [s e]. intros Hbd Hob.
  pose proof (countDays_weekDays (getFullYear cur) (getMonth cur)
                (lookupDays off classId (monthKey (getFullYear cur) (getMonth cur)))
                (lookupDays att classId (monthKey (getFullYear cur) (getMonth cur)))
                s e a) as Hwa.
  pose proof (countDays_weekDays (getFullYear cur) (getMonth cur)
                (lookupDays ∅ classId (monthKey (getFullYear cur) (getMonth cur)))
                (lookupDays ∅ classId (monthKey (getFullYear cur) (getMonth cur)))
                s e b) as Hwb.
  cbv zeta in Hwa, Hwb.
  pose proof (foldl_countDay_bounds (getFullYear cur) (getMonth cur)
                (lookupDays off classId (monthKey (getFullYear cur) (getMonth cur)))
                (lookupDays att classId (monthKey (getFullYear cur) (getMonth cur)))
                (seqZ s (e - s + 1)) a) as Hoa.
  cbv zeta in Hoa. fold (countDays (getFullYear cur) (getMonth cur)
                (lookupDays off classId (monthKey (getFullYear cur) (getMonth cur)))
                (lookupDays att classId (monthKey (getFullYear cur) (getMonth cur)))
                s e a) in Hoa.
  lia.
Qed.

End CumulativeFacts.

Section UnknownClass.

Variables semesterStart semesterEnd : Date.

(** C10, as the code has it.  Both computations return for every class
    name.  For a class without an entry in either store they return the
    statistics of empty stores: no absence and no off day, while
    [totalConducted] still counts every week day of the range.  For the
    month that is the number of the days from
    the first to the last day of the loop that are not a Saturday or a
    Sunday; for the semester, when it starts at a midnight of a year from
    100 on, it is the number of the midnights in the window, not after
    [today], that are not a Saturday or a Sunday, each counted once. *)
Theorem unknown_class_statistics att off classId month year today :
  (∃ m stats,
     getMonthlyStats semesterStart semesterEnd att off classId month year today = m
     ∧ getStats semesterStart semesterEnd att off classId today = Some stats)
  ∧ (att !! classId = None → off !! classId = None →
  (let m := getMonthlyStats semesterStart semesterEnd att off classId month year today in
   m = getMonthlyStats semesterStart semesterEnd ∅ ∅ classId month year today
   ∧ totalAbsent m = 0 ∧ totalOff m = 0
   ∧ totalConducted m
     = weekDaysIn year month
         (dayRange semesterStart semesterEnd year month today).1
         (dayRange semesterStart semesterEnd year month today).2)
  ∧ ∃ stats,
      getStats semesterStart semesterEnd att off classId today = Some stats
      ∧ getStats semesterStart semesterEnd ∅ ∅ classId today = Some stats
      ∧ totalAbsent (counts stats) = 0 ∧ totalOff (counts stats) = 0
      ∧ (TimeWithinDay semesterStart = 0 → 100 <= getFullYear semesterStart →
         ∃ days : list Date,
           totalConducted (counts stats) = Z.of_nat (length days)
           ∧ NoDup days
           ∧ ∀ date,
               date ∈ days
               ↔ TimeWithinDay date = 0 ∧ semesterStart <= date <= semesterEnd
                 ∧ date <= today
                 ∧ (getDay date =? 0) || (getDay date =? 6) = false)).
Proof.
  split.
  { destruct (getStats_counts semesterStart semesterEnd att off classId today)
      as (stats & Hs & _).
    by exists (getMonthlyStats semesterStart semesterEnd att off classId month year today),
              stats. }
  intros Ha Ho.
  destruct (unknown_class_as_empty semesterStart semesterEnd att off classId month year
              today Ha Ho) as ((Hm1 & Hm2 & Hm3) & stats & Hs & Hs0 & Hsa & Hso).
  split.
  - cbv zeta. split; [exact Hm1|]. split; [exact Hm2|]. split; [exact Hm3|].
    cbv zeta in Hm3. revert Hm3. unfold getMonthlyStats. cbv zeta.
    destruct (dayRange _ _ _ _ _) as [s e]. cbn [fst snd]. intros Hm3.
    pose proof (countDays_weekDays year month
                  (lookupDays off classId (monthKey year month))
                  (lookupDays att classId (monthKey year month)) s e noCounts) as Hw.
    cbv zeta in Hw.
    change (totalConducted noCounts) with 0 in Hw.
    change (totalOff noCounts) with 0 in Hw. lia.
  - exists stats. split; [exact Hs|]. split; [exact Hs0|].
    split; [exact Hsa|]. split; [exact Hso|].
    intros Hmid Hyear.
    destruct (getStats_conducted_count semesterStart semesterEnd att off classId today Hyear)
      as (stats' & Hs' & Hc & Hnd).
    assert (stats' = stats) as -> by congruence.
    exists (getStats_conducted semesterStart semesterEnd off classId today).
    split; [exact Hc|]. split; [exact Hnd|].
    intros date.
    rewrite (getStats_conducted_elem semesterStart semesterEnd off classId today date
               Hmid Hyear).
    rewrite (lookupDays_unknown off classId _ Ho).
    pose proof (not_elem_of_nil (getDate date)). tauto.
Qed.

End UnknownClass.

Section CellFacts.

Import JSDateFacts DateFacts.

Variables semesterStart semesterEnd : Date.

Implicit Types (att off : Store) (classId : string) (month year day : Z)
  (today date : Date) (acc : Counts).

Lemma countDay_classifyDay att off classId month year today day acc :
  semesterStart <= newDate year month day <= semesterEnd →
  newDate year month day <= today →
  countDay year month (lookupDays off classId (monthKey year month))
    (lookupDays att classId (monthKey year month)) acc day
  = addCounts acc
      (stateCounts
         (classifyDay semesterStart semesterEnd att off classId month year today day)).
Proof.
  intros [Hs He] Ht. unfold countDay, classifyDay. cbv zeta.
  destruct (Z.leb_spec semesterStart (newDate year month day)); [|lia].
  destruct (Z.leb_spec (newDate year month day) semesterEnd); [|lia].
  destruct (Z.ltb_spec today (newDate year month day)); [lia|].
  cbn [andb negb].
  destruct (_ || _); [by rewrite addCounts_noCounts_r|].
  destruct (includes day _); [unfold addCounts; cbn; f_equal; lia|].
  destruct (includes day _); unfold addCounts; cbn; f_equal; lia.
Qed.

Lemma stateCounts_outside att off classId month year today day :
  ¬ (semesterStart <= newDate year month day <= semesterEnd
     ∧ newDate year month day <= today) →
  stateCounts (classifyDay semesterStart semesterEnd att off classId month year today day)
  = noCounts.
Proof.
  intros Hout. unfold classifyDay. cbv zeta.
  destruct (Z.leb_spec semesterStart (newDate year month day)); [|done].
  destruct (Z.leb_spec (newDate year month day) semesterEnd); [|done].
  destruct (Z.ltb_spec today (newDate year month day)); [done|].
  lia.
Qed.

Lemma cellCounts_month att off classId month year today :
  TimeWithinDay semesterStart = 0 → ¬ (0 <= year <= 99) → 0 <= month <= 11 →
  monthIndex semesterStart <= 12 * year + month <= monthIndex semesterEnd →
  12 * year + month <= monthIndex today →
  cellCounts
    ((fun day => (day, classifyDay semesterStart semesterEnd att off classId month year
                         today day))
       <$> seqZ 1 (getDate (newDate year (month + 1) 0)))
  = getMonthlyStats semesterStart semesterEnd att off classId month year today.
Proof.
  intros Hmid Hy Hm Hk Ht. unfold cellCounts, getMonthlyStats. cbv zeta.
  rewrite foldl_fmap. cbn [snd].
  pose proof (dayRange_spec semesterStart semesterEnd year month today) as Hspec.
  pose proof (dayRange_eq semesterStart semesterEnd year month today Hm) as Heq.
  pose proof (getDate_range semesterStart) as Hgs.
  destruct (dayRange _ _ _ _ _) as [s e]. cbn [fst snd] in Hspec.
  apply (f_equal fst) in Heq as Hs. apply (f_equal snd) in Heq as He.
  cbn [fst snd] in Hs, He. cbv zeta in He. clear Heq.
  rewrite daysInMonth_eq in Hspec |- *. rewrite ctorYear_id in * by done.
  set (k := 12 * year + month) in *.
  set (D := monthFirst (k + 1) - monthFirst k) in *.
  assert (Hs' : 1 <= s <= D).
  { pose proof (monthFirst_step k). subst s D.
    destruct (Z.eqb_spec k (monthIndex semesterStart)) as [->|]; lia. }
  assert (He' : e <= D).
  { subst e. destruct (k =? monthIndex semesterEnd); destruct (k =? monthIndex today); lia. }
  clear Hs He.
  set (n := Z.max 0 (e - s + 1)).
  unfold countDays.
  replace (seqZ s (e - s + 1)) with (seqZ s n).
  2:{ unfold n. destruct (Z.max_spec 0 (e - s + 1)) as [[_ ->]|[? ->]]; [done|].
      by rewrite !seqZ_nil by lia. }
  replace (seqZ 1 D) with (seqZ 1 (s - 1) ++ seqZ s n ++ seqZ (s + n) (D - s + 1 - n)).
  2:{ rewrite <- seqZ_app by lia.
      replace (seqZ s (n + (D - s + 1 - n))) with (seqZ (1 + (s - 1)) (D - s + 1))
        by (f_equal; lia).
      rewrite <- seqZ_app by lia. f_equal. lia. }
  rewrite !foldl_app.
  assert (Hzero : ∀ (l : list Z) acc,
            (∀ d, d ∈ l → 1 <= d <= D ∧ ¬ (s <= d <= e)) →
            foldl (fun a d => addCounts a
                      (stateCounts (classifyDay semesterStart semesterEnd att off classId
                                      month year today d))) acc l = acc).
  { intros l. induction l as [|d l IH]; intros acc Hl; cbn [foldl]; [done|].
    rewrite stateCounts_outside, addCounts_noCounts_r.
    - apply IH. intros d' Hd'. apply Hl. by right.
    - intros [Hwin Hnow]. destruct (Hl d) as [Hd Hnot]; [by left|].
      apply Hnot, Hspec; try done. }
  rewrite (Hzero (seqZ (s + n) _)) by (intros d Hd%elem_of_seqZ; lia).
  rewrite (Hzero (seqZ 1 _)) by (intros d Hd%elem_of_seqZ; lia).
  apply foldl_ext_in. intros a d Hd%elem_of_seqZ.
  symmetry. apply countDay_classifyDay; apply Hspec; try done; lia.
Qed.

(** The fields of a date are those of its day. *)
Lemma fields_same_day t1 t2 :
  Day t1 = Day t2 →
  getFullYear t1 = getFullYear t2 ∧ getMonth t1 = getMonth t2 ∧ getDate t1 = getDate t2.
Proof.
  intros H.
  assert (Hi : monthIndex t1 = monthIndex t2).
  { apply monthIndex_unique. rewrite H. apply monthIndex_bounds. }
  destruct (monthIndex_fields t1) as [-> ->]. destruct (monthIndex_fields t2) as [-> ->].
  rewrite !getDate_eq, Hi, H. done.
Qed.

Lemma getMonthlyStats_same_day att off classId month year today0 today :
  Day today0 = Day today →
  getMonthlyStats semesterStart semesterEnd att off classId month year today0
  = getMonthlyStats semesterStart semesterEnd att off classId month year today.
Proof.
  intros (Hy & Hm & Hd)%fields_same_day.
  unfold getMonthlyStats, dayRange. cbv zeta. by rewrite Hy, Hm, Hd.
Qed.

End CellFacts.

Section PercentThresholds.

Lemma percentExpected_below conducted absent t :
  0 < conducted → 0 <= absent <= conducted → t = 50 ∨ t = 75 ∨ t = 90 →
  percentExpected conducted absent < t
  ↔ 200 * (conducted - absent) < (2 * t - 1) * conducted.
Proof.
  intros Hc Ha Ht. unfold percentExpected.
  destruct (Z.eqb_spec conducted 0) as [|_]; [lia|].
  destruct (Z.eqb_spec (40 * (conducted - absent)) (23 * conducted)) as [Htie|_];
    [lia|].
  unfold roundHalfUp. split.
  - intros Hlt.
    destruct (Z.lt_ge_cases (200 * (conducted - absent)) ((2 * t - 1) * conducted))
      as [|Hge]; [done|].
    assert (t <= (2 * (100 * (conducted - absent)) + conducted) / (2 * conducted));
      [|lia].
    apply Z.div_le_lower_bound; lia.
  - intros Hlt. apply Z.div_lt_upper_bound; lia.
Qed.

Lemma percentExpected_range conducted absent :
  0 <= absent <= conducted → 0 <= percentExpected conducted absent <= 100.
Proof.
  intros Ha. unfold percentExpected.
  destruct (Z.eqb_spec conducted 0) as [|Hc]; [lia|].
  destruct (_ =? _); [lia|]. unfold roundHalfUp. split.
  - apply Z.div_pos; lia.
  - assert ((2 * (100 * (conducted - absent)) + conducted) / (2 * conducted) < 101);
      [|lia].
    apply Z.div_lt_upper_bound; lia.
Qed.

End PercentThresholds.

Section DisplayFacts.

Import JSDateFacts DateFacts.

Variables semesterStart semesterEnd : Date.

Implicit Types (att off : Store) (classId : string) (month year day : Z)
  (today date : Date) (acc : Counts).

(** A cell that shows a mark is a week day of the window that is not after
    [today] and not an off day. *)
Lemma classifyDay_shown att off classId month year today day state :
  classifyDay semesterStart semesterEnd att off classId month year today day = state →
  state = Present ∨ state = Absent →
  semesterStart <= newDate year month day <= semesterEnd
  ∧ newDate year month day <= today
  ∧ (getDay (newDate year month day) =? 0) || (getDay (newDate year month day) =? 6) = false
  ∧ (day ∉ lookupDays off classId (monthKey year month))
  ∧ (state = Absent ↔ day ∈ lookupDays att classId (monthKey year month)).
Proof.
  unfold classifyDay, includes. cbv zeta.
  destruct (Z.leb_spec semesterStart (newDate year month day));
    [|intros <- [|]; discriminate].
  destruct (Z.leb_spec (newDate year month day) semesterEnd);
    [|intros <- [|]; discriminate].
  cbn [andb negb].
  destruct (Z.ltb_spec today (newDate year month day)); [intros <- [|]; discriminate|].
  destruct (_ || _); [intros <- [|]; discriminate|].
  case_bool_decide as Hoff; [intros <- [|]; discriminate|].
  case_bool_decide as Habs; intros <- _; (repeat split; try lia; try done).
Qed.

Lemma classifyDay_of_marks att off classId month year today day :
  semesterStart <= newDate year month day <= semesterEnd →
  newDate year month day <= today →
  (getDay (newDate year month day) =? 0) || (getDay (newDate year month day) =? 6) = false →
  day ∉ lookupDays off classId (monthKey year month) →
  classifyDay semesterStart semesterEnd att off classId month year today day
  = if bool_decide (day ∈ lookupDays att classId (monthKey year month))
    then Absent else Present.
Proof.
  intros [Hs He] Ht Hwd Hoff. unfold classifyDay, includes. cbv zeta.
  destruct (Z.leb_spec semesterStart (newDate year month day)); [|lia].
  destruct (Z.leb_spec (newDate year month day) semesterEnd); [|lia].
  destruct (Z.ltb_spec today (newDate year month day)); [lia|].
  cbn [andb negb]. rewrite Hwd. by rewrite (bool_decide_eq_false_2 _ Hoff).
Qed.

Lemma classifyDay_ext_day att att' off classId month year today day :
  (day ∈ lookupDays att' classId (monthKey year month)
   ↔ day ∈ lookupDays att classId (monthKey year month)) →
  classifyDay semesterStart semesterEnd att' off classId month year today day
  = classifyDay semesterStart semesterEnd att off classId month year today day.
Proof.
  intros H. unfold classifyDay, includes. cbv zeta.
  by rewrite (bool_decide_ext _ _ H).
Qed.

Lemma clickCell_stores data classId month year day :
  offDaysData (clickCell data classId month year day) = offDaysData data
  ∧ attendanceData (clickCell data classId month year day)
    = toggleIn (attendanceData data) classId (monthKey year month) day.
Proof.
  unfold clickCell, toggleDayStatus. by rewrite bool_decide_eq_true_2.
Qed.

(** The effect of a click that adds or removes the one absence mark that
    the counters see. *)
Lemma click_changes_one_mark att att' off classId month year today day :
  ¬ (0 <= getFullYear semesterStart <= 99) →
  ¬ (0 <= year <= 99) → 0 <= month <= 11 →
  1 <= day <= getDate (newDate year (month + 1) 0) →
  classifyDay semesterStart semesterEnd att off classId month year today day = Present →
  day ∈ lookupDays att' classId (monthKey year month) →
  (∀ d, d ≠ day → d ∈ lookupDays att classId (monthKey year month)
                  ↔ d ∈ lookupDays att' classId (monthKey year month)) →
  (∀ k, k ≠ monthKey year month → lookupDays att' classId k = lookupDays att classId k) →
  classifyDay semesterStart semesterEnd att' off classId month year today day = Absent
  ∧ (∀ d, d ≠ day →
       classifyDay semesterStart semesterEnd att' off classId month year today d
       = classifyDay semesterStart semesterEnd att off classId month year today d)
  ∧ getMonthlyStats semesterStart semesterEnd att' off classId month year today
    = addCounts (getMonthlyStats semesterStart semesterEnd att off classId month year today)
        oneAbsent
  ∧ ∃ stats stats',
      getStats semesterStart semesterEnd att off classId today = Some stats
      ∧ getStats semesterStart semesterEnd att' off classId today = Some stats'
      ∧ counts stats' = addCounts (counts stats) oneAbsent.
Proof.
  intros Hys Hy Hm Hd Hstate Hin' Hothers Hframe.
  destruct (classifyDay_shown att off classId month year today day Present Hstate)
    as (Hwin & Htoday & Hwd & Hoff & Habs); [by left|].
  assert (Hnin : day ∉ lookupDays att classId (monthKey year month))
    by (intros H; apply Habs in H; discriminate).
  split; [|split; [|split]].
  - rewrite classifyDay_of_marks by done. by rewrite bool_decide_eq_true_2.
  - intros d Hne. apply classifyDay_ext_day. symmetry. by apply Hothers.
  - apply (getMonthlyStats_marked _ _ _ _ _ _ _ _ _ day); try done.
    by apply dayRange_contains.
  - by apply (getStats_marked _ _ _ _ _ _ month year _ day).
Qed.

End DisplayFacts.

(** * Properties of the calendar, the clicks and the statistics *)

Section CalendarProperties.

Import JSDateFacts DateFacts.

Variables semesterStart semesterEnd : Date.

Implicit Types (att off : Store) (classId : string) (month year day : Z)
  (today date : Date) (data : AppData).

(** X10. Every day of the displayed month has exactly one cell in the grid
    that [renderCalendar] builds after the headers "Sun" to "Sat", and the
    cell stands in the column of the week day of its date. *)
Theorem calendarGrid_columns month year day :
  1 <= day <= getDate (newDate year (month + 1) 0) →
  ∃ i : nat,
    calendarGrid month year !! i = Some (Some day)
    ∧ Z.of_nat i mod 7 = getDay (newDate year month day)
    ∧ ∀ j : nat, calendarGrid month year !! j = Some (Some day) → j = i.
Proof.
  intros Hd. pose proof (WeekDay_range (newDate year month 1)) as Hwd.
  exists (Z.to_nat (getDay (newDate year month 1) + day - 1)).
  split; [apply lookup_calendarGrid; split; [exact Hd | lia]|]. split.
  - rewrite (getDay_newDate year month day). f_equal. lia.
  - intros j Hj%lookup_calendarGrid. lia.
Qed.

(** X11. For a day of the displayed month, [renderCalendar] marks the cell
    "today" exactly when the date of the cell is the day of [today], and a
    cell marked "today" is never greyed out as a future date. *)
Theorem today_cell_is_not_future att off classId month year today day :
  ¬ (0 <= year <= 99) → 0 <= month <= 11 →
  1 <= day <= getDate (newDate year (month + 1) 0) →
  (isTodayCell month year today day = true
   ↔ Day (newDate year month day) = Day today)
  ∧ (isTodayCell month year today day = true →
     classifyDay semesterStart semesterEnd att off classId month year today day ≠ Future).
Proof.
  intros Hy Hm Hd. split; [by apply isTodayCell_Day|].
  intros Ht%isTodayCell_Day; try done.
  pose proof (midnight_ge (newDate year month day) today
                (TimeWithinDay_newDate year month day)) as Hle.
  unfold classifyDay. cbv zeta.
  destruct (negb _); [done|].
  destruct (Z.ltb_spec today (newDate year month day)); [lia|].
  destruct (_ || _); [done|]. destruct (includes day _); [done|].
  by destruct (includes day _).
Qed.

(** X12. The counters of [getMonthlyStats] and of [getStats] are never
    negative, absences never exceed the conducted classes, and conducted
    classes and holidays together are the conducted classes of empty stores:
    marking a holiday moves a day from one counter to the other. *)
Theorem counters_partition_week_days att off classId month year today :
  (let m := getMonthlyStats semesterStart semesterEnd att off classId month year today in
   let m0 := getMonthlyStats semesterStart semesterEnd ∅ ∅ classId month year today in
   0 <= totalAbsent m <= totalConducted m ∧ 0 <= totalOff m
   ∧ totalConducted m + totalOff m = totalConducted m0 ∧ totalOff m0 = 0)
  ∧ ∃ stats stats0,
      getStats semesterStart semesterEnd att off classId today = Some stats
      ∧ getStats semesterStart semesterEnd ∅ ∅ classId today = Some stats0
      ∧ 0 <= totalAbsent (counts stats) <= totalConducted (counts stats)
      ∧ 0 <= totalOff (counts stats)
      ∧ totalConducted (counts stats) + totalOff (counts stats)
        = totalConducted (counts stats0)
      ∧ totalOff (counts stats0) = 0.
Proof.
  split.
  - cbv zeta. unfold getMonthlyStats. cbv zeta.
    rewrite !(lookupDays_unknown ∅) by apply lookup_empty.
    destruct (dayRange _ _ _ _ _) as [s e].
    set (offs := lookupDays off classId (monthKey year month)).
    set (absents := lookupDays att classId (monthKey year month)).
    pose proof (countDays_weekDays year month offs absents s e noCounts) as Hwa.
    pose proof (countDays_weekDays year month [] [] s e noCounts) as Hwb.
    pose proof (countDays_unmarked year month s e noCounts) as [_ Hob].
    pose proof (foldl_countDay_bounds year month offs absents (seqZ s (e - s + 1)) noCounts)
      as Hoa.
    cbv zeta in Hwa, Hwb, Hoa.
    fold (countDays year month offs absents s e noCounts) in Hoa.
    change (totalAbsent noCounts) with 0 in *.
    change (totalConducted noCounts) with 0 in *.
    change (totalOff noCounts) with 0 in *. lia.
  - destruct (getStats_counts semesterStart semesterEnd att off classId today)
      as (stats & Hs & Hc & _).
    destruct (getStats_counts semesterStart semesterEnd ∅ ∅ classId today)
      as (stats0 & Hs0 & Hc0 & _).
    exists stats, stats0. split; [exact Hs|]. split; [exact Hs0|].
    rewrite Hc, Hc0. cbv zeta.
    apply (foldl_rel
             (fun a b => 0 <= totalAbsent a <= totalConducted a ∧ 0 <= totalOff a
                         ∧ totalConducted a + totalOff a = totalConducted b
                         ∧ totalOff b = 0)).
    + intros a b j _ Hab. by apply getStats_month_partition.
    + unfold noCounts. cbn. lia.
Qed.

(** X13. What the calendar and the cards show depends on the arrays of the
    stores only through the days they hold, and on the absence marks only
    outside the off days: stores that mark the same days give the same
    calendar, the same statistics and the same percentage. *)
Theorem display_depends_on_marks data data' classId month year today0 today :
  sameMarks data data' →
  renderCalendar semesterStart semesterEnd (attendanceData data') (offDaysData data')
    classId month year today0 today
  = renderCalendar semesterStart semesterEnd (attendanceData data) (offDaysData data)
      classId month year today0 today
  ∧ getStats semesterStart semesterEnd (attendanceData data') (offDaysData data')
      classId today
    = getStats semesterStart semesterEnd (attendanceData data) (offDaysData data)
        classId today
  ∧ cardPercent semesterStart semesterEnd (attendanceData data') (offDaysData data')
      classId today
    = cardPercent semesterStart semesterEnd (attendanceData data) (offDaysData data)
        classId today.
Proof.
  intros H. split; [by apply sameMarks_renderCalendar|].
  pose proof (sameMarks_getStats semesterStart semesterEnd data data' classId today H)
    as Hs.
  split; [exact Hs|]. unfold cardPercent. by rewrite Hs.
Qed.

Lemma click_on_holiday_cell_own data classId month year day c m y today0 today :
  day ∈ lookupDays (offDaysData data) classId (monthKey year month) →
  let data' := clickCell data classId month year day in
  offDaysData data' = offDaysData data
  ∧ lookupDays (attendanceData data') classId (monthKey year month)
    = toggleDays day (lookupDays (attendanceData data) classId (monthKey year month))
  ∧ renderCalendar semesterStart semesterEnd (attendanceData data') (offDaysData data')
      c m y today0 today
    = renderCalendar semesterStart semesterEnd (attendanceData data) (offDaysData data)
        c m y today0 today
  ∧ getStats semesterStart semesterEnd (attendanceData data') (offDaysData data') c today
    = getStats semesterStart semesterEnd (attendanceData data) (offDaysData data) c today.
Proof.
  intros Hoff data'.
  pose proof (sameMarks_click_off data classId month year day Hoff) as Hsame.
  destruct (clickCell_stores data classId month year day) as [Ho Ha].
  split; [exact Ho|]. split.
  - subst data'. rewrite Ha. apply lookupDays_toggleIn_same.
  - split; [by apply sameMarks_renderCalendar | by apply sameMarks_getStats].
Qed.

(** X14. In a page where nothing that the stores inherit carries a month
    array, a click on a cell shown as a holiday, of a class whose name
    objects do not inherit, toggles the day in the absence array of its
    month and leaves the off days alone; no calendar and no statistic of any
    class changes, and the page stays so. *)
Theorem click_on_holiday_cell (h : Proto.Heap) classId month year day c m y today0 today :
  Proto.shared h = Proto.pristine → ownName classId →
  day ∈ Proto.lookupDays (Proto.shared h) (offDaysData (Proto.stores h)) classId
          (monthKey year month) →
  let data := Proto.stores h in
  let h' := Proto.clickCell h classId month year day in
  let data' := Proto.stores h' in
  Proto.shared h' = Proto.pristine
  ∧ offDaysData data' = offDaysData data
  ∧ Proto.lookupDays (Proto.shared h') (attendanceData data') classId (monthKey year month)
    = toggleDays day
        (Proto.lookupDays (Proto.shared h) (attendanceData data) classId
           (monthKey year month))
  ∧ renderCalendar semesterStart semesterEnd (attendanceData data') (offDaysData data')
      c m y today0 today
    = renderCalendar semesterStart semesterEnd (attendanceData data) (offDaysData data)
        c m y today0 today
  ∧ getStats semesterStart semesterEnd (attendanceData data') (offDaysData data') c today
    = getStats semesterStart semesterEnd (attendanceData data) (offDaysData data) c today.
Proof.
  destruct h as [data sh]. cbn [Proto.shared Proto.stores]. intros -> Hown Hoff.
  cbv zeta. unfold Proto.clickCell. rewrite toggleDayStatus_pristine by done.
  cbn [Proto.shared Proto.stores]. rewrite !lookupDays_pristine in *.
  split; [reflexivity|].
  apply (click_on_holiday_cell_own data classId month year day c m y today0 today Hoff).
Qed.

End CalendarProperties.

Section ClickProperties.

Import JSDateFacts DateFacts.

Variables semesterStart semesterEnd : Date.

Implicit Types (att off : Store) (classId : string) (month year day : Z)
  (today date : Date) (data : AppData).

Lemma click_on_present_cell_own data classId month year day today :
  ¬ (0 <= getFullYear semesterStart <= 99) →
  ¬ (0 <= year <= 99) → 0 <= month <= 11 →
  1 <= day <= getDate (newDate year (month + 1) 0) →
  classifyDay semesterStart semesterEnd (attendanceData data) (offDaysData data)
    classId month year today day = Present →
  let data' := clickCell data classId month year day in
  classifyDay semesterStart semesterEnd (attendanceData data') (offDaysData data')
    classId month year today day = Absent
  ∧ (∀ d, d ≠ day →
       classifyDay semesterStart semesterEnd (attendanceData data') (offDaysData data')
         classId month year today d
       = classifyDay semesterStart semesterEnd (attendanceData data) (offDaysData data)
           classId month year today d)
  ∧ getMonthlyStats semesterStart semesterEnd (attendanceData data') (offDaysData data')
      classId month year today
    = addCounts
        (getMonthlyStats semesterStart semesterEnd (attendanceData data) (offDaysData data)
           classId month year today)
        oneAbsent
  ∧ ∃ stats stats',
      getStats semesterStart semesterEnd (attendanceData data) (offDaysData data)
        classId today = Some stats
      ∧ getStats semesterStart semesterEnd (attendanceData data') (offDaysData data')
          classId today = Some stats'
      ∧ counts stats' = addCounts (counts stats) oneAbsent.
Proof.
  intros Hys Hy Hm Hd Hstate data'.
  destruct (clickCell_stores data classId month year day) as [Ho Ha].
  subst data'. rewrite Ho, Ha.
  destruct (classifyDay_shown _ _ _ _ _ _ _ _ _ _ Hstate) as (_ & _ & _ & _ & Habs);
    [by left|].
  assert (Hnin : day ∉ lookupDays (attendanceData data) classId (monthKey year month))
    by (intros H; apply Habs in H; discriminate).
  apply click_changes_one_mark; try done.
  - rewrite lookupDays_toggleIn_same. by apply toggleDays_marks.
  - intros d Hne. rewrite lookupDays_toggleIn_same. symmetry.
    by apply elem_of_toggleDays_other.
  - intros k Hk. apply lookupDays_toggleIn_other. congruence.
Qed.

(** X15. In a page where nothing that the stores inherit carries a month
    array, a click on a cell shown as present, of a class whose name objects
    do not inherit, marks the day absent: the cell becomes an absent one, the
    other cells of the month stay as they are, the monthly and the
    cumulative statistics count one more absence and the same conducted
    classes and holidays, and the page stays so. *)
Theorem click_on_present_cell (h : Proto.Heap) classId month year day today :
  Proto.shared h = Proto.pristine → ownName classId →
  ¬ (0 <= getFullYear semesterStart <= 99) →
  ¬ (0 <= year <= 99) → 0 <= month <= 11 →
  1 <= day <= getDate (newDate year (month + 1) 0) →
  classifyDay semesterStart semesterEnd (attendanceData (Proto.stores h))
    (offDaysData (Proto.stores h)) classId month year today day = Present →
  let data := Proto.stores h in
  let h' := Proto.clickCell h classId month year day in
  let data' := Proto.stores h' in
  Proto.shared h' = Proto.pristine
  ∧ classifyDay semesterStart semesterEnd (attendanceData data') (offDaysData data')
      classId month year today day = Absent
  ∧ (∀ d, d ≠ day →
       classifyDay semesterStart semesterEnd (attendanceData data') (offDaysData data')
         classId month year today d
       = classifyDay semesterStart semesterEnd (attendanceData data) (offDaysData data)
           classId month year today d)
  ∧ getMonthlyStats semesterStart semesterEnd (attendanceData data') (offDaysData data')
      classId month year today
    = addCounts
        (getMonthlyStats semesterStart semesterEnd (attendanceData data) (offDaysData data)
           classId month year today)
        oneAbsent
  ∧ ∃ stats stats',
      getStats semesterStart semesterEnd (attendanceData data) (offDaysData data)
        classId today = Some stats
      ∧ getStats semesterStart semesterEnd (attendanceData data') (offDaysData data')
          classId today = Some stats'
      ∧ counts stats' = addCounts (counts stats) oneAbsent.
Proof.
  destruct h as [data sh]. cbn [Proto.shared Proto.stores].
  intros -> Hown Hys Hy Hm Hd Hstate.
  cbv zeta. unfold Proto.clickCell. rewrite toggleDayStatus_pristine by done.
  cbn [Proto.shared Proto.stores]. split; [reflexivity|].
  apply (click_on_present_cell_own data classId month year day today Hys Hy Hm Hd Hstate).
Qed.

(** X16. A click on a cell shown as absent, when the absence array of the
    month holds no day twice, marks the day present: the cell becomes a
    present one, the other cells of the month stay as they are, and the
    monthly and the cumulative statistics count one absence less and the same
    conducted classes and holidays. *)
Theorem click_on_absent_cell data classId month year day today :
  ¬ (0 <= getFullYear semesterStart <= 99) →
  ¬ (0 <= year <= 99) → 0 <= month <= 11 →
  1 <= day <= getDate (newDate year (month + 1) 0) →
  NoDup (lookupDays (attendanceData data) classId (monthKey year month)) →
  classifyDay semesterStart semesterEnd (attendanceData data) (offDaysData data)
    classId month year today day = Absent →
  let data' := clickCell data classId month year day in
  classifyDay semesterStart semesterEnd (attendanceData data') (offDaysData data')
    classId month year today day = Present
  ∧ (∀ d, d ≠ day →
       classifyDay semesterStart semesterEnd (attendanceData data') (offDaysData data')
         classId month year today d
       = classifyDay semesterStart semesterEnd (attendanceData data) (offDaysData data)
           classId month year today d)
  ∧ getMonthlyStats semesterStart semesterEnd (attendanceData data) (offDaysData data)
      classId month year today
    = addCounts
        (getMonthlyStats semesterStart semesterEnd (attendanceData data')
           (offDaysData data') classId month year today)
        oneAbsent
  ∧ ∃ stats stats',
      getStats semesterStart semesterEnd (attendanceData data) (offDaysData data)
        classId today = Some stats
      ∧ getStats semesterStart semesterEnd (attendanceData data') (offDaysData data')
          classId today = Some stats'
      ∧ counts stats = addCounts (counts stats') oneAbsent.
Proof.
  intros Hys Hy Hm Hd Hnd Hstate data'.
  destruct (clickCell_stores data classId month year day) as [Ho Ha].
  subst data'. rewrite Ho, Ha.
  destruct (classifyDay_shown _ _ _ _ _ _ _ _ _ _ Hstate)
    as (Hwin & Htoday & Hwd & Hoff & Habs); [by right|].
  assert (Hin : day ∈ lookupDays (attendanceData data) classId (monthKey year month))
    by (by apply Habs).
  set (att' := toggleIn (attendanceData data) classId (monthKey year month) day).
  assert (Hnin' : day ∉ lookupDays att' classId (monthKey year month)).
  { unfold att'. rewrite lookupDays_toggleIn_same, elem_of_toggleDays by done. tauto. }
  assert (Hpresent :
            classifyDay semesterStart semesterEnd att' (offDaysData data) classId month year
              today day = Present).
  { rewrite classifyDay_of_marks by done. by rewrite bool_decide_eq_false_2. }
  destruct (click_changes_one_mark semesterStart semesterEnd att' (attendanceData data)
              (offDaysData data) classId month year today day Hys Hy Hm Hd Hpresent Hin)
    as (_ & Hcells & Hmonth & stats' & stats & Hs' & Hs & Hc).
  - intros d Hne. unfold att'. rewrite lookupDays_toggleIn_same.
    by apply elem_of_toggleDays_other.
  - intros k Hk. unfold att'. symmetry. apply lookupDays_toggleIn_other. congruence.
  - split; [exact Hpresent|]. split; [intros d Hne; symmetry; by apply Hcells|].
    split; [exact Hmonth|]. exists stats, stats'. by split; [|split].
Qed.

(** X17. When the semester starts at a midnight, [getStats] returns, and
    its [totalConducted] is the number of the dates that are: a midnight in
    the window, not after [today], not a Saturday or a Sunday, and not an off
    day of the class; no date is counted twice. *)
Theorem totalConducted_counts_class_days att off classId today :
  TimeWithinDay semesterStart = 0 → 100 <= getFullYear semesterStart →
  ∃ stats,
    getStats semesterStart semesterEnd att off classId today = Some stats
    ∧ totalConducted (counts stats)
      = Z.of_nat (length (getStats_conducted semesterStart semesterEnd off classId today))
    ∧ NoDup (getStats_conducted semesterStart semesterEnd off classId today)
    ∧ ∀ date,
        date ∈ getStats_conducted semesterStart semesterEnd off classId today
        ↔ TimeWithinDay date = 0 ∧ semesterStart <= date <= semesterEnd ∧ date <= today
          ∧ (getDay date =? 0) || (getDay date =? 6) = false
          ∧ getDate date
            ∉ lookupDays off classId (monthKey (getFullYear date) (getMonth date)).
Proof.
  intros Hmid Hyear.
  destruct (getStats_conducted_count semesterStart semesterEnd att off classId today Hyear)
    as (stats & Hs & Hc & Hnd).
  exists stats. split; [exact Hs|]. split; [exact Hc|]. split; [exact Hnd|].
  intros date. by apply getStats_conducted_elem.
Qed.

(** X18. Before the first day of the semester, [getStats] returns all
    counters and both leave numbers zero, the card shows 0 percent, and no
    cell of any calendar is clickable. *)
Theorem nothing_before_the_semester att off classId month year day today :
  windowOK semesterStart semesterEnd → today < semesterStart →
  getStats semesterStart semesterEnd att off classId today
  = Some {| counts := noCounts; totalPossibleLeaves := 0; possibleLeaves := 0 |}
  ∧ cardPercent semesterStart semesterEnd att off classId today = Some 0
  ∧ clickable
      (classifyDay semesterStart semesterEnd att off classId month year today day)
    = false.
Proof.
  intros Hok Hbefore.
  pose proof (getStats_before semesterStart semesterEnd att off classId today Hok Hbefore)
    as Hs.
  split; [exact Hs|]. split; [|by apply classifyDay_before].
  unfold cardPercent. rewrite Hs. reflexivity.
Qed.

(** X20. The summary of a calendar shows a percentage from 0 to 100; it
    is styled "good" exactly when the month has conducted classes and at
    least 74.5 percent of them were attended, and "danger" exactly when the
    month has no conducted class or less than 49.5 percent were attended. *)
Theorem monthly_class_thresholds att off classId month year today0 today cal :
  renderCalendar semesterStart semesterEnd att off classId month year today0 today
  = Some cal →
  ∃ p,
    monthlyPercent cal = Some p ∧ 0 <= p <= 100
    ∧ (monthlyClass p = "good"
       ↔ totalConducted (monthStats cal) ≠ 0
         ∧ 149 * totalConducted (monthStats cal)
           <= 200 * (totalConducted (monthStats cal) - totalAbsent (monthStats cal)))
    ∧ (monthlyClass p = "danger"
       ↔ totalConducted (monthStats cal) = 0
         ∨ 200 * (totalConducted (monthStats cal) - totalAbsent (monthStats cal))
           < 99 * totalConducted (monthStats cal)).
Proof.
  unfold renderCalendar. cbv zeta. destruct (negb _); [discriminate|].
  intros Hcal. apply (inj Some) in Hcal. subst cal.
  cbn [monthlyPercent monthStats].
  pose proof (getMonthlyStats_bounds semesterStart semesterEnd att off classId month year
                today0) as Hb. cbv zeta in Hb.
  set (m := getMonthlyStats _ _ _ _ _ _ _ _) in *.
  exists (percentExpected (totalConducted m) (totalAbsent m)).
  split; [apply percent_table; lia|].
  split; [apply percentExpected_range; lia|].
  destruct (decide (totalConducted m = 0)) as [Hz|Hnz].
  - unfold percentExpected. rewrite Hz. cbn. split; [split; [discriminate | lia]|].
    split; [by left | reflexivity].
  - pose proof (percentExpected_below (totalConducted m) (totalAbsent m) 75) as H75.
    pose proof (percentExpected_below (totalConducted m) (totalAbsent m) 50) as H50.
    unfold monthlyClass.
    destruct (Z.leb_spec 75 (percentExpected (totalConducted m) (totalAbsent m)));
      [|destruct (Z.leb_spec 50 (percentExpected (totalConducted m) (totalAbsent m)))].
    + split; [split; [intros _; split; [done|] | done]|split; [discriminate|]].
      * destruct (Z.lt_ge_cases
                    (200 * (totalConducted m - totalAbsent m)) (149 * totalConducted m))
          as [Hlt|]; [|lia].
        apply H75 in Hlt; lia.
      * intros [|Hlt]; [done|].
        assert (200 * (totalConducted m - totalAbsent m) < 149 * totalConducted m) as Hlt'
          by lia.
        apply H75 in Hlt'; lia.
    + split; [split; [discriminate|]|split; [discriminate|]].
      * intros [_ Hge].
        assert (200 * (totalConducted m - totalAbsent m) < 149 * totalConducted m);
          [|lia].
        apply H75; lia.
      * intros [|Hlt]; [done|]. apply H50 in Hlt; lia.
    + split; [split; [discriminate|]|split; [intros _; right | done]].
      * intros [_ Hge].
        assert (200 * (totalConducted m - totalAbsent m) < 149 * totalConducted m);
          [|lia].
        apply H75; lia.
      * apply H50; lia.
Qed.

(** X21. For a month of the semester that is not after the month of
    [today], and when the two clock reads of [renderCalendar] fall on the
    same calendar day, the summary of the calendar counts the cells of the
    calendar: conducted classes are the cells shown present or absent,
    absences the cells shown absent, holidays the cells shown as off
    days. *)
Theorem calendar_summary_counts_cells att off classId month year today0 today cal :
  TimeWithinDay semesterStart = 0 → ¬ (0 <= year <= 99) → 0 <= month <= 11 →
  12 * year + month <= 12 * getFullYear today + getMonth today →
  Day today0 = Day today →
  renderCalendar semesterStart semesterEnd att off classId month year today0 today
  = Some cal →
  monthStats cal = cellCounts (cells cal).
Proof.
  intros Hmid Hy Hm Hnow Hday. unfold renderCalendar. cbv zeta.
  destruct (isMonthAllowed _ _ _ _) eqn:Hal; [|discriminate]. cbn [negb].
  intros Hcal. apply (inj Some) in Hcal. subst cal. cbn [monthStats cells].
  apply isMonthAllowed_index in Hal. rewrite ctorYear_id in Hal by done.
  rewrite (getMonthlyStats_same_day semesterStart semesterEnd att off classId month year
             today0 today Hday).
  symmetry. by apply cellCounts_month.
Qed.

End ClickProperties.

(** X19. The card of a class in the semester of the script shows a
    percentage from 0 to 100; its bar is red exactly when no class was
    conducted or less than 74.5 percent of the conducted classes were
    attended, and green exactly when classes were conducted and at least 89.5
    percent of them were attended. *)
Theorem card_colour_thresholds (att off : Store) (classId : string) (today : Date) :
  ∃ stats p,
    getStats Semester.semesterStart Semester.semesterEnd att off classId today = Some stats
    ∧ cardPercent Semester.semesterStart Semester.semesterEnd att off classId today = Some p
    ∧ 0 <= p <= 100
    ∧ (barColour p = Red
       ↔ totalConducted (counts stats) = 0
         ∨ 200 * (totalConducted (counts stats) - totalAbsent (counts stats))
           < 149 * totalConducted (counts stats))
    ∧ (barColour p = Green
       ↔ totalConducted (counts stats) ≠ 0
         ∧ 179 * totalConducted (counts stats)
           <= 200 * (totalConducted (counts stats) - totalAbsent (counts stats))).
Proof.
  destruct (getStats_bounds att off classId today) as (stats & Hs & Hb & Hlt).
  exists stats, (percentExpected (totalConducted (counts stats)) (totalAbsent (counts stats))).
  split; [exact Hs|].
  split; [unfold cardPercent; rewrite Hs; apply percent_table; lia|].
  clear Hs. revert Hb Hlt.
  generalize (totalConducted (counts stats)) as c.
  generalize (totalAbsent (counts stats)) as a.
  clear stats. intros a c Hb Hlt.
  split; [apply percentExpected_range; lia|].
  destruct (decide (c = 0)) as [Hz|Hnz].
  - unfold percentExpected. rewrite Hz. cbn.
    split; [split; [intros _; left; reflexivity | intros _; reflexivity]|].
    split; [discriminate | lia].
  - pose proof (percentExpected_below c a 75) as H75.
    pose proof (percentExpected_below c a 90) as H90.
    unfold barColour.
    destruct (Z.ltb_spec (percentExpected c a) 75);
      [|destruct (Z.ltb_spec (percentExpected c a) 90)].
    + split; [split; [intros _; right | intros _; reflexivity]|split; [discriminate|]].
      * apply H75; lia.
      * intros [_ Hge]. assert (200 * (c - a) < 179 * c); [|lia]. apply H90; lia.
    + split; [split; [discriminate|]|split; [discriminate|]].
      * intros [Hz|Hlt']; [lia|]. apply H75 in Hlt'; lia.
      * intros [_ Hge]. assert (200 * (c - a) < 179 * c); [|lia]. apply H90; lia.
    + split; [split; [discriminate|]
             |split; [intros _; split; [exact Hnz|] | intros _; reflexivity]].
      * intros [Hz|Hlt']; [lia|]. apply H75 in Hlt'; lia.
      * destruct (Z.lt_ge_cases (200 * (c - a)) (179 * c)) as [Hlt'|]; [|lia].
        apply H90 in Hlt'; lia.
Qed.

Section OpeningProperties.

Variables semesterStart semesterEnd : Date.

(** X22. Opening the detail of a class shows a calendar and never the
    message for a month outside the semester: the view of the class is kept,
    or created on the month of [today] clamped into the semester, the views
    of the other classes are left alone, and every view stays on a month
    that [isMonthAllowed] accepts. *)
Theorem showAttendance_opens_allowed_month (att off : Store)
    (classState : gmap string ViewState) (classId : string) (now today0 today : Date) :
  windowOK semesterStart semesterEnd →
  viewsAllowed semesterStart semesterEnd classState →
  ∃ classState' v cal,
    showAttendance semesterStart semesterEnd att off classState classId false
      now today0 today
    = (classState', Some (Some cal))
    ∧ classState' !! classId = Some v
    ∧ renderCalendar semesterStart semesterEnd att off classId (viewMonth v) (viewYear v)
        today0 today = Some cal
    ∧ viewsAllowed semesterStart semesterEnd classState'
    ∧ (∀ c, c ≠ classId → classState' !! c = classState !! c)
    ∧ (classState !! classId = Some v
       ∨ classState !! classId = None
         ∧ (viewYear v, viewMonth v)
           = clampToSemesterMonth semesterStart semesterEnd now).
Proof.
  intros Hok Hall.
  pose proof (ensureView_allowed semesterStart semesterEnd classState classId now Hok Hall)
    as Hall1.
  destruct (ensureView_lookup semesterStart semesterEnd classState classId now)
    as (v & Hv & Hcase).
  destruct (Hall1 classId v Hv) as [_ Hal].
  unfold showAttendance. cbv zeta. rewrite Hv.
  unfold renderCalendar at 1. cbv zeta. rewrite Hal. cbn [negb].
  eexists _, v, _. split; [reflexivity|]. split; [exact Hv|].
  split; [unfold renderCalendar; cbv zeta; rewrite Hal; reflexivity|].
  split; [exact Hall1|]. split.
  - intros c Hc. unfold ensureView.
    destruct (classState !! classId); [reflexivity|]. by rewrite lookup_insert_ne.
  - destruct Hcase as [H | [H ->]]; [by left | right].
    split; [exact H|]. cbn [viewYear viewMonth].
    by destruct (clampToSemesterMonth semesterStart semesterEnd now).
Qed.

End OpeningProperties.

(** * The properties at the semester of the script *)

Section Instances.

Import Semester Scenario Inputs.

Lemma monthKey_separates_months_witness :
  monthKey 2025 6 ≠ monthKey 2025 7
  ∧ lookupDays (attendanceData (toggleDayStatus oneAbsence "cs301" 28 6 2025 "absent"))
      "cs301" (monthKey 2025 7)
    = lookupDays (attendanceData oneAbsence) "cs301" (monthKey 2025 7)
  ∧ lookupDays (offDaysData (toggleDayStatus oneAbsence "cs301" 28 6 2025 "absent"))
      "cs301" (monthKey 2025 7)
    = lookupDays (offDaysData oneAbsence) "cs301" (monthKey 2025 7).
Proof.
  apply monthKey_separates_months; [lia | lia | discriminate].
Defined.

Lemma toggleDayStatus_keeps_ascending_witness :
  ascendingStores (toggleDayStatus noMarks "cs301" 28 6 2025 "absent").
Proof.
  apply toggleDayStatus_keeps_ascending. intros c k. split; constructor.
Defined.

Lemma toggleDayStatus_commute_witness :
  Proto.toggleDayStatus
    (Proto.toggleDayStatus {| Proto.stores := noMarks; Proto.shared := Proto.pristine |}
       "cs301" 28 6 2025 "absent")
    "cs302" 29 6 2025 "off"
  = Proto.toggleDayStatus
      (Proto.toggleDayStatus {| Proto.stores := noMarks; Proto.shared := Proto.pristine |}
         "cs302" 29 6 2025 "off")
      "cs301" 28 6 2025 "absent".
Proof.
  destruct (toggleDayStatus_commute
              {| Proto.stores := noMarks; Proto.shared := Proto.pristine |}
              "cs301" 28 6 2025 "absent" "cs302" 29 6 2025 "off") as [H _].
  - reflexivity.
  - unfold ownName. apply (bool_decide_unpack _). vm_compute. exact I.
  - unfold ownName. apply (bool_decide_unpack _). vm_compute. exact I.
  - intros c k. split; constructor.
  - exact H.
Defined.

Lemma toggleDayStatus_keeps_entries_witness :
  Proto.shared
    (Proto.toggleDayStatus {| Proto.stores := noMarks; Proto.shared := Proto.pristine |}
       "cs301" 28 6 2025 "absent")
  = Proto.pristine
  ∧ hasEntry
      (attendanceData
         (Proto.stores
            (Proto.toggleDayStatus
               {| Proto.stores := noMarks; Proto.shared := Proto.pristine |}
               "cs301" 28 6 2025 "absent")))
      "cs301" (monthKey 2025 6).
Proof.
  pose proof (toggleDayStatus_keeps_entries
                {| Proto.stores := noMarks; Proto.shared := Proto.pristine |}
                "cs301" 28 6 2025 "absent") as H.
  cbv zeta in H. destruct H as (H1 & H2 & _).
  - reflexivity.
  - unfold ownName. apply (bool_decide_unpack _). vm_compute. exact I.
  - split; [exact H1 | exact H2].
Defined.

Lemma toggleDayStatus_twice_restores_arrays_witness :
  lookupDays
    (attendanceData
       (toggleDayStatus (toggleDayStatus noMarks "cs301" 28 6 2025 "absent")
          "cs301" 28 6 2025 "absent")) "cs301" (monthKey 2025 6)
  = lookupDays (attendanceData noMarks) "cs301" (monthKey 2025 6)
  ∧ lookupDays
      (offDaysData
         (toggleDayStatus (toggleDayStatus noMarks "cs301" 28 6 2025 "absent")
            "cs301" 28 6 2025 "absent")) "cs301" (monthKey 2025 6)
    = lookupDays (offDaysData noMarks) "cs301" (monthKey 2025 6).
Proof.
  apply toggleDayStatus_twice_restores_arrays. intros c k. split; constructor.
Defined.

Lemma isMonthAllowed_iff_semester_months_witness :
  inDateRange (newDate 2025 (7 + 1) 0)
  ∧ inDateRange (newDate 2025 7 1)
  ∧ inDateRange (newDate 2025 7 (getDate (newDate 2025 (7 + 1) 0)))
  ∧ (isMonthAllowed semesterStart semesterEnd 2025 7 = true
     ↔ 12 * getFullYear semesterStart + getMonth semesterStart
       <= 12 * 2025 + 7
       <= 12 * getFullYear semesterEnd + getMonth semesterEnd).
Proof.
  destruct (isMonthAllowed_iff_semester_months semesterStart semesterEnd 2025 7)
    as (H1 & H2 & H3 & H4); [lia | unfold dateYear; lia | lia |].
  split; [exact H1|]. split; [exact H2|]. split; [exact H3|].
  apply H4. vm_compute. reflexivity.
Defined.

Lemma clampToSemesterMonth_allowed_witness :
  0 <= (clampToSemesterMonth semesterStart semesterEnd aug15).2 <= 11
  ∧ isMonthAllowed semesterStart semesterEnd
      (clampToSemesterMonth semesterStart semesterEnd aug15).1
      (clampToSemesterMonth semesterStart semesterEnd aug15).2 = true.
Proof.
  destruct (clampToSemesterMonth_allowed semesterStart semesterEnd aug15)
    as (H1 & H2 & _).
  - split; [vm_compute; reflexivity|]. split.
    + cut (getFullYear semesterStart = 2025); [intros ->; lia | vm_compute; reflexivity].
    + apply Z.leb_le. vm_compute. reflexivity.
  - split; [exact H1 | exact H2].
Defined.

Lemma changeMonth_keeps_views_witness :
  ∃ classState' out,
    changeMonth semesterStart semesterEnd ∅ ∅ augustView "cs301" 1 aug15 aug15 aug15
    = Some (classState', out)
    ∧ viewsAllowed semesterStart semesterEnd classState'.
Proof.
  destruct (changeMonth_keeps_views semesterStart semesterEnd ∅ ∅ augustView "cs301" 1
              aug15 aug15 aug15)
    as (v & classState' & out & _ & Hc & Hv & _).
  - split; [vm_compute; reflexivity|]. split.
    + cut (getFullYear semesterStart = 2025); [intros ->; lia | vm_compute; reflexivity].
    + apply Z.leb_le. vm_compute. reflexivity.
  - cut (getFullYear semesterEnd = 2025); [intros ->; lia | vm_compute; reflexivity].
  - exists {| viewMonth := 7; viewYear := 2025 |}. reflexivity.
  - lia.
  - intros c v H. unfold augustView in H. apply lookup_singleton_Some in H as [<- <-].
    split; [cbn; lia | vm_compute; reflexivity].
  - exists classState', out. split; [exact Hc | exact Hv].
Defined.

Lemma changeMonth_there_and_back_witness :
  ∃ r',
    changeMonth semesterStart semesterEnd ∅ ∅
      (<["cs301" := {| viewMonth := 8; viewYear := 2025 |}]> augustView)
      "cs301" (- 1) aug15 aug15 aug15
    = Some (augustView, Some r').
Proof.
  apply (changeMonth_there_and_back semesterStart semesterEnd ∅ ∅ augustView "cs301" 1
           aug15 aug15 aug15
           (<["cs301" := {| viewMonth := 8; viewYear := 2025 |}]> augustView)
           (renderCalendar semesterStart semesterEnd ∅ ∅ "cs301" 8 2025 aug15 aug15)).
  - intros c v H. unfold augustView in H. apply lookup_singleton_Some in H as [<- <-].
    split; [cbn; lia | vm_compute; reflexivity].
  - exists {| viewMonth := 7; viewYear := 2025 |}. reflexivity.
  - vm_compute. reflexivity.
Defined.

Lemma calendarGrid_columns_witness :
  ∃ i : nat,
    calendarGrid 7 2025 !! i = Some (Some 15)
    ∧ Z.of_nat i mod 7 = getDay (newDate 2025 7 15)
    ∧ ∀ j : nat, calendarGrid 7 2025 !! j = Some (Some 15) → j = i.
Proof.
  apply calendarGrid_columns.
  cut (getDate (newDate 2025 (7 + 1) 0) = 31); [intros ->; lia | vm_compute; reflexivity].
Defined.

Lemma today_cell_is_not_future_witness :
  (isTodayCell 7 2025 aug15 15 = true ↔ Day (newDate 2025 7 15) = Day aug15)
  ∧ (isTodayCell 7 2025 aug15 15 = true →
     classifyDay semesterStart semesterEnd ∅ ∅ "cs301" 7 2025 aug15 15 ≠ Future).
Proof.
  apply today_cell_is_not_future; [lia | lia |].
  cut (getDate (newDate 2025 (7 + 1) 0) = 31); [intros ->; lia | vm_compute; reflexivity].
Defined.

Lemma display_depends_on_marks_witness :
  renderCalendar semesterStart semesterEnd (attendanceData twiceMarked)
    (offDaysData twiceMarked) "cs301" 6 2025 aug15 aug15
  = renderCalendar semesterStart semesterEnd (attendanceData oneAbsence)
      (offDaysData oneAbsence) "cs301" 6 2025 aug15 aug15
  ∧ getStats semesterStart semesterEnd (attendanceData twiceMarked)
      (offDaysData twiceMarked) "cs301" aug15
    = getStats semesterStart semesterEnd (attendanceData oneAbsence)
        (offDaysData oneAbsence) "cs301" aug15
  ∧ cardPercent semesterStart semesterEnd (attendanceData twiceMarked)
      (offDaysData twiceMarked) "cs301" aug15
    = cardPercent semesterStart semesterEnd (attendanceData oneAbsence)
        (offDaysData oneAbsence) "cs301" aug15.
Proof.
  apply display_depends_on_marks.
  intros c k d. split; [reflexivity|]. intros _.
  unfold lookupDays, twiceMarked, oneAbsence. cbn [attendanceData].
  destruct (decide (c = "cs301")) as [->|Hc].
  - rewrite !lookup_singleton_eq.
    destruct (decide (k = "2025-07")) as [->|Hk].
    + rewrite !lookup_singleton_eq, !elem_of_cons. tauto.
    + rewrite !lookup_singleton_ne by congruence. reflexivity.
  - rewrite !lookup_singleton_ne by congruence. reflexivity.
Defined.

Lemma click_on_holiday_cell_witness :
  getStats semesterStart semesterEnd
    (attendanceData
       (Proto.stores
          (Proto.clickCell {| Proto.stores := oneHoliday; Proto.shared := Proto.pristine |}
             "cs301" 7 2025 15)))
    (offDaysData
       (Proto.stores
          (Proto.clickCell {| Proto.stores := oneHoliday; Proto.shared := Proto.pristine |}
             "cs301" 7 2025 15))) "cs301" aug15
  = getStats semesterStart semesterEnd (attendanceData oneHoliday)
      (offDaysData oneHoliday) "cs301" aug15
  ∧ Proto.shared
      (Proto.clickCell {| Proto.stores := oneHoliday; Proto.shared := Proto.pristine |}
         "cs301" 7 2025 15)
    = Proto.pristine.
Proof.
  pose proof (click_on_holiday_cell semesterStart semesterEnd
                {| Proto.stores := oneHoliday; Proto.shared := Proto.pristine |}
                "cs301" 7 2025 15 "cs301" 7 2025 aug15 aug15) as Hc.
  cbv zeta in Hc. destruct Hc as (Hp & _ & _ & _ & Hs).
  - reflexivity.
  - unfold ownName. apply (bool_decide_unpack _). vm_compute. exact I.
  - cbn [Proto.shared Proto.stores].
    cut (Proto.lookupDays Proto.pristine (offDaysData oneHoliday) "cs301" (monthKey 2025 7)
         = [15]); [intros ->; left | vm_compute; reflexivity].
  - split; [exact Hs | exact Hp].
Defined.

Lemma click_on_present_cell_witness :
  classifyDay semesterStart semesterEnd
    (attendanceData
       (Proto.stores
          (Proto.clickCell {| Proto.stores := noMarks; Proto.shared := Proto.pristine |}
             "cs301" 6 2025 28)))
    (offDaysData
       (Proto.stores
          (Proto.clickCell {| Proto.stores := noMarks; Proto.shared := Proto.pristine |}
             "cs301" 6 2025 28))) "cs301" 6 2025 aug15 28
  = Absent
  ∧ Proto.shared
      (Proto.clickCell {| Proto.stores := noMarks; Proto.shared := Proto.pristine |}
         "cs301" 6 2025 28)
    = Proto.pristine.
Proof.
  pose proof (click_on_present_cell semesterStart semesterEnd
                {| Proto.stores := noMarks; Proto.shared := Proto.pristine |}
                "cs301" 6 2025 28 aug15) as Hc.
  cbv zeta in Hc. destruct Hc as (Hp & H1 & _).
  - reflexivity.
  - unfold ownName. apply (bool_decide_unpack _). vm_compute. exact I.
  - cut (getFullYear semesterStart = 2025); [intros ->; lia | vm_compute; reflexivity].
  - lia.
  - lia.
  - cut (getDate (newDate 2025 (6 + 1) 0) = 31); [intros ->; lia | vm_compute; reflexivity].
  - vm_compute. reflexivity.
  - split; [exact H1 | exact Hp].
Defined.

Lemma click_on_absent_cell_witness :
  classifyDay semesterStart semesterEnd
    (attendanceData (clickCell oneAbsence "cs301" 6 2025 28))
    (offDaysData (clickCell oneAbsence "cs301" 6 2025 28)) "cs301" 6 2025 aug15 28
  = Present
  ∧ getMonthlyStats semesterStart semesterEnd (attendanceData oneAbsence)
      (offDaysData oneAbsence) "cs301" 6 2025 aug15
    = addCounts
        (getMonthlyStats semesterStart semesterEnd
           (attendanceData (clickCell oneAbsence "cs301" 6 2025 28))
           (offDaysData (clickCell oneAbsence "cs301" 6 2025 28)) "cs301" 6 2025 aug15)
        oneAbsent.
Proof.
  pose proof (click_on_absent_cell semesterStart semesterEnd oneAbsence "cs301" 6 2025 28
                aug15) as Hc.
  cbv zeta in Hc. destruct Hc as (H1 & _ & H3 & _).
  - cut (getFullYear semesterStart = 2025); [intros ->; lia | vm_compute; reflexivity].
  - lia.
  - lia.
  - cut (getDate (newDate 2025 (6 + 1) 0) = 31); [intros ->; lia | vm_compute; reflexivity].
  - cut (lookupDays (attendanceData oneAbsence) "cs301" (monthKey 2025 6) = [28]);
      [intros ->; apply NoDup_singleton | vm_compute; reflexivity].
  - vm_compute. reflexivity.
  - split; [exact H1 | exact H3].
Defined.

Lemma totalConducted_counts_class_days_witness :
  ∃ stats,
    getStats semesterStart semesterEnd ∅ ∅ "cs301" aug15 = Some stats
    ∧ totalConducted (counts stats)
      = Z.of_nat (length (getStats_conducted semesterStart semesterEnd ∅ "cs301" aug15))
    ∧ NoDup (getStats_conducted semesterStart semesterEnd ∅ "cs301" aug15).
Proof.
  destruct (totalConducted_counts_class_days semesterStart semesterEnd ∅ ∅ "cs301" aug15)
    as (stats & Hs & Hc & Hnd & _).
  - vm_compute. reflexivity.
  - cut (getFullYear semesterStart = 2025); [intros ->; lia | vm_compute; reflexivity].
  - exists stats. split; [exact Hs|]. split; [exact Hc | exact Hnd].
Defined.

Lemma nothing_before_the_semester_witness :
  getStats semesterStart semesterEnd (attendanceData oneAbsence) ∅ "cs301"
    (newDate 2025 6 1)
  = Some {| counts := noCounts; totalPossibleLeaves := 0; possibleLeaves := 0 |}
  ∧ cardPercent semesterStart semesterEnd (attendanceData oneAbsence) ∅ "cs301"
      (newDate 2025 6 1) = Some 0
  ∧ clickable
      (classifyDay semesterStart semesterEnd (attendanceData oneAbsence) ∅ "cs301"
         6 2025 (newDate 2025 6 1) 28)
    = false.
Proof.
  apply nothing_before_the_semester.
  - split; [vm_compute; reflexivity|]. split.
    + cut (getFullYear semesterStart = 2025); [intros ->; lia | vm_compute; reflexivity].
    + apply Z.leb_le. vm_compute. reflexivity.
  - apply Z.ltb_lt. vm_compute. reflexivity.
Defined.

Lemma monthly_class_thresholds_witness :
  ∃ cal p,
    renderCalendar semesterStart semesterEnd (attendanceData oneAbsence) ∅ "cs301"
      6 2025 aug15 aug15 = Some cal
    ∧ monthlyPercent cal = Some p ∧ 0 <= p <= 100.
Proof.
  destruct (renderCalendar semesterStart semesterEnd (attendanceData oneAbsence) ∅ "cs301"
              6 2025 aug15 aug15) as [cal|] eqn:E; [|vm_compute in E; discriminate].
  destruct (monthly_class_thresholds semesterStart semesterEnd (attendanceData oneAbsence) ∅
              "cs301" 6 2025 aug15 aug15 cal E) as (p & Hp & Hr & _).
  exists cal, p. split; [reflexivity|]. split; [exact Hp | exact Hr].
Defined.

Lemma calendar_summary_counts_cells_witness :
  ∃ cal,
    renderCalendar semesterStart semesterEnd (attendanceData oneAbsence) ∅ "cs301"
      6 2025 aug15 aug15 = Some cal
    ∧ monthStats cal = cellCounts (cells cal).
Proof.
  destruct (renderCalendar semesterStart semesterEnd (attendanceData oneAbsence) ∅ "cs301"
              6 2025 aug15 aug15) as [cal|] eqn:E; [|vm_compute in E; discriminate].
  exists cal. split; [reflexivity|].
  apply (calendar_summary_counts_cells semesterStart semesterEnd (attendanceData oneAbsence)
           ∅ "cs301" 6 2025 aug15 aug15 cal).
  - vm_compute. reflexivity.
  - lia.
  - lia.
  - cut (12 * getFullYear aug15 + getMonth aug15 = 24307);
      [intros ->; lia | vm_compute; reflexivity].
  - reflexivity.
  - exact E.
Defined.

(** The statistics of a class that has no entry, on August 15. *)
Lemma unknown_class_statistics_witness :
  (∃ m stats,
     getMonthlyStats semesterStart semesterEnd (attendanceData oneAbsence) ∅
       "cs999" 7 2025 aug15 = m
     ∧ getStats semesterStart semesterEnd (attendanceData oneAbsence) ∅ "cs999" aug15
       = Some stats)
  ∧ (let m := getMonthlyStats semesterStart semesterEnd (attendanceData oneAbsence) ∅
              "cs999" 7 2025 aug15 in
   m = getMonthlyStats semesterStart semesterEnd ∅ ∅ "cs999" 7 2025 aug15
   ∧ totalAbsent m = 0 ∧ totalOff m = 0
   ∧ totalConducted m
     = weekDaysIn 2025 7
         (dayRange semesterStart semesterEnd 2025 7 aug15).1
         (dayRange semesterStart semesterEnd 2025 7 aug15).2)
  ∧ ∃ stats,
      getStats semesterStart semesterEnd (attendanceData oneAbsence) ∅ "cs999" aug15
      = Some stats
      ∧ getStats semesterStart semesterEnd ∅ ∅ "cs999" aug15 = Some stats
      ∧ totalAbsent (counts stats) = 0 ∧ totalOff (counts stats) = 0
      ∧ (TimeWithinDay semesterStart = 0 → 100 <= getFullYear semesterStart →
         ∃ days : list Date,
           totalConducted (counts stats) = Z.of_nat (length days)
           ∧ NoDup days
           ∧ ∀ date,
               date ∈ days
               ↔ TimeWithinDay date = 0 ∧ semesterStart <= date <= semesterEnd
                 ∧ date <= aug15
                 ∧ (getDay date =? 0) || (getDay date =? 6) = false).
Proof.
  destruct (unknown_class_statistics semesterStart semesterEnd (attendanceData oneAbsence) ∅
              "cs999" 7 2025 aug15) as [H1 H2].
  split; [exact H1|].
  apply H2; [vm_compute; reflexivity | apply lookup_empty].
Defined.

Lemma showAttendance_opens_allowed_month_witness :
  ∃ classState' cal,
    showAttendance semesterStart semesterEnd ∅ ∅ ∅ "cs301" false aug15 aug15 aug15
    = (classState', Some (Some cal))
    ∧ viewsAllowed semesterStart semesterEnd classState'.
Proof.
  destruct (showAttendance_opens_allowed_month semesterStart semesterEnd ∅ ∅ ∅ "cs301"
              aug15 aug15 aug15)
    as (classState' & v & cal & Hs & _ & _ & Hv & _).
  - split; [vm_compute; reflexivity|]. split.
    + cut (getFullYear semesterStart = 2025); [intros ->; lia | vm_compute; reflexivity].
    + apply Z.leb_le. vm_compute. reflexivity.
  - intros c v H. rewrite lookup_empty in H. discriminate.
  - exists classState', cal. split; [exact Hs | exact Hv].
Defined.

End Instances.
